(** * GTM contact intelligence: signal scoring, wedge detection, playbook synthesis

    A shallow embedding of
      - [src/processors/signal-scorer.js]    (module [SignalScorer]),
      - [src/processors/wedge-detector.js]   (module [WedgeDetector]),
      - [src/processors/playbook-generator.js] (module [PlaybookGenerator]),
      - [src/exporters/clay-formatter.js]    (module [ClayFormatter]),
    and the properties their specification states about them.

    Conventions of the embedding.
      - A JavaScript number is a rational ([Q]).  A literal and a DECIMAL
        column are the rationals they spell; the engine holds the binary64
        value nearest to them ([Js.double]), and two rationals are the same
        number for the program when they round to the same binary64 value
        ([Js.same_number]).  The sum the wedge detector computes for a score,
        [0.95 + recencyBoost], is taken as the engine takes it, in binary64
        ([Js.add]): its result is what the playbook stores and what the
        specification compares with a literal.  The weighted sums of the
        scorer and of the formatter are exact; what is stated of them are
        relations between their results (order, bounds, thresholds on the
        two-decimal values of the columns).  Integer columns and day counts
        are [Z].
      - Strings are [string]; [toLowerCase] acts on the ASCII letters.
      - A database read is the outcome of its promise: [Ok v] when it resolves
        to [v], [Err msg] when it rejects with an error of message [msg].  A
        block that can throw has the same outcomes: [Err msg] is the thrown
        error.
      - [Date.now()] is an explicit argument [now], in milliseconds.
      - Nullable columns are [option]s.  [post_content] is nullable and the
        manual-entry route stores posts without it ([routes/linkedin.js]);
        the code reads its properties without a guard, which throws a
        TypeError on NULL.  [key_themes] and [topics_detected] are arrays in
        every row written through [savePosts], the one writer of the flags
        and of the engagement count, and [full_name] is NOT NULL. *)

From Stdlib Require Import ZArith QArith Qabs Qround Qminmax List String Ascii Bool Lia.
From Stdlib Require Import DecimalString Lqa Floats.
From Stdlib Require Import Sorting.Sorted Sorting.Permutation.
Import ListNotations.

Open Scope string_scope.
Open Scope Z_scope.
Open Scope Q_scope.

(** ** JavaScript helpers *)

Module Js.

(** The outcome of an awaited promise. *)
Inductive result (A : Type) : Type :=
| Ok (value : A)
| Err (message : string).
Arguments Ok {A} value.
Arguments Err {A} message.

Definition is_ok {A} (r : result A) : bool :=
  match r with Ok _ => true | Err _ => false end.

(** Sequencing inside a [try] block: the first rejection awaited, or error
    thrown, ends the block. *)
Definition bind {A B} (r : result A) (k : A -> result B) : result B :=
  match r with
  | Ok v => k v
  | Err msg => Err msg
  end.

Notation "x <- r ;; k" := (bind r (fun x => k))
  (at level 61, r at next level, right associativity).

(** [a.forEach(f)] for a callback that pushes one element and may throw:
    the elements pushed, or the first error thrown. *)
Fixpoint for_each {A B} (f : A -> result B) (l : list A) : result (list B) :=
  match l with
  | [] => Ok []
  | x :: l' => y <- f x ;; ys <- for_each f l' ;; Ok (y :: ys)
  end.

(** The message of the TypeError thrown on reading a property of null (the
    wording of V8, the engine of Node.js). *)
Definition null_property (name : string) : string :=
  "Cannot read properties of null (reading '" ++ name ++ "')".

(** [x.name] for a column [x] that may be NULL. *)
Definition prop {A} (name : string) (x : option A) : result A :=
  match x with
  | Some v => Ok v
  | None => Err (null_property name)
  end.

(** [a < b] on numbers. *)
Definition Qltb (a b : Q) : bool := negb (Qle_bool b a).

(** [Math.round]: nearest integer, halves towards plus infinity. *)
Definition round (x : Q) : Z := Qfloor (x + (1 # 2)).

(** The nearest integer, a half going to the even neighbour. *)
Definition round_half_even (x : Q) : Z :=
  let f := Qfloor x in
  let r := x - inject_Z f in
  if Qltb r (1 # 2) then f
  else if Qltb (1 # 2) r then (f + 1)%Z
  else if Z.even f then f else (f + 1)%Z.

(** The exponent [e] for which the binary64 values next to [q] are the
    multiples of [2 ^ e]: 52 below the exponent of the leading bit of [q],
    and -1074 in the subnormal range. *)
Definition ulp_exponent (q : Q) : Z :=
  let k := (Z.log2 (Z.abs (Qnum q)) - Z.log2 (Zpos (Qden q)))%Z in
  let l := if Qle_bool (2 ^ k) (Qabs q) then k else (k - 1)%Z in
  Z.max (l - 52) (-1074).

(** The binary64 value nearest to a rational, ties to the even significand:
    what the engine holds for a literal or a parsed column.  Magnitudes
    beyond the largest finite binary64 value are outside the model. *)
Definition double (q : Q) : Q :=
  if Qeq_bool q 0 then 0
  else
    let e := ulp_exponent q in
    inject_Z (round_half_even (q / 2 ^ e)) * 2 ^ e.

(** [x + y] on numbers: the binary64 sum of the operands the engine holds. *)
Definition add (x y : Q) : Q := double (double x + double y).

(** [x === y] on numbers, as the engine holds them. *)
Definition same_number (x y : Q) : Prop := double x == double y.

(** The rational a binary64 value of the kernel stands for (0 for the
    infinities and NaN, which no score takes). *)
Definition rational_of (f : float) : Q :=
  match Prim2SF f with
  | S754_finite s m e =>
      (if s then -1 else 1) * inject_Z (Zpos m) * 2 ^ e
  | _ => 0
  end.

(** A number interpolated in a template literal. *)
Definition show_int (z : Z) : string := NilZero.string_of_int (Z.to_int z).

Definition show_nat (n : nat) : string := show_int (Z.of_nat n).

(** An integer column interpolated in a template literal; NULL prints as
    the word null. *)
Definition show_int_col (o : option Z) : string :=
  match o with Some z => show_int z | None => "null" end.

(** A possibly undefined string interpolated in a template literal. *)
Definition show_str (o : option string) : string :=
  match o with Some s => s | None => "undefined" end.

(** [x || d] for a string [x] that may be undefined: the empty string is
    falsy as well. *)
Definition or_str (o : option string) (d : string) : string :=
  match o with
  | Some s => if String.eqb s "" then d else s
  | None => d
  end.

(** A text column interpolated in a template literal; NULL prints as the
    word null. *)
Definition show_col (o : option string) : string :=
  match o with Some s => s | None => "null" end.

(** Truthiness of a string that may be null or undefined. *)
Definition truthy_str (o : option string) : bool :=
  match o with Some s => negb (String.eqb s "") | None => false end.

(** [a === b] on text columns. *)
Definition same_str (a b : option string) : bool :=
  match a, b with
  | Some x, Some y => String.eqb x y
  | None, None => true
  | _, _ => false
  end.

(** The line break of a multi-line template literal. *)
Definition nl : string := String (ascii_of_nat 10) EmptyString.

(** [x || 0] for an integer column: NULL and 0 both give 0. *)
Definition or_zero (o : option Z) : Z :=
  match o with Some z => z | None => 0%Z end.

(** Truthiness of an integer column: NULL and 0 are falsy. *)
Definition truthy_int (o : option Z) : bool :=
  match o with Some z => negb (z =? 0)%Z | None => false end.

(** [a[0]]. *)
Definition first {A} (l : list A) : option A := hd_error l.

(** A relative index of [Array.prototype.slice], clamped to the array. *)
Definition rel_index (len i : Z) : Z :=
  if (i <? 0)%Z then Z.max (len + i) 0 else Z.min i len.

(** [a.slice(s, e)] for integer [s] and [e]. *)
Definition slice {A} (l : list A) (s e : Z) : list A :=
  let len := Z.of_nat (List.length l) in
  let k := rel_index len s in
  let f := rel_index len e in
  firstn (Z.to_nat (f - k)) (skipn (Z.to_nat k) l).

(** [a.find(p)]. *)
Definition find {A} (p : A -> bool) (l : list A) : option A := List.find p l.

(** [a.sort(cmp)]: the sort is stable, and [cmp x y > 0] places [x] after
    [y].  For a comparator that is a difference of keys the result is the
    one stable arrangement, whatever algorithm the engine runs; it is
    computed here by insertion. *)
Fixpoint sort_insert {A} (cmp : A -> A -> Q) (x : A) (l : list A) : list A :=
  match l with
  | [] => [x]
  | y :: l' => if Qltb 0 (cmp x y) then y :: sort_insert cmp x l'
               else x :: y :: l'
  end.

Definition sort {A} (cmp : A -> A -> Q) (l : list A) : list A :=
  fold_right (sort_insert cmp) [] l.

(** [s.toLowerCase()] on ASCII. *)
Definition lower_ascii (c : ascii) : ascii :=
  let n := nat_of_ascii c in
  if ((65 <=? n) && (n <=? 90))%nat then ascii_of_nat (n + 32) else c.

Fixpoint toLowerCase (s : string) : string :=
  match s with
  | EmptyString => EmptyString
  | String c s' => String (lower_ascii c) (toLowerCase s')
  end.

(** [s.startsWith(p)]. *)
Definition startsWith (s p : string) : bool := String.prefix p s.

(** [s.includes(p)]. *)
Fixpoint includes (s p : string) : bool :=
  String.prefix p s ||
  match s with
  | EmptyString => false
  | String _ s' => includes s' p
  end.

(** [s.substring(0, n)]. *)
Definition substring0 (n : nat) (s : string) : string := String.substring 0 n s.

(** [s.split(' ')[0]]: the text before the first space. *)
Fixpoint first_word (s : string) : string :=
  match s with
  | EmptyString => EmptyString
  | String c s' => if Ascii.eqb c " "%char then EmptyString
                   else String c (first_word s')
  end.

(** [a.join(sep)]. *)
Fixpoint join (sep : string) (l : list string) : string :=
  match l with
  | [] => ""
  | [x] => x
  | x :: l' => x ++ sep ++ join sep l'
  end.

End Js.
Import Js.

(** ** Configuration ([config/config.js], section [intelligence]) *)

Record Config : Type := {
  linkedinRelevanceBoost : Q;
  minSignalRelevanceScore : Q
}.

(** The values used when the environment overrides nothing. *)
Definition default_config : Config :=
  {| linkedinRelevanceBoost := 0.3; minSignalRelevanceScore := 0.5 |}.

(** ** Data model: rows of [db/schema.sql] as the queries return them *)

(** A row of [intelligence_signals].  The three scores are the values
    [parseFloat] reads from the DECIMAL columns; [raw_techStack] is
    [raw_data?.techStack], the only part of [raw_data] the code reads. *)
Record Signal : Type := {
  signal_type : string;
  signal_category : string;
  description : string;
  relevance_score : Q;
  urgency_score : Q;
  wedge_potential : Q;
  raw_techStack : option (list string)
}.

(** An element of the scorer's output: the copy of the signal (its relevance
    replaced when boosted) with the two fields the scorer adds. *)
Record ScoredSignal : Type := {
  scored : Signal;
  linkedin_boosted : bool;
  composite_score : Q
}.

(** ** Signal scorer *)

Module SignalScorer.

Definition isLinkedInSignal (signalType : string) : bool :=
  existsb (String.eqb signalType)
    ["linkedin_activity"; "linkedin_content"; "linkedin_profile_change"].

Definition calculateCompositeScore (relevance urgency wedgePotential : Q) : Q :=
  relevance * 0.4 + urgency * 0.3 + wedgePotential * 0.3.

Definition with_relevance (s : Signal) (r : Q) : Signal :=
  {| signal_type := signal_type s;
     signal_category := signal_category s;
     description := description s;
     relevance_score := r;
     urgency_score := urgency_score s;
     wedge_potential := wedge_potential s;
     raw_techStack := raw_techStack s |}.

(** The body of the [signals.map] callback. *)
Definition boost (cfg : Config) (signal : Signal) : ScoredSignal :=
  let li := isLinkedInSignal (signal_type signal) in
  let boosted :=
    if li
    then with_relevance signal
           (Qmin (relevance_score signal + linkedinRelevanceBoost cfg) 1.0)
    else signal in
  {| scored := boosted;
     linkedin_boosted := li;
     composite_score :=
       calculateCompositeScore (relevance_score boosted)
         (urgency_score signal) (wedge_potential signal) |}.

Definition by_composite_desc (a b : ScoredSignal) : Q :=
  composite_score b - composite_score a.

(** [scoreAndPrioritizeSignals], given the outcome of
    [signalQueries.getSignalsByContact]. *)
Definition scoreAndPrioritizeSignals (cfg : Config)
    (fetched : result (list Signal)) : list ScoredSignal :=
  match fetched with
  | Err _ => []
  | Ok signals =>
      if (List.length signals =? 0)%nat then []
      else
        let boostedSignals := map (boost cfg) signals in
        let filteredSignals :=
          filter (fun s => Qle_bool (minSignalRelevanceScore cfg)
                             (relevance_score (scored s)))
                 boostedSignals in
        Js.sort by_composite_desc filteredSignals
  end.

Definition getTopSignals (cfg : Config) (fetched : result (list Signal))
    (count : Z) : list ScoredSignal :=
  Js.slice (scoreAndPrioritizeSignals cfg fetched) 0 count.

(** [counts[key] = (counts[key] || 0) + 1] on an object used as a table of
    counters, its keys in insertion order. *)
Fixpoint increment (key : string) (counts : list (string * nat))
  : list (string * nat) :=
  match counts with
  | [] => [(key, 1%nat)]
  | (k, n) :: rest =>
      if String.eqb k key then (k, S n) :: rest
      else (k, n) :: increment key rest
  end.

(** The object [analyzeSignalDistribution] returns. *)
Record Distribution : Type := {
  total : nat;
  byType : list (string * nat);
  byCategory : list (string * nat);
  linkedinCount : nat;
  highPriority : nat;
  mediumPriority : nat;
  lowPriority : nat
}.

(** The body of the [signals.forEach] callback of
    [analyzeSignalDistribution]; the composite score is computed on the
    stored relevance, without the boost. *)
Definition countSignal (distribution : Distribution) (signal : Signal)
  : Distribution :=
  let compositeScore :=
    calculateCompositeScore (relevance_score signal) (urgency_score signal)
      (wedge_potential signal) in
  {| total := total distribution;
     byType := increment (signal_type signal) (byType distribution);
     byCategory := increment (signal_category signal) (byCategory distribution);
     linkedinCount :=
       if isLinkedInSignal (signal_type signal)
       then S (linkedinCount distribution) else linkedinCount distribution;
     highPriority :=
       if Qltb 0.8 compositeScore
       then S (highPriority distribution) else highPriority distribution;
     mediumPriority :=
       if Qltb 0.8 compositeScore then mediumPriority distribution
       else if Qle_bool 0.6 compositeScore
            then S (mediumPriority distribution)
            else mediumPriority distribution;
     lowPriority :=
       if Qltb 0.8 compositeScore then lowPriority distribution
       else if Qle_bool 0.6 compositeScore then lowPriority distribution
            else S (lowPriority distribution) |}.

(** [analyzeSignalDistribution]: there is no [try] around the read, so a
    rejection is the rejection of the call. *)
Definition analyzeSignalDistribution (fetched : result (list Signal))
  : result Distribution :=
  match fetched with
  | Err message => Err message
  | Ok signals =>
      Ok (fold_left countSignal signals
            {| total := List.length signals;
               byType := [];
               byCategory := [];
               linkedinCount := 0;
               highPriority := 0;
               mediumPriority := 0;
               lowPriority := 0 |})
  end.

End SignalScorer.

(** ** Rows read by the wedge detector and the playbook generator *)

(** A row of [linkedin_posts].  [post_date] is the timestamp in milliseconds
    ([new Date(d).getTime()]); a NULL date reads as 0.  [post_content] is
    NULL for a post stored without text. *)
Record Post : Type := {
  post_url : option string;
  post_date : option Z;
  post_content : option string;
  engagement_count : option Z;
  topics_detected : list string;
  key_themes : list string;
  mentions_pain_points : bool;
  mentions_buying_signals : bool
}.

(** A row of [linkedin_activity].  The table has no [current_company] column,
    so [profile.current_company] is undefined for every row. *)
Record Profile : Type := {
  location : option string;
  connections_count : option Z;
  followers_count : option Z;
  current_position_tenure_months : option Z;
  previous_companies : option (list string);
  influence_score : option Q
}.

(** A row of [github_activity]; [primary_languages] is the JSON array, each
    entry with its [language] field when it has one. *)
Record GithubActivity : Type := {
  github_username : option string;
  primary_languages : option (list (option string));
  activity_score : option Q
}.

(** [githubActivity.primary_languages?.[0]?.language]. *)
Definition top_language (g : GithubActivity) : option string :=
  match primary_languages g with
  | Some (Some l :: _) => Some l
  | _ => None
  end.

(** [githubActivity.activity_score > 0.6]; NULL converts to 0. *)
Definition github_active (g : GithubActivity) : bool :=
  match activity_score g with
  | Some a => Qltb 0.6 a
  | None => false
  end.

(** ** Wedges *)

Module Wedge.

(** The [details] object, one shape per detection rule. *)
Inductive Details : Type :=
| PainPoint (postUrl : option string) (postDate : option Z) (daysSince : Z)
    (themes : list string) (engagement : option Z) (content_preview : string)
| BuyingSignal (postUrl : option string) (postDate : option Z) (daysSince : Z)
    (content_preview : string)
| JobChange (tenureMonths : Z) (phase : string)
| ThoughtLeadership (postUrl : option string) (engagement : option Z)
    (avgEngagement : Z) (topics : list string) (daysSince : Z)
| ActivePoster (postCount : nat) (topTopics : list string)
| Technical (githubActivity : option Q)
    (githubLanguages : option (list (option string)))
    (linkedinTechnicalPosts : nat)
| Initiative (signal : string) (rawData : option (list string)).

Record t : Type := {
  type : string;
  score : Q;
  description : string;
  details : Details;
  openingHook : string;
  timingRationale : string;
  conversationStarters : list string
}.

(** [wedge.details?.postUrl]. *)
Definition postUrl_of (d : Details) : option string :=
  match d with
  | PainPoint u _ _ _ _ _ => u
  | BuyingSignal u _ _ _ => u
  | ThoughtLeadership u _ _ _ _ => u
  | _ => None
  end.

(** [details.daysSince], for the rules that record it. *)
Definition daysSince_of (d : Details) : option Z :=
  match d with
  | PainPoint _ _ n _ _ _ => Some n
  | BuyingSignal _ _ n _ => Some n
  | ThoughtLeadership _ _ _ _ n => Some n
  | _ => None
  end.

End Wedge.

(** The object [detectWedges] returns. *)
Record WedgeResult : Type := {
  wedges : list Wedge.t;
  primaryWedge : option Wedge.t;
  wedgeCount : nat
}.

(** ** Wedge detector *)

Module WedgeDetector.

Definition ms_per_day : Z := (1000 * 60 * 60 * 24)%Z.

(** [getDaysSince(date)] at time [now]. *)
Definition getDaysSince (now : Z) (date : option Z) : Z :=
  ((now - or_zero date) / ms_per_day)%Z.

Definition generatePainPointHook (post : Post) : string :=
  let theme := or_str (first (key_themes post)) "this challenge" in
  "Saw your recent post about " ++ theme ++ " - the "
    ++ show_int_col (engagement_count post)
    ++ " responses show it's a common frustration. We've helped similar companies tackle this.".

Definition extractBuyingIntent (content : string) : string :=
  let lowerContent := toLowerCase content in
  if includes lowerContent "recommend" then "recommendations"
  else if includes lowerContent "evaluat" then "solutions to evaluate"
  else if includes lowerContent "looking for" then "a solution"
  else if includes lowerContent "anyone use" then "tool recommendations"
  else "solutions".

(** *** The object [topicCounts]

    A plain object is the list of its own properties in the order of their
    creation.  What a counter holds is a number or, under a name that
    [Object.prototype] defines, a text that is not a number. *)
Inductive tally : Type :=
| Number (n : Z)
| Text.

(** The methods a plain object inherits from [Object.prototype]; reading one
    of them on an object that has no own property of that name gives a
    function. *)
Definition inherited_methods : list string :=
  [ "constructor"; "toString"; "toLocaleString"; "valueOf"; "hasOwnProperty";
    "isPrototypeOf"; "propertyIsEnumerable"; "__defineGetter__";
    "__defineSetter__"; "__lookupGetter__"; "__lookupSetter__" ].

(** [(v || 0) + 1] for the value [v] of an own property: a count is
    incremented, a text gets a digit appended and stays a text. *)
Definition plus_one (v : tally) : tally :=
  match v with
  | Number n => Number (n + 1)
  | Text => Text
  end.

(** [(undefined || 0) + 1] is 1; an inherited function is truthy, and adding
    1 to it gives a text. *)
Definition first_count (topic : string) : tally :=
  if existsb (String.eqb topic) inherited_methods then Text else Number 1.

Fixpoint assign_count (topic : string) (counts : list (string * tally))
  : list (string * tally) :=
  match counts with
  | [] => [(topic, first_count topic)]
  | (k, v) :: rest =>
      if String.eqb k topic then (k, plus_one v) :: rest
      else (k, v) :: assign_count topic rest
  end.

(** [topicCounts[topic] = (topicCounts[topic] || 0) + 1].  Under the name
    [__proto__] the assignment calls the inherited setter, which ignores a
    value that is not an object: no property is created. *)
Definition count_topic (topic : string) (counts : list (string * tally))
  : list (string * tally) :=
  if String.eqb topic "__proto__" then counts
  else assign_count topic counts.

(** The array index a property name spells, if any: the decimal notation,
    without leading zero, of an integer below 2^32 - 1. *)
Definition array_index (key : string) : option Z :=
  match NilZero.uint_of_string key with
  | Some u =>
      let n := Z.of_uint u in
      if String.eqb (show_int n) key && (n <? 4294967295)%Z then Some n
      else None
  | None => None
  end.

Definition is_index (entry : string * tally) : bool :=
  match array_index (fst entry) with Some _ => true | None => false end.

Definition by_index (a b : string * tally) : Q :=
  inject_Z (or_zero (array_index (fst a)))
  - inject_Z (or_zero (array_index (fst b))).

(** [Object.entries(o)]: the properties named by array indices first, in
    ascending order, then the others in the order of their creation. *)
Definition entries (counts : list (string * tally)) : list (string * tally) :=
  (Js.sort by_index (filter is_index counts)
   ++ filter (fun e => negb (is_index e)) counts)%list.

(** [(a, b) => b[1] - a[1]]: a difference with a text is NaN, which [sort]
    reads as 0. *)
Definition by_count_desc (a b : string * tally) : Q :=
  match snd a, snd b with
  | Number x, Number y => inject_Z y - inject_Z x
  | _, _ => 0
  end.

(** [extractTopTopics(posts)].  When some count is a text the comparator is
    not consistent and the standard leaves the order of the result to the
    engine; the order computed here is then one of the possible ones. *)
Definition extractTopTopics (posts : list Post) : list string :=
  let topicCounts :=
    fold_left
      (fun counts post =>
         fold_left (fun c topic => count_topic topic c)
                   (topics_detected post) counts)
      posts [] in
  Js.slice (map fst (Js.sort by_count_desc (entries topicCounts))) 0 3.

Definition recencyBoost (daysSincePost : Z) : Q :=
  if (daysSincePost <? 7)%Z then 0.15
  else if (daysSincePost <? 14)%Z then 0.10
  else 0.05.

(** The object pushed for one pain-point post, [content] being its
    [post_content]. *)
Definition painPointWedge (now : Z) (post : Post) (content : string)
  : Wedge.t :=
  let daysSincePost := getDaysSince now (post_date post) in
  {| Wedge.type := "linkedin_pain_point";
     Wedge.score := Js.add 0.95 (recencyBoost daysSincePost);
     Wedge.description := "Recent LinkedIn post discussing pain points";
     Wedge.details :=
       Wedge.PainPoint (post_url post) (post_date post) daysSincePost
         (key_themes post) (engagement_count post)
         (substring0 200 content);
     Wedge.openingHook := generatePainPointHook post;
     Wedge.timingRationale :=
       "Posted " ++ show_int daysSincePost ++ " days ago with "
         ++ show_int_col (engagement_count post)
         ++ " engagements - indicates active, shared pain point";
     Wedge.conversationStarters :=
       [ "Saw your recent post about "
           ++ or_str (first (key_themes post)) "challenges";
         "The " ++ show_int_col (engagement_count post)
           ++ " responses to your post show this is a common issue";
         "Your point about "
           ++ or_str (first (key_themes post)) "the problem"
           ++ " really resonated" ] |}.

(** [detectPainPointWedges(posts)]: [post.post_content.substring] throws for
    a flagged post without content, which ends the loop and the call. *)
Definition detectPainPointWedges (now : Z) (posts : list Post)
  : result (list Wedge.t) :=
  let painPointPosts := filter mentions_pain_points posts in
  for_each
    (fun post =>
       content <- prop "substring" (post_content post) ;;
       Ok (painPointWedge now post content))
    painPointPosts.

(** The object pushed for one buying-signal post, [content] being its
    [post_content]. *)
Definition buyingSignalWedge (now : Z) (post : Post) (content : string)
  : Wedge.t :=
  let daysSince := getDaysSince now (post_date post) in
  {| Wedge.type := "linkedin_buying_signal";
     Wedge.score := 0.98;
     Wedge.description := "Active buying signal detected in LinkedIn post";
     Wedge.details :=
       Wedge.BuyingSignal (post_url post) (post_date post) daysSince
         (substring0 200 content);
     Wedge.openingHook :=
       "Saw you're looking for " ++ extractBuyingIntent content
         ++ " - happy to share what's worked for similar companies";
     Wedge.timingRationale :=
       "Active evaluation happening now - posted " ++ show_int daysSince
         ++ " days ago";
     Wedge.conversationStarters :=
       [ "Saw your question about solutions for "
           ++ show_str (first (key_themes post));
         "Happy to share how similar companies approached this";
         "Would love to share what we've learned from others in your situation" ] |}.

(** [detectBuyingSignalWedges(posts)]: here too the first access,
    [post.post_content.substring], throws when the content is NULL. *)
Definition detectBuyingSignalWedges (now : Z) (posts : list Post)
  : result (list Wedge.t) :=
  let buyingSignalPosts := filter mentions_buying_signals posts in
  for_each
    (fun post =>
       content <- prop "substring" (post_content post) ;;
       Ok (buyingSignalWedge now post content))
    buyingSignalPosts.

Definition recentJobChangeWedge (tenureMonths : Z) : Wedge.t :=
  {| Wedge.type := "linkedin_job_change_recent";
     Wedge.score := 0.90;
     Wedge.description :=
       "Recently joined company " ++ show_int tenureMonths ++ " months ago";
     Wedge.details := Wedge.JobChange tenureMonths "evaluation";
     Wedge.openingHook :=
       "Congrats on the new role! Curious how you're approaching [relevant challenge] as you get settled";
     Wedge.timingRationale :=
       show_int tenureMonths
         ++ " months in - still in evaluation phase, likely reviewing tech stack";
     Wedge.conversationStarters :=
       [ "Congrats on joining " ++ or_str None "your company";
         "Curious what you're prioritizing in your first few months";
         "How are you thinking about [relevant area] in your new role" ] |}.

Definition optimalJobChangeWedge (tenureMonths : Z) : Wedge.t :=
  {| Wedge.type := "linkedin_job_change_optimal";
     Wedge.score := 0.85;
     Wedge.description :=
       show_int tenureMonths ++ " months into current role - past honeymoon phase";
     Wedge.details := Wedge.JobChange tenureMonths "optimization";
     Wedge.openingHook :=
       show_int tenureMonths
         ++ " months in - curious what challenges you're focusing on now";
     Wedge.timingRationale :=
       "Past honeymoon phase but not entrenched - optimal time to evaluate new solutions";
     Wedge.conversationStarters :=
       [ "What's top of mind for you these days";
         "What challenges are you tackling now that you're "
           ++ show_int tenureMonths ++ " months in";
         "How's your approach to [relevant area] evolved since joining" ] |}.

(** [detectJobChangeWedges(profile, signals)]; the second argument is not
    read by the body. *)
Definition detectJobChangeWedges (profile : option Profile)
    (signals : list Signal) : list Wedge.t :=
  match profile with
  | None => []
  | Some p =>
      match current_position_tenure_months p with
      | None => []
      | Some tenureMonths =>
          if negb (truthy_int (Some tenureMonths)) then []
          else if (tenureMonths <? 6)%Z then [recentJobChangeWedge tenureMonths]
          else if ((6 <=? tenureMonths) && (tenureMonths <=? 12))%Z
               then [optimalJobChangeWedge tenureMonths]
               else []
      end
  end.

(** [posts.reduce((sum, p) => sum + (p.engagement_count || 0), 0) / posts.length] *)
Definition avgEngagement (posts : list Post) : Q :=
  inject_Z (fold_left (fun sum p => (sum + or_zero (engagement_count p))%Z)
                      posts 0%Z)
  / inject_Z (Z.of_nat (List.length posts)).

(** The predicate of the high-engagement filter. *)
Definition highEngagement (avg : Q) (p : Post) : bool :=
  Qltb (avg * 2) (inject_Z (or_zero (engagement_count p))).

Definition thoughtLeadershipWedge (now : Z) (avg : Q) (topPost : Post)
  : Wedge.t :=
  let daysSince := getDaysSince now (post_date topPost) in
  {| Wedge.type := "linkedin_thought_leadership";
     Wedge.score := 0.85;
     Wedge.description := "High-engagement LinkedIn post on relevant topic";
     Wedge.details :=
       Wedge.ThoughtLeadership (post_url topPost) (engagement_count topPost)
         (Js.round avg) (topics_detected topPost) daysSince;
     Wedge.openingHook :=
       "Loved your recent post on "
         ++ match first (key_themes topPost) with
            | Some s => if String.eqb s ""
                        then show_str (first (topics_detected topPost))
                        else s
            | None => show_str (first (topics_detected topPost))
            end
         ++ " - especially your point about [specific insight]";
     Wedge.timingRationale :=
       "High engagement (" ++ show_int_col (engagement_count topPost)
         ++ " vs " ++ show_int (Js.round avg)
         ++ " average) shows this topic resonates with their audience";
     Wedge.conversationStarters :=
       [ "Your post about "
           ++ or_str (first (key_themes topPost)) "this topic"
           ++ " really resonated";
         "The engagement on your recent post was impressive";
         "Would love to hear more about your thoughts on "
           ++ show_str (first (topics_detected topPost)) ] |}.

Definition activePosterWedge (posts : list Post) : Wedge.t :=
  let topTopics := extractTopTopics posts in
  {| Wedge.type := "linkedin_active_poster";
     Wedge.score := 0.75;
     Wedge.description :=
       "Active LinkedIn poster (" ++ show_nat (List.length posts)
         ++ " posts recently)";
     Wedge.details := Wedge.ActivePoster (List.length posts) topTopics;
     Wedge.openingHook :=
       "Appreciate your LinkedIn content on " ++ show_str (first topTopics)
         ++ " - clear you're thinking deeply about this";
     Wedge.timingRationale :=
       "Active on LinkedIn - responsive to DMs and engaged with their network";
     Wedge.conversationStarters :=
       [ "Love following your LinkedIn content";
         "Your posts on " ++ show_str (first topTopics)
           ++ " are always insightful";
         "Clearly you're passionate about " ++ show_str (first topTopics) ] |}.

Definition detectThoughtLeadershipWedges (now : Z) (posts : list Post)
  : list Wedge.t :=
  if (List.length posts =? 0)%nat then []
  else
    let avg := avgEngagement posts in
    let highEngagementPosts := filter (highEngagement avg) posts in
    (match highEngagementPosts with
     | topPost :: _ => [thoughtLeadershipWedge now avg topPost]
     | [] => []
     end)
    ++ (if (10 <=? List.length posts)%nat then [activePosterWedge posts]
        else []).

Definition technicalTopics : list string :=
  ["API"; "integration"; "technical"; "developer"; "automation"].

(** The predicate of the technical-post filter. *)
Definition isTechnicalPost (p : Post) : bool :=
  existsb (fun t => existsb (String.eqb t) technicalTopics) (topics_detected p).

Definition technicalWedge (technicalPosts : list Post) (g : GithubActivity)
  : Wedge.t :=
  {| Wedge.type := "technical_buyer";
     Wedge.score := 0.80;
     Wedge.description := "Technical buyer with LinkedIn + GitHub activity";
     Wedge.details :=
       Wedge.Technical (activity_score g) (primary_languages g)
         (List.length technicalPosts);
     Wedge.openingHook :=
       "Noticed your work in " ++ or_str (top_language g) "software development"
         ++ " - curious how you evaluate technical solutions";
     Wedge.timingRationale :=
       "Hands-on technical evaluator - values API docs, technical architecture";
     Wedge.conversationStarters :=
       [ "Saw your GitHub work in " ++ show_str (top_language g);
         "How do you typically evaluate technical solutions";
         "What matters most to you in terms of technical architecture" ] |}.

Definition detectTechnicalWedges (posts : list Post)
    (githubActivity : option GithubActivity) : list Wedge.t :=
  match githubActivity with
  | None => []
  | Some g =>
      let technicalPosts := filter isTechnicalPost posts in
      if (0 <? List.length technicalPosts)%nat && github_active g
      then [technicalWedge technicalPosts g]
      else []
  end.

(** The predicate of the initiative-signal filter. *)
Definition isInitiativeSignal (s : Signal) : bool :=
  String.eqb (signal_category s) "timing_trigger"
  && (String.eqb (signal_type s) "company_hiring"
      || String.eqb (signal_type s) "company_initiatives").

Definition initiativeWedge (signal : Signal) : Wedge.t :=
  {| Wedge.type := "company_initiative";
     Wedge.score := 0.70;
     Wedge.description := "Company hiring/initiative signals detected";
     Wedge.details := Wedge.Initiative (description signal) (raw_techStack signal);
     Wedge.openingHook :=
       "Noticed your company is [hiring/expanding] in [area] - curious how that ties into your priorities";
     Wedge.timingRationale :=
       "Company expansion creates budget and urgency for new tools";
     Wedge.conversationStarters :=
       [ "Saw your company is expanding in [area]";
         "How does [initiative] tie into your priorities";
         "What's driving the [hiring/expansion]" ] |}.

Definition detectInitiativeWedges (signals : list Signal) : list Wedge.t :=
  let initiativeSignals := filter isInitiativeSignal signals in
  match initiativeSignals with
  | signal :: _ => [initiativeWedge signal]
  | [] => []
  end.

(** The six rules in the order [detectWedges] runs them and pushes their
    wedges; an error thrown by a rule ends the sequence. *)
Definition allWedges (now : Z) (linkedinProfile : option Profile)
    (linkedinPosts : list Post) (signals : list Signal)
    (githubActivity : option GithubActivity) : result (list Wedge.t) :=
  painPointWedges <- detectPainPointWedges now linkedinPosts ;;
  buyingSignalWedges <- detectBuyingSignalWedges now linkedinPosts ;;
  let jobChangeWedges := detectJobChangeWedges linkedinProfile signals in
  let thoughtLeadershipWedges :=
    detectThoughtLeadershipWedges now linkedinPosts in
  let technicalWedges := detectTechnicalWedges linkedinPosts githubActivity in
  let initiativeWedges := detectInitiativeWedges signals in
  Ok (painPointWedges ++ buyingSignalWedges ++ jobChangeWedges
      ++ thoughtLeadershipWedges ++ technicalWedges ++ initiativeWedges)%list.

Definition by_score_desc (a b : Wedge.t) : Q := Wedge.score b - Wedge.score a.

(** The outcomes of the four reads [detectWedges] awaits. *)
Record Reads : Type := {
  getProfile : result (option Profile);
  getRecentPosts : result (list Post);
  getSignalsByContact : result (list Signal);
  getActivity : result (option GithubActivity)
}.

Definition noWedges : WedgeResult :=
  {| wedges := []; primaryWedge := None; wedgeCount := 0 |}.

(** The [try] block of [detectWedges]: the four reads, the six rules, the
    sort. *)
Definition tryDetect (now : Z) (db : Reads) : result WedgeResult :=
  linkedinProfile <- getProfile db ;;
  linkedinPosts <- getRecentPosts db ;;
  signals <- getSignalsByContact db ;;
  githubActivity <- getActivity db ;;
  wedges <- allWedges now linkedinProfile linkedinPosts signals githubActivity ;;
  let sortedWedges := Js.sort by_score_desc wedges in
  Ok {| wedges := sortedWedges;
        primaryWedge := first sortedWedges;
        wedgeCount := List.length sortedWedges |}.

(** [detectWedges]: a rejected read and an error thrown by a rule land in
    the same [catch], which logs the message and returns the empty result. *)
Definition detectWedges (now : Z) (db : Reads) : WedgeResult :=
  match tryDetect now db with
  | Ok r => r
  | Err _ => noWedges
  end.

End WedgeDetector.

(** ** Playbooks *)

(** A row of [contacts]. *)
Record Contact : Type := {
  full_name : string;
  current_company : option string;
  current_title : option string
}.

(** A row of [speaking_engagements]. *)
Record SpeakingEngagement : Type := {
  topics : option (list string);
  platform : option string
}.

Module Playbook.

(** [recommended_channels]. *)
Record Channels : Type := {
  linkedin_dm : Q;
  email : Q;
  phone : Q
}.

Record TriggerPost : Type := {
  url : option string;
  date : option Z;
  content_summary : string;
  engagement_level : string;
  trigger_topics : list string
}.

Record ProfileSignals : Type := {
  tenure : string;
  tenure_phase : string;
  recent_change : bool
}.

(** [linkedin_context]. *)
Record LinkedInContext : Type := {
  influence : option Q;
  connections : option Z;
  followers : option Z;
  recent_posts_count : nat;
  posting_frequency : string;
  trigger_post : option TriggerPost;
  profile_signals : option ProfileSignals
}.

(** [full_strategy_json], the snapshot of the inputs. *)
Record Strategy : Type := {
  contact : Contact;
  strategy_primaryWedge : Wedge.t;
  allWedges : list Wedge.t;
  topSignals : list ScoredSignal;
  linkedinActivity_profile : option Profile;
  linkedinActivity_recentPosts : list Post;
  githubActivity : option GithubActivity;
  speakingEngagements : list SpeakingEngagement
}.

Record t : Type := {
  primary_wedge : string;
  wedge_score : Q;
  linkedin_context : option LinkedInContext;
  supporting_evidence : list string;
  personalization_hooks : list string;
  timing_rationale : string;
  recommended_channels : Channels;
  sample_outreach : string;
  competitive_context : string;
  conversation_starters : list string;
  full_strategy_json : Strategy
}.

End Playbook.

(** The object [generatePlaybook] resolves to. *)
Record Response : Type := {
  success : bool;
  playbook : option Playbook.t;
  error : option string
}.

(** ** Playbook generator *)

Module PlaybookGenerator.

Definition formatSignalAsEvidence (signal : ScoredSignal) : string :=
  description (scored signal) ++ " (relevance: "
    ++ show_int (Js.round (relevance_score (scored signal) * 100)) ++ "%)".

Definition assessPostingFrequency (postCount : nat) : string :=
  if (15 <=? postCount)%nat then "very high"
  else if (10 <=? postCount)%nat then "high"
  else if (5 <=? postCount)%nat then "medium"
  else "low".

(** [assessEngagementLevel(postEngagement, avgEngagement)].  The quotient by
    a zero average is plus infinity for a positive engagement, and otherwise
    a value every comparison rejects. *)
Definition assessEngagementLevel (postEngagement : option Z) (avg : Q)
  : string :=
  let e := inject_Z (or_zero postEngagement) in
  if Qeq_bool avg 0 then (if Qltb 0 e then "very high" else "low")
  else
    let ratio := e / avg in
    if Qle_bool 2 ratio then "very high"
    else if Qle_bool 1.5 ratio then "high"
    else if Qle_bool 0.8 ratio then "medium"
    else "low".

Definition getTenurePhase (months : Z) : string :=
  if (months <? 3)%Z then "onboarding"
  else if (months <? 6)%Z then "evaluation"
  else if (months <? 12)%Z then "optimization"
  else if (months <? 24)%Z then "established"
  else "entrenched".

(** The [trigger_post] object, [content] being the post's [post_content]. *)
Definition triggerPostOf (posts : list Post) (triggerPost : Post)
    (content : string) : Playbook.TriggerPost :=
  {| Playbook.url := post_url triggerPost;
     Playbook.date := post_date triggerPost;
     Playbook.content_summary := substring0 150 content ++ "...";
     Playbook.engagement_level :=
       assessEngagementLevel (engagement_count triggerPost)
         (WedgeDetector.avgEngagement posts);
     Playbook.trigger_topics := topics_detected triggerPost |}.

(** [buildLinkedInContext(profile, posts, primaryWedge)]: null without a
    profile; [triggerPost.post_content.substring] throws when the trigger
    post has no content. *)
Definition buildLinkedInContext (profile : option Profile) (posts : list Post)
    (primaryWedge : Wedge.t) : result (option Playbook.LinkedInContext) :=
  match profile with
  | None => Ok None
  | Some p =>
      let postUrl := Wedge.postUrl_of (Wedge.details primaryWedge) in
      trigger_post <-
        (if startsWith (Wedge.type primaryWedge) "linkedin_"
            && truthy_str postUrl
         then
           match Js.find (fun q => same_str (post_url q) postUrl) posts with
           | Some triggerPost =>
               content <- prop "substring" (post_content triggerPost) ;;
               Ok (Some (triggerPostOf posts triggerPost content))
           | None => Ok None
           end
         else Ok None) ;;
      Ok (Some
        {| Playbook.influence := influence_score p;
           Playbook.connections := connections_count p;
           Playbook.followers := followers_count p;
           Playbook.recent_posts_count := List.length posts;
           Playbook.posting_frequency :=
             assessPostingFrequency (List.length posts);
           Playbook.trigger_post := trigger_post;
           Playbook.profile_signals :=
             match current_position_tenure_months p with
             | Some months =>
                 if truthy_int (Some months)
                 then Some
                   {| Playbook.tenure := show_int months ++ " months";
                      Playbook.tenure_phase := getTenurePhase months;
                      Playbook.recent_change := (months <? 6)%Z |}
                 else None
             | None => None
             end |})
  end.

Definition buildSupportingEvidence (signals : list ScoredSignal)
    (detected : WedgeResult) : list string :=
  map formatSignalAsEvidence (Js.slice signals 0 5)
  ++ map (fun wedge =>
            Wedge.description wedge ++ " (" ++ Wedge.type wedge ++ ")")
         (Js.slice (wedges detected) 1 4).

Definition buildPersonalizationHooks (contact : Contact)
    (linkedinProfile : option Profile) (githubActivity : option GithubActivity)
    (speakingEngagements : list SpeakingEngagement) : list string :=
  (match linkedinProfile with
   | Some p =>
       (match previous_companies p with
        | Some (c :: _) =>
            ["Previously worked at " ++ c ++ " - interesting transition"]
        | _ => []
        end)
       ++ (if truthy_str (location p)
           then ["Based in " ++ show_col (location p)]
           else [])
   | None => []
   end)
  ++ (match githubActivity with
      | Some g =>
          if truthy_str (github_username g) && truthy_str (top_language g)
          then ["Technical background in " ++ show_str (top_language g)
                  ++ " development"]
          else []
      | None => []
      end)
  ++ (match speakingEngagements with
      | latestTalk :: _ =>
          ["Recently spoke about "
             ++ or_str (match topics latestTalk with
                        | Some l => first l
                        | None => None
                        end) "industry topics"
             ++ " at " ++ show_col (platform latestTalk)]
      | [] => []
      end)
  ++ (if truthy_str (current_company contact)
      then ["Currently at " ++ show_col (current_company contact) ++ " as "
              ++ or_str (current_title contact) "team member"]
      else []).

Definition buildTimingRationale (primaryWedge : Wedge.t)
    (linkedinProfile : option Profile) (signals : list ScoredSignal) : string :=
  let urgentSignals :=
    filter (fun s => Qltb 0.8 (urgency_score (scored s))) signals in
  Js.join ". "
    ([Wedge.timingRationale primaryWedge]
     ++ (match linkedinProfile with
         | Some p =>
             match current_position_tenure_months p with
             | Some tenure =>
                 if negb (truthy_int (Some tenure)) then []
                 else if (tenure <? 6)%Z
                 then ["In first 6 months of new role - actively evaluating tools and processes"]
                 else if ((6 <=? tenure) && (tenure <=? 12))%Z
                 then ["Past honeymoon phase - has context to identify gaps and push for changes"]
                 else []
             | None => []
             end
         | None => []
         end)
     ++ (if (0 <? List.length urgentSignals)%nat
         then [show_nat (List.length urgentSignals)
                 ++ " high-urgency signals detected - time-sensitive opportunity"]
         else [])).

Definition set_linkedin_dm (c : Playbook.Channels) (v : Q) : Playbook.Channels :=
  {| Playbook.linkedin_dm := v;
     Playbook.email := Playbook.email c;
     Playbook.phone := Playbook.phone c |}.

Definition set_email (c : Playbook.Channels) (v : Q) : Playbook.Channels :=
  {| Playbook.linkedin_dm := Playbook.linkedin_dm c;
     Playbook.email := v;
     Playbook.phone := Playbook.phone c |}.

Definition set_phone (c : Playbook.Channels) (v : Q) : Playbook.Channels :=
  {| Playbook.linkedin_dm := Playbook.linkedin_dm c;
     Playbook.email := Playbook.email c;
     Playbook.phone := v |}.

(** [recommendChannels]: the assignments in the order the body makes them.
    The first argument is not read by the body. *)
Definition recommendChannels (linkedinProfile : option Profile)
    (linkedinPosts : option (list Post))
    (githubActivity : option GithubActivity) : Playbook.Channels :=
  let channels :=
    {| Playbook.linkedin_dm := 0.5;
       Playbook.email := 0.7;
       Playbook.phone := 0.3 |} in
  let channels :=
    match linkedinPosts with
    | Some posts =>
        if (5 <=? List.length posts)%nat
        then set_email (set_linkedin_dm channels 0.95) 0.6
        else channels
    | None => channels
    end in
  let channels := set_email channels 0.8 in
  let channels :=
    match githubActivity with
    | Some g =>
        if github_active g
        then set_email (set_phone channels 0.2) 0.9
        else channels
    | None => channels
    end in
  channels.

Definition buildCompetitiveContext (signals : list ScoredSignal) : string :=
  let techStackSignals :=
    filter (fun s => String.eqb (signal_type (scored s)) "company_tech_stack")
           signals in
  match techStackSignals with
  | [] => "No current tech stack information available"
  | s :: _ =>
      let techStack :=
        match raw_techStack (scored s) with Some l => l | None => [] end in
      "Current stack includes: " ++ Js.join ", " techStack
        ++ ". Potential displacement opportunities."
  end.

(** *** Outreach templates *)

Definition greeting (contact : Contact) : string :=
  "Hi " ++ first_word (full_name contact) ++ "," ++ nl ++ nl.

Definition signature : string := nl ++ nl ++ "Best," ++ nl ++ "[Your name]".

Definition generatePainPointOutreach (contact : Contact) (wedge : Wedge.t)
    (profile : option Profile) (posts : list Post) : string :=
  let post :=
    Js.find (fun p => same_str (post_url p)
                        (Wedge.postUrl_of (Wedge.details wedge))) posts in
  let theme :=
    or_str (match post with Some p => first (key_themes p) | None => None end)
           "this challenge" in
  let engagement :=
    match post with Some p => or_zero (engagement_count p) | None => 0%Z end in
  greeting contact
    ++ "Saw your recent post about " ++ theme ++ " - the " ++ show_int engagement
    ++ " responses show this is hitting a nerve for a lot of folks."
    ++ nl ++ nl
    ++ "We've worked with several " ++ show_col (current_title contact)
    ++ "s at similar companies who were wrestling with the same issue. One example: [similar company] cut their [metric] by 40% after making a few changes to how they approached this."
    ++ nl ++ nl
    ++ "Would you be open to a quick 15-minute call to share what worked for them? No pitch, just happy to share what we've learned."
    ++ signature.

Definition generateBuyingSignalOutreach (contact : Contact) (wedge : Wedge.t)
    (profile : option Profile) (posts : list Post) : string :=
  greeting contact
    ++ "Saw your post asking about [solution category] recommendations. Happy to share what's worked for similar companies - a few folks in your situation ended up choosing between [option A] and [option B] based on [key factor]."
    ++ nl ++ nl
    ++ "Would a quick call to walk through the decision framework be helpful? I can share what we've learned from helping others evaluate options."
    ++ signature.

Definition generateJobChangeOutreach (contact : Contact) (wedge : Wedge.t)
    (profile : option Profile) (posts : list Post) : string :=
  let months :=
    match profile with
    | Some p =>
        match current_position_tenure_months p with
        | Some m => if truthy_int (Some m) then show_int m else "recently"
        | None => "recently"
        end
    | None => "recently"
    end in
  greeting contact
    ++ "Congrats on the " ++ show_col (current_title contact) ++ " role at "
    ++ show_col (current_company contact) ++ "! Saw you joined about " ++ months
    ++ " months ago."
    ++ nl ++ nl
    ++ "Curious what you're prioritizing as you get settled - we've worked with several folks who came into similar roles and found [specific challenge] was the first thing they wanted to tackle."
    ++ nl ++ nl
    ++ "Would love to hear what's top of mind for you. Open to a quick chat?"
    ++ signature.

Definition generateThoughtLeadershipOutreach (contact : Contact)
    (wedge : Wedge.t) (profile : option Profile) (posts : list Post) : string :=
  let topic :=
    match first posts with
    | Some topPost =>
        if truthy_str (first (key_themes topPost))
        then show_str (first (key_themes topPost))
        else or_str (first (topics_detected topPost)) "your recent insights"
    | None => "your recent insights"
    end in
  greeting contact
    ++ "Really appreciated your recent post on " ++ topic
    ++ " - especially your point about [specific insight]. That's exactly what we're seeing across the market right now."
    ++ nl ++ nl
    ++ "Would love to hear more about your experience with this. We've compiled some data from [X] companies on how they're approaching it that might be interesting to compare notes on."
    ++ nl ++ nl
    ++ "Open to a quick call?"
    ++ signature.

(** [wedge.details.githubLanguages?.[0]?.language]. *)
Definition detailsTopLanguage (d : Wedge.Details) : option string :=
  match d with
  | Wedge.Technical _ (Some (Some l :: _)) _ => Some l
  | _ => None
  end.

Definition generateTechnicalOutreach (contact : Contact) (wedge : Wedge.t)
    (profile : option Profile) (posts : list Post) : string :=
  greeting contact
    ++ "Noticed your work in "
    ++ or_str (detailsTopLanguage (Wedge.details wedge)) "software development"
    ++ " - impressive background."
    ++ nl ++ nl
    ++ "Curious how you typically evaluate technical solutions. We've built [product] specifically for technical buyers like you who care about [API quality/architecture/documentation]."
    ++ nl ++ nl
    ++ "Happy to do a technical deep-dive if you're interested. Can share our API docs and architecture diagrams upfront."
    ++ signature.

Definition generateGeneralOutreach (contact : Contact) (wedge : Wedge.t)
    (profile : option Profile) (posts : list Post) : string :=
  greeting contact
    ++ "I've been researching " ++ show_col (current_company contact)
    ++ " and your work in " ++ or_str (current_title contact) "your role" ++ "."
    ++ nl ++ nl
    ++ "We've helped several companies in similar situations with [relevant challenge]. Would love to share what's worked and see if it might be relevant for you."
    ++ nl ++ nl
    ++ "Open to a quick 15-minute call?"
    ++ signature.

Definition generateOutreach (contact : Contact) (primaryWedge : Wedge.t)
    (linkedinProfile : option Profile) (linkedinPosts : list Post) : string :=
  let templateFn :=
    if String.eqb (Wedge.type primaryWedge) "linkedin_pain_point"
    then generatePainPointOutreach
    else if String.eqb (Wedge.type primaryWedge) "linkedin_buying_signal"
    then generateBuyingSignalOutreach
    else if includes (Wedge.type primaryWedge) "job_change"
    then generateJobChangeOutreach
    else if String.eqb (Wedge.type primaryWedge) "linkedin_thought_leadership"
    then generateThoughtLeadershipOutreach
    else if String.eqb (Wedge.type primaryWedge) "technical_buyer"
    then generateTechnicalOutreach
    else generateGeneralOutreach in
  templateFn contact primaryWedge linkedinProfile linkedinPosts.

(** The outcomes of the reads one call of [generatePlaybook] awaits: its own
    five, the one inside [signalScorer.getTopSignals], the four inside
    [wedgeDetector.detectWedges], and the insert of [savePlaybook]. *)
Record Reads : Type := {
  getContactById : result (option Contact);
  getProfile : result (option Profile);
  getRecentPosts : result (list Post);
  getActivity : result (option GithubActivity);
  getEngagements : result (list SpeakingEngagement);
  scorerReads : result (list Signal);
  detectorReads : WedgeDetector.Reads;
  savePlaybook : result unit
}.

(** The object literal [generatePlaybook] builds once it has a wedge; of its
    fields only [linkedin_context] can throw. *)
Definition buildPlaybook (contact : Contact) (linkedinProfile : option Profile)
    (linkedinPosts : list Post) (githubActivity : option GithubActivity)
    (speakingEngagements : list SpeakingEngagement)
    (topSignals : list ScoredSignal) (detected : WedgeResult)
    (primaryWedge : Wedge.t) : result Playbook.t :=
  linkedin_context <-
    buildLinkedInContext linkedinProfile linkedinPosts primaryWedge ;;
  Ok
  {| Playbook.primary_wedge := Wedge.description primaryWedge;
     Playbook.wedge_score := Wedge.score primaryWedge;
     Playbook.linkedin_context := linkedin_context;
     Playbook.supporting_evidence :=
       buildSupportingEvidence topSignals detected;
     Playbook.personalization_hooks :=
       buildPersonalizationHooks contact linkedinProfile githubActivity
         speakingEngagements;
     Playbook.timing_rationale :=
       buildTimingRationale primaryWedge linkedinProfile topSignals;
     Playbook.recommended_channels :=
       recommendChannels linkedinProfile (Some linkedinPosts) githubActivity;
     Playbook.sample_outreach :=
       generateOutreach contact primaryWedge linkedinProfile linkedinPosts;
     Playbook.competitive_context := buildCompetitiveContext topSignals;
     Playbook.conversation_starters := Wedge.conversationStarters primaryWedge;
     Playbook.full_strategy_json :=
       {| Playbook.contact := contact;
          Playbook.strategy_primaryWedge := primaryWedge;
          Playbook.allWedges := wedges detected;
          Playbook.topSignals := topSignals;
          Playbook.linkedinActivity_profile := linkedinProfile;
          Playbook.linkedinActivity_recentPosts := Js.slice linkedinPosts 0 3;
          Playbook.githubActivity := githubActivity;
          Playbook.speakingEngagements := Js.slice speakingEngagements 0 3 |} |}.

Definition insufficient : Response :=
  {| success := false;
     playbook := None;
     error := Some "Insufficient intelligence to generate playbook" |}.

Definition failure (message : string) : Response :=
  {| success := false; playbook := None; error := Some message |}.

(** The [try] block of [generatePlaybook]: [Err] is a thrown error, [Ok] the
    returned object with the rows of [gtm_playbooks] after the call.  The
    scorer and the detector catch their own errors, so only the five direct
    reads can reject [Promise.all]; when several do, the model reports the
    first in the order of the array. *)
Definition tryGenerate (cfg : Config) (now : Z) (db : Reads)
    (stored : list Playbook.t) : result (Response * list Playbook.t) :=
  contact <- getContactById db ;;
  linkedinProfile <- getProfile db ;;
  linkedinPosts <- getRecentPosts db ;;
  githubActivity <- getActivity db ;;
  speakingEngagements <- getEngagements db ;;
  let topSignals := SignalScorer.getTopSignals cfg (scorerReads db) 5 in
  let detected := WedgeDetector.detectWedges now (detectorReads db) in
  match contact with
  | None => Err "Contact not found"
  | Some contact =>
      match primaryWedge detected with
      | None => Ok (insufficient, stored)
      | Some primaryWedge =>
          playbook <-
            buildPlaybook contact linkedinProfile linkedinPosts githubActivity
              speakingEngagements topSignals detected primaryWedge ;;
          _ <- savePlaybook db ;;
          Ok ({| success := true; playbook := Some playbook; error := None |},
              (stored ++ [playbook])%list)
      end
  end.

(** [generatePlaybook]: the response, and the rows of [gtm_playbooks] after
    the call. *)
Definition generatePlaybook (cfg : Config) (now : Z) (db : Reads)
    (stored : list Playbook.t) : Response * list Playbook.t :=
  match tryGenerate cfg now db stored with
  | Ok r => r
  | Err message => (failure message, stored)
  end.

End PlaybookGenerator.

(** ** Clay formatter ([src/exporters/clay-formatter.js]): the helpers that
    read the scorer's signals and the stored playbook *)

Module ClayFormatter.

(** [getTenurePhase(months)]; a NULL or zero tenure gives null. *)
Definition getTenurePhase (months : option Z) : option string :=
  if negb (truthy_int months) then None
  else
    let m := or_zero months in
    if (m <? 3)%Z then Some "onboarding"
    else if (m <? 6)%Z then Some "evaluation"
    else if (m <? 12)%Z then Some "optimization"
    else if (m <? 24)%Z then Some "established"
    else Some "entrenched".

(** [calculateDisplayScore(signal)] on an element of the scorer's output. *)
Definition calculateDisplayScore (signal : ScoredSignal) : Z :=
  let relevance := relevance_score (scored signal) in
  let urgency := urgency_score (scored signal) in
  let wedge := wedge_potential (scored signal) in
  Js.round ((relevance * 0.4 + urgency * 0.3 + wedge * 0.3) * 100).

(** [s.replace('_', ' ')]: the first underscore only. *)
Fixpoint replace_underscore (s : string) : string :=
  match s with
  | EmptyString => EmptyString
  | String c s' => if Ascii.eqb c "_"%char then String " "%char s'
                   else String c (replace_underscore s')
  end.

(** [Object.entries(channels)] of the object [recommendChannels] builds. *)
Definition entries (c : Playbook.Channels) : list (string * Q) :=
  [ ("linkedin_dm", Playbook.linkedin_dm c);
    ("email", Playbook.email c);
    ("phone", Playbook.phone c) ].

Definition by_value_desc (a b : string * Q) : Q := snd b - snd a.

(** [getTopChannel(channels)], on the entries of the stored object. *)
Definition getTopChannel (channels : option (list (string * Q)))
  : option string :=
  match channels with
  | None => None
  | Some entries =>
      match Js.sort by_value_desc entries with
      | [] => None
      | top :: _ => Some (replace_underscore (fst top))
      end
  end.

(** [getTopChannelScore(channels)]. *)
Definition getTopChannelScore (channels : option (list (string * Q)))
  : option Z :=
  match channels with
  | None => None
  | Some entries =>
      match Js.sort by_value_desc entries with
      | [] => None
      | top :: _ => Some (Js.round (snd top * 100))
      end
  end.

Definition getDaysSince (now : Z) (date : option Z) : Z :=
  ((now - or_zero date) / (1000 * 60 * 60 * 24))%Z.

(** [(linkedinProfile?.current_position_tenure_months || 999) < 6]. *)
Definition recentJobChange (linkedinProfile : option Profile) : bool :=
  let tenure :=
    match linkedinProfile with
    | Some p =>
        if truthy_int (current_position_tenure_months p)
        then or_zero (current_position_tenure_months p)
        else 999%Z
    | None => 999%Z
    end in
  (tenure <? 6)%Z.

(** [isHighPriority(linkedinProfile, linkedinPosts, signals)], as a truth
    value. *)
Definition isHighPriority (now : Z) (linkedinProfile : option Profile)
    (linkedinPosts : option (list Post))
    (signals : option (list ScoredSignal)) : bool :=
  let recentPainPoint :=
    match linkedinPosts with
    | Some posts =>
        existsb (fun p => mentions_pain_points p
                          && (getDaysSince now (post_date p) <? 14)%Z) posts
    | None => false
    end in
  let highScoringSignals :=
    match signals with
    | Some l =>
        (2 <=? List.length
                 (filter (fun s => (85 <? calculateDisplayScore s)%Z) l))%nat
    | None => false
    end in
  recentJobChange linkedinProfile || recentPainPoint || highScoringSignals.

(** [calculateContactReadiness(linkedinProfile, linkedinPosts, signals,
    playbook)]; [playbook] is the stored row. *)
Definition calculateContactReadiness (linkedinProfile : option Profile)
    (linkedinPosts : option (list Post))
    (signals : option (list ScoredSignal))
    (playbook : option Playbook.t) : Z :=
  let score := 0%Z in
  let score :=
    match linkedinProfile with
    | Some p =>
        let influence :=
          match influence_score p with Some i => i | None => 0 end in
        let score :=
          if Qltb 0.7 influence then (score + 20)%Z
          else if Qltb 0.5 influence then (score + 10)%Z
          else score in
        match linkedinPosts with
        | Some posts =>
            if (5 <? List.length posts)%nat then (score + 20)%Z
            else if (0 <? List.length posts)%nat then (score + 10)%Z
            else score
        | None => score
        end
    | None => score
    end in
  let score :=
    match signals with
    | Some l =>
        if (0 <? List.length l)%nat
        then
          let avgScore :=
            inject_Z (fold_left (fun sum s => (sum + calculateDisplayScore s)%Z)
                                l 0%Z)
            / inject_Z (Z.of_nat (List.length l)) in
          if Qltb 80 avgScore then (score + 30)%Z
          else if Qltb 70 avgScore then (score + 20)%Z
          else if Qltb 60 avgScore then (score + 10)%Z
          else score
        else score
    | None => score
    end in
  let score :=
    match playbook with
    | Some pb =>
        if Qltb 0.9 (Playbook.wedge_score pb) then (score + 30)%Z
        else if Qltb 0.8 (Playbook.wedge_score pb) then (score + 20)%Z
        else if Qltb 0.7 (Playbook.wedge_score pb) then (score + 10)%Z
        else score
    | None => score
    end in
  score.

End ClayFormatter.

(** ** Sample rows, for concrete instances of the properties *)

Module Sample.

(** The milliseconds of a day. *)
Definition day : Z := 86400000%Z.

(** A fixed reading of the clock. *)
Definition now : Z := (20000 * day + 5000)%Z.

Definition signal (type category : string) (relevance urgency potential : Q)
  : Signal :=
  {| signal_type := type;
     signal_category := category;
     description := "sample signal";
     relevance_score := relevance;
     urgency_score := urgency;
     wedge_potential := potential;
     raw_techStack := None |}.

(** A post made [age] days before [now]. *)
Definition post (url : string) (age : Z) (engagement : Z)
    (pain buying : bool) (content : string) : Post :=
  {| post_url := Some url;
     post_date := Some (now - age * day)%Z;
     post_content := Some content;
     engagement_count := Some engagement;
     topics_detected := ["pipeline"];
     key_themes := ["forecasting"];
     mentions_pain_points := pain;
     mentions_buying_signals := buying |}.

Definition profile (tenure : option Z) : Profile :=
  {| location := None;
     connections_count := None;
     followers_count := None;
     current_position_tenure_months := tenure;
     previous_companies := None;
     influence_score := None |}.

Definition contact : Contact :=
  {| full_name := "Ada Lovelace";
     current_company := Some "Acme";
     current_title := Some "VP Sales" |}.

(** Six fetched posts, two of which draw far more engagement than the rest. *)
Definition loud : Post := post "a" 1 10 false false "pipeline review".
Definition louder : Post := post "b" 2 12 false false "quota planning".
Definition viral : list Post :=
  [ loud; louder;
    post "c" 3 0 false false "note"; post "d" 4 0 false false "note";
    post "e" 5 0 false false "note"; post "f" 6 0 false false "note" ].

(** The reads of the wedge detector for a contact with one recent
    pain-point post and four months of tenure. *)
Definition painPost : Post :=
  post "p" 2 45 true false "forecasting is broken".

Definition detectorOk : WedgeDetector.Reads :=
  {| WedgeDetector.getProfile := Ok (Some (profile (Some 4%Z)));
     WedgeDetector.getRecentPosts := Ok [painPost];
     WedgeDetector.getSignalsByContact := Ok [];
     WedgeDetector.getActivity := Ok None |}.

(** The reads of the wedge detector for a contact about whom nothing is
    stored. *)
Definition detectorEmpty : WedgeDetector.Reads :=
  {| WedgeDetector.getProfile := Ok None;
     WedgeDetector.getRecentPosts := Ok [];
     WedgeDetector.getSignalsByContact := Ok [];
     WedgeDetector.getActivity := Ok None |}.

(** The reads of one [generatePlaybook] call, given the outcome of the
    scorer's read and of the detector's reads. *)
Definition reads (scorer : result (list Signal))
    (detector : WedgeDetector.Reads) : PlaybookGenerator.Reads :=
  {| PlaybookGenerator.getContactById := Ok (Some contact);
     PlaybookGenerator.getProfile := Ok (Some (profile (Some 4%Z)));
     PlaybookGenerator.getRecentPosts := Ok [painPost];
     PlaybookGenerator.getActivity := Ok None;
     PlaybookGenerator.getEngagements := Ok [];
     PlaybookGenerator.scorerReads := scorer;
     PlaybookGenerator.detectorReads := detector;
     PlaybookGenerator.savePlaybook := Ok tt |}.

(** The scorer's read of the signals is rejected; every other read
    resolves. *)
Definition flaky : PlaybookGenerator.Reads :=
  reads (Err "Connection terminated unexpectedly") detectorOk.

(** The reads for a contact about whom nothing else is stored. *)
Definition bare : PlaybookGenerator.Reads :=
  {| PlaybookGenerator.getContactById := Ok (Some contact);
     PlaybookGenerator.getProfile := Ok None;
     PlaybookGenerator.getRecentPosts := Ok [];
     PlaybookGenerator.getActivity := Ok None;
     PlaybookGenerator.getEngagements := Ok [];
     PlaybookGenerator.scorerReads := Ok [];
     PlaybookGenerator.detectorReads := detectorEmpty;
     PlaybookGenerator.savePlaybook := Ok tt |}.

(** The database is unreachable: every read and the insert are rejected. *)
Definition down : PlaybookGenerator.Reads :=
  {| PlaybookGenerator.getContactById := Err "connect ECONNREFUSED";
     PlaybookGenerator.getProfile := Err "connect ECONNREFUSED";
     PlaybookGenerator.getRecentPosts := Err "connect ECONNREFUSED";
     PlaybookGenerator.getActivity := Err "connect ECONNREFUSED";
     PlaybookGenerator.getEngagements := Err "connect ECONNREFUSED";
     PlaybookGenerator.scorerReads := Err "connect ECONNREFUSED";
     PlaybookGenerator.detectorReads :=
       {| WedgeDetector.getProfile := Err "connect ECONNREFUSED";
          WedgeDetector.getRecentPosts := Err "connect ECONNREFUSED";
          WedgeDetector.getSignalsByContact := Err "connect ECONNREFUSED";
          WedgeDetector.getActivity := Err "connect ECONNREFUSED" |};
     PlaybookGenerator.savePlaybook := Err "connect ECONNREFUSED" |}.

(** Only the detector's read of the posts is rejected. *)
Definition blind : PlaybookGenerator.Reads :=
  reads (Ok [])
    {| WedgeDetector.getProfile := Ok (Some (profile (Some 4%Z)));
       WedgeDetector.getRecentPosts := Err "Connection terminated unexpectedly";
       WedgeDetector.getSignalsByContact := Ok [];
       WedgeDetector.getActivity := Ok None |}.

(** A post on which the given topics were detected. *)
Definition tagged (url : string) (topics : list string) : Post :=
  {| post_url := Some url;
     post_date := Some (now - day)%Z;
     post_content := Some "notes";
     engagement_count := Some 3%Z;
     topics_detected := topics;
     key_themes := [];
     mentions_pain_points := false;
     mentions_buying_signals := false |}.

Definition fourTopics : list Post :=
  [ tagged "t1" ["pipeline"; "quota"; "ABM"; "hiring"];
    tagged "t2" ["quota"; "pipeline"; "ABM"] ].

(** Wedges can be detected, but there is no row for the contact. *)
Definition stranger : PlaybookGenerator.Reads :=
  {| PlaybookGenerator.getContactById := Ok None;
     PlaybookGenerator.getProfile := Ok (Some (profile (Some 4%Z)));
     PlaybookGenerator.getRecentPosts := Ok [painPost];
     PlaybookGenerator.getActivity := Ok None;
     PlaybookGenerator.getEngagements := Ok [];
     PlaybookGenerator.scorerReads := Ok [];
     PlaybookGenerator.detectorReads := detectorOk;
     PlaybookGenerator.savePlaybook := Ok tt |}.

(** A GitHub row with the given activity score. *)
Definition github (score : Q) : GithubActivity :=
  {| github_username := Some "ada";
     primary_languages := Some [Some "OCaml"];
     activity_score := Some score |}.

(** Three pain-point posts, 3, 10 and 30 days old. *)
Definition fresh : Post := post "u1" 3 45 true false "forecasting is broken".
Definition older : Post := post "u2" 10 12 true false "manual process again".
Definition stale : Post := post "u3" 30 7 true false "still a problem".

(** A post asking for a tool, in capitals. *)
Definition asking : Post :=
  post "q" 1 4 false true "Can anyone RECOMMEND a forecasting tool?".

(** A post entered by hand with its flags but without text, as the
    manual-entry route stores it. *)
Definition silent (pain buying : bool) : Post :=
  {| post_url := Some "https://linkedin.com/posts/1";
     post_date := Some (now - day)%Z;
     post_content := None;
     engagement_count := Some 0%Z;
     topics_detected := [];
     key_themes := [];
     mentions_pain_points := pain;
     mentions_buying_signals := buying |}.

End Sample.

(** ** Vocabulary of the specification *)

(** Descending order of a numeric key. *)
Definition desc {A} (key : A -> Q) (a b : A) : Prop := key b <= key a.

(** The three LinkedIn-origin source types. *)
Definition linkedin_origin (sourceType : string) : Prop :=
  sourceType = "linkedin_activity" \/ sourceType = "linkedin_content"
  \/ sourceType = "linkedin_profile_change".

(** [p] occurs in [s]. *)
Definition Contains (s p : string) : Prop := exists a b, s = a ++ p ++ b.

(** The buying-intent phrase of a lower-cased post content: the phrase of
    the first keyword that occurs in it, in the order of the specification. *)
Definition buying_intent (lowered phrase : string) : Prop :=
  (Contains lowered "recommend" /\ phrase = "recommendations")
  \/ (~ Contains lowered "recommend" /\ Contains lowered "evaluat"
      /\ phrase = "solutions to evaluate")
  \/ (~ Contains lowered "recommend" /\ ~ Contains lowered "evaluat"
      /\ Contains lowered "looking for" /\ phrase = "a solution")
  \/ (~ Contains lowered "recommend" /\ ~ Contains lowered "evaluat"
      /\ ~ Contains lowered "looking for" /\ Contains lowered "anyone use"
      /\ phrase = "tool recommendations")
  \/ (~ Contains lowered "recommend" /\ ~ Contains lowered "evaluat"
      /\ ~ Contains lowered "looking for" /\ ~ Contains lowered "anyone use"
      /\ phrase = "solutions").

(** The wedges of one type in a list. *)
Definition ofType (type : string) (l : list Wedge.t) : list Wedge.t :=
  filter (fun w => String.eqb (Wedge.type w) type) l.

(** The scores a wedge can carry. *)
Definition wedge_scores : list Q :=
  [0.70; 0.75; 0.80; 0.85; 0.90; 0.98; 1.00; 1.05; 1.10].

(** The average engagement across the fetched posts (a NULL count is 0). *)
Definition totalEngagement (posts : list Post) : Z :=
  fold_right (fun p acc => (or_zero (engagement_count p) + acc)%Z) 0%Z posts.

Definition averageEngagement (posts : list Post) : Q :=
  inject_Z (totalEngagement posts) / inject_Z (Z.of_nat (List.length posts)).

(** The post's engagement is strictly above twice the average. *)
Definition exceedsTwiceAverage (posts : list Post) (p : Post) : Prop :=
  2 * averageEngagement posts < inject_Z (or_zero (engagement_count p)).

(** [w] is a high-engagement wedge citing the engagement of [p] against the
    (rounded) average. *)
Definition highEngagementWedgeFor (posts : list Post) (p : Post)
    (w : Wedge.t) : Prop :=
  Wedge.type w = "linkedin_thought_leadership"
  /\ Wedge.score w = 0.85
  /\ Wedge.timingRationale w
     = "High engagement (" ++ show_int_col (engagement_count p) ++ " vs "
         ++ show_int (Js.round (averageEngagement posts))
         ++ " average) shows this topic resonates with their audience".

(** The post count is at least 5. *)
Definition atLeastFivePosts (posts : option (list Post)) : Prop :=
  exists l, posts = Some l /\ (5 <= List.length l)%nat.

(** The GitHub activity score is above 0.6. *)
Definition activityAbove06 (github : option GithubActivity) : Prop :=
  exists g a, github = Some g /\ activity_score g = Some a /\ 0.6 < a.

(** One of the five reads [generatePlaybook] awaits directly is rejected. *)
Definition directReadFailed (db : PlaybookGenerator.Reads) : Prop :=
  is_ok (PlaybookGenerator.getContactById db) = false
  \/ is_ok (PlaybookGenerator.getProfile db) = false
  \/ is_ok (PlaybookGenerator.getRecentPosts db) = false
  \/ is_ok (PlaybookGenerator.getActivity db) = false
  \/ is_ok (PlaybookGenerator.getEngagements db) = false.

(** One of the four reads inside the wedge detector is rejected. *)
Definition detectorReadFailed (d : WedgeDetector.Reads) : Prop :=
  is_ok (WedgeDetector.getProfile d) = false
  \/ is_ok (WedgeDetector.getRecentPosts d) = false
  \/ is_ok (WedgeDetector.getSignalsByContact d) = false
  \/ is_ok (WedgeDetector.getActivity d) = false.

(** Some read of the call is rejected: a direct one, the scorer's, or one of
    the detector's. *)
Definition someReadFailed (db : PlaybookGenerator.Reads) : Prop :=
  directReadFailed db
  \/ is_ok (PlaybookGenerator.scorerReads db) = false
  \/ detectorReadFailed (PlaybookGenerator.detectorReads db).

(** The same reads with another outcome for the scorer's read. *)
Definition withScorerReads (db : PlaybookGenerator.Reads)
    (scorer : result (list Signal)) : PlaybookGenerator.Reads :=
  {| PlaybookGenerator.getContactById := PlaybookGenerator.getContactById db;
     PlaybookGenerator.getProfile := PlaybookGenerator.getProfile db;
     PlaybookGenerator.getRecentPosts := PlaybookGenerator.getRecentPosts db;
     PlaybookGenerator.getActivity := PlaybookGenerator.getActivity db;
     PlaybookGenerator.getEngagements := PlaybookGenerator.getEngagements db;
     PlaybookGenerator.scorerReads := scorer;
     PlaybookGenerator.detectorReads := PlaybookGenerator.detectorReads db;
     PlaybookGenerator.savePlaybook := PlaybookGenerator.savePlaybook db |}.

(** The same reads with another outcome for the insert of the playbook. *)
Definition withSavePlaybook (db : PlaybookGenerator.Reads)
    (saved : result unit) : PlaybookGenerator.Reads :=
  {| PlaybookGenerator.getContactById := PlaybookGenerator.getContactById db;
     PlaybookGenerator.getProfile := PlaybookGenerator.getProfile db;
     PlaybookGenerator.getRecentPosts := PlaybookGenerator.getRecentPosts db;
     PlaybookGenerator.getActivity := PlaybookGenerator.getActivity db;
     PlaybookGenerator.getEngagements := PlaybookGenerator.getEngagements db;
     PlaybookGenerator.scorerReads := PlaybookGenerator.scorerReads db;
     PlaybookGenerator.detectorReads := PlaybookGenerator.detectorReads db;
     PlaybookGenerator.savePlaybook := saved |}.

(** The post the playbook takes as trigger post of a wedge: for a wedge of
    a LinkedIn type that records a non-empty post URL, the first fetched
    post with that URL. *)
Definition triggerPostFor (posts : list Post) (w : Wedge.t) (q : Post)
  : Prop :=
  exists url before after,
    (exists rest, Wedge.type w = "linkedin_" ++ rest)
    /\ Wedge.postUrl_of (Wedge.details w) = Some url /\ url <> ""
    /\ posts = (before ++ q :: after)%list
    /\ post_url q = Some url
    /\ forall x, In x before -> post_url x <> Some url.

(** Building the LinkedIn context does not throw: there is no profile, or
    the trigger post, if any, has a content. *)
Definition contextBuilds (profile : option Profile) (posts : list Post)
    (w : Wedge.t) : Prop :=
  profile = None
  \/ forall q, triggerPostFor posts w q -> post_content q <> None.

(** The sum of the counters of a table. *)
Definition sum_counts (counts : list (string * nat)) : nat :=
  fold_right (fun kv acc => (snd kv + acc)%nat) 0%nat counts.

(** A score of the data model: a number between 0 and 1. *)
Definition unit_score (x : Q) : Prop := 0 <= x /\ x <= 1.

(** The topics detected across the posts, with repetition, and how often a
    topic occurs among them. *)
Definition allTopics (posts : list Post) : list string :=
  List.concat (map topics_detected posts).

Definition occurrences (topic : string) (posts : list Post) : nat :=
  count_occ String.string_dec (allTopics posts) topic.

(** A topic whose name [Object.prototype] does not define: it is counted
    under an own property that holds a number. *)
Definition plainTopic (topic : string) : Prop :=
  topic <> "__proto__" /\ ~ In topic WedgeDetector.inherited_methods.

(** The table of counters after the topics [seen] have been counted: one
    entry per distinct topic, holding its number of occurrences. *)
Definition tallied (seen : list string)
    (counts : list (string * WedgeDetector.tally)) : Prop :=
  NoDup (map fst counts)
  /\ (forall k, In k (map fst counts) <-> In k seen)
  /\ (forall k v, In (k, v) counts ->
        v = WedgeDetector.Number
              (Z.of_nat (count_occ String.string_dec seen k))).

(** The number a counter holds (0 for a text). *)
Definition count_of (entry : string * WedgeDetector.tally) : Q :=
  match snd entry with
  | WedgeDetector.Number n => inject_Z n
  | WedgeDetector.Text => 0
  end.

(** One of the post's detected topics is a technical topic (compared
    verbatim, so case matters). *)
Definition hasTechnicalTopic (p : Post) : Prop :=
  exists t, In t (topics_detected p) /\ In t WedgeDetector.technicalTopics.

(** A stored signal that tells of a company initiative. *)
Definition isInitiative (s : Signal) : Prop :=
  signal_category s = "timing_trigger"
  /\ (signal_type s = "company_hiring" \/ signal_type s = "company_initiatives").

(** Every fetched post flagged for pain points has a content, and likewise
    for buying signals: the posts on which the two post-flag rules do not
    throw. *)
Definition painPostsHaveContent (posts : list Post) : Prop :=
  forall p, In p posts -> mentions_pain_points p = true ->
            post_content p <> None.

Definition buyingPostsHaveContent (posts : list Post) : Prop :=
  forall p, In p posts -> mentions_buying_signals p = true ->
            post_content p <> None.

Definition flaggedPostsHaveContent (posts : list Post) : Prop :=
  painPostsHaveContent posts /\ buyingPostsHaveContent posts.

(** The scores the detector computes: those of the specification, with the
    binary64 sum of 0.95 and 0.15 where the specification has 1.10. *)
Definition computed_scores : list Q :=
  [0.70; 0.75; 0.80; 0.85; 0.90; 0.98; 1.00; 1.05; 1.0999999999999999].

(** The age of a post in whole days, from its timestamp in milliseconds. *)
Definition ageInDays (now : Z) (post : Post) : Z :=
  ((now - or_zero (post_date post)) / 86400000)%Z.

(** [n] elements of the list satisfy [P]. *)
Inductive Count {A} (P : A -> Prop) : list A -> nat -> Prop :=
| Count_nil : Count P [] 0
| Count_yes x l n : P x -> Count P l n -> Count P (x :: l) (S n)
| Count_no x l n : ~ P x -> Count P l n -> Count P (x :: l) n.

(** The read [generatePlaybook] awaits directly that is rejected with the
    message [m]. *)
Definition directReadError (db : PlaybookGenerator.Reads) (m : string) : Prop :=
  PlaybookGenerator.getContactById db = Err m
  \/ PlaybookGenerator.getProfile db = Err m
  \/ PlaybookGenerator.getRecentPosts db = Err m
  \/ PlaybookGenerator.getActivity db = Err m
  \/ PlaybookGenerator.getEngagements db = Err m.

(** The failure object of message [m]. *)
Definition isFailure (r : Response) (m : string) : Prop :=
  success r = false /\ playbook r = None /\ error r = Some m.

(** * Properties *)

(** ** Facts about the JavaScript helpers *)

Lemma Qltb_lt (a b : Q) : Qltb a b = true <-> a < b.
Proof.
  unfold Qltb. rewrite negb_true_iff. split; intro H.
  - apply Qnot_le_lt. intro Hle. apply Qle_bool_iff in Hle. congruence.
  - destruct (Qle_bool b a) eqn:E; [|reflexivity].
    apply Qle_bool_iff in E. exfalso. exact (Qlt_not_le _ _ H E).
Qed.

Lemma Qltb_ge (a b : Q) : Qltb a b = false <-> b <= a.
Proof.
  unfold Qltb. rewrite negb_false_iff. apply Qle_bool_iff.
Qed.

Section SortFacts.

Context {A : Type} (cmp : A -> A -> Q).

Lemma sort_insert_perm (x : A) (l : list A) :
  Permutation (sort_insert cmp x l) (x :: l).
Proof.
  induction l as [|y l IH]; simpl.
  - apply Permutation_refl.
  - destruct (Qltb 0 (cmp x y)).
    + eapply perm_trans; [apply perm_skip, IH | apply perm_swap].
    + apply Permutation_refl.
Qed.

Lemma sort_perm (l : list A) : Permutation (Js.sort cmp l) l.
Proof.
  induction l as [|x l IH]; simpl.
  - apply perm_nil.
  - eapply perm_trans; [apply sort_insert_perm | apply perm_skip, IH].
Qed.

Lemma sort_In (l : list A) (x : A) : In x (Js.sort cmp l) <-> In x l.
Proof.
  split; apply Permutation_in;
    [apply sort_perm | apply Permutation_sym, sort_perm].
Qed.

Lemma sort_length (l : list A) : List.length (Js.sort cmp l) = List.length l.
Proof. apply Permutation_length, sort_perm. Qed.

End SortFacts.

Section SortByKey.

Context {A : Type} (key : A -> Q).


Lemma cmp_pos (x y : A) : Qltb 0 (key y - key x) = true <-> key x < key y.
Proof.
  rewrite Qltb_lt. split; intro H.
  - apply (Qplus_lt_l _ _ (- key x)). rewrite Qplus_opp_r. exact H.
  - apply (Qplus_lt_l _ _ (- key x)) in H. rewrite Qplus_opp_r in H. exact H.
Qed.

Lemma sort_insert_sorted (x : A) (l : list A) :
  StronglySorted (desc key) l -> StronglySorted (desc key) (sort_insert (fun a b => key b - key a) x l).
Proof.
  induction 1 as [|y l Hs IH Hall]; simpl.
  - constructor; constructor.
  - destruct (Qltb 0 (key y - key x)) eqn:E.
    + apply cmp_pos in E. constructor; [exact IH|].
      apply Forall_forall. intros z Hz.
      apply (Permutation_in _ (sort_insert_perm _ x l)) in Hz.
      destruct Hz as [<-|Hz].
      * apply Qlt_le_weak, E.
      * rewrite Forall_forall in Hall. apply Hall, Hz.
    + assert (Hxy : key y <= key x).
      { apply Qnot_lt_le. intro Hlt. apply cmp_pos in Hlt. congruence. }
      constructor; [constructor; assumption|].
      constructor; [exact Hxy|].
      apply Forall_forall. intros z Hz. rewrite Forall_forall in Hall.
      unfold desc. eapply Qle_trans; [apply Hall, Hz | exact Hxy].
Qed.

Lemma sort_sorted (l : list A) : StronglySorted (desc key) (Js.sort (fun a b => key b - key a) l).
Proof.
  induction l as [|x l IH]; simpl.
  - constructor.
  - apply sort_insert_sorted, IH.
Qed.

End SortByKey.

Lemma slice_prefix {A} (l : list A) (n : nat) :
  Js.slice l 0 (Z.of_nat n) = firstn n l.
Proof.
  unfold Js.slice, rel_index.
  change (0 <? 0)%Z with false. cbv iota.
  destruct (Z.of_nat n <? 0)%Z eqn:E; [apply Z.ltb_lt in E; lia|].
  replace (Z.to_nat (Z.min 0 (Z.of_nat (List.length l)))) with 0%nat by lia.
  simpl skipn.
  destruct (Z.min_spec (Z.of_nat n) (Z.of_nat (List.length l))) as [[H ->]|[H ->]].
  - replace (Z.to_nat (Z.of_nat n - Z.min 0 (Z.of_nat (List.length l)))) with n by lia.
    reflexivity.
  - replace (Z.to_nat (Z.of_nat (List.length l) - Z.min 0 (Z.of_nat (List.length l))))
      with (List.length l) by lia.
    rewrite firstn_all. symmetry. apply firstn_all2. lia.
Qed.

(** ** Signal scorer *)

Lemma isLinkedInSignal_spec (t : string) :
  SignalScorer.isLinkedInSignal t = true <-> linkedin_origin t.
Proof.
  unfold SignalScorer.isLinkedInSignal, linkedin_origin. simpl.
  rewrite !orb_true_iff, !String.eqb_eq. intuition congruence.
Qed.

Lemma scoreAndPrioritizeSignals_unfold (cfg : Config) (signals : list Signal) :
  SignalScorer.scoreAndPrioritizeSignals cfg (Ok signals) =
  Js.sort SignalScorer.by_composite_desc
    (filter (fun e => Qle_bool (minSignalRelevanceScore cfg)
                        (relevance_score (scored e)))
            (map (SignalScorer.boost cfg) signals)).
Proof.
  unfold SignalScorer.scoreAndPrioritizeSignals.
  destruct signals; reflexivity.
Qed.

Lemma scoreAndPrioritizeSignals_In (cfg : Config) (signals : list Signal)
    (e : ScoredSignal) :
  In e (SignalScorer.scoreAndPrioritizeSignals cfg (Ok signals)) <->
  In e (map (SignalScorer.boost cfg) signals)
  /\ minSignalRelevanceScore cfg <= relevance_score (scored e).
Proof.
  rewrite scoreAndPrioritizeSignals_unfold, sort_In, filter_In, Qle_bool_iff.
  reflexivity.
Qed.

(** C1.  For every stored signal, its entry in the scorer's output carries
    the relevance min(original + 0.3, 1.0) when the source type is one of the
    three LinkedIn-origin types (hence 1.0 when the sum exceeds 1.0) and the
    original relevance otherwise, and the composite score
    0.4 * relevance + 0.3 * urgency + 0.3 * wedgePotential on that relevance.
    The entry is in the output when its relevance reaches the threshold, and
    every output entry is the entry of a stored signal. *)
Theorem scorer_entry_boost_and_composite (signals : list Signal) (s : Signal) :
  In s signals ->
  let out := SignalScorer.scoreAndPrioritizeSignals default_config (Ok signals) in
  let e := SignalScorer.boost default_config s in
  (linkedin_origin (signal_type s) ->
     relevance_score (scored e) == Qmin (relevance_score s + 0.3) 1.0)
  /\ (linkedin_origin (signal_type s) -> 1.0 < relevance_score s + 0.3 ->
      relevance_score (scored e) == 1.0)
  /\ (~ linkedin_origin (signal_type s) ->
      relevance_score (scored e) = relevance_score s)
  /\ composite_score e ==
       0.4 * relevance_score (scored e) + 0.3 * urgency_score s
       + 0.3 * wedge_potential s
  /\ (In e out <-> 0.5 <= relevance_score (scored e))
  /\ (forall e', In e' out ->
        exists s', In s' signals /\ e' = SignalScorer.boost default_config s').
Proof.
  intros Hin out e.
  assert (Hli : linkedin_origin (signal_type s) ->
                relevance_score (scored e) = Qmin (relevance_score s + 0.3) 1.0).
  { intro H. apply isLinkedInSignal_spec in H.
    unfold e, SignalScorer.boost. rewrite H. reflexivity. }
  repeat split.
  - intro H. rewrite (Hli H). reflexivity.
  - intros H Hgt. rewrite (Hli H). apply Q.min_r. apply Qlt_le_weak, Hgt.
  - intro H. unfold e, SignalScorer.boost.
    destruct (SignalScorer.isLinkedInSignal (signal_type s)) eqn:E;
      [apply isLinkedInSignal_spec in E; contradiction | reflexivity].
  - unfold e, SignalScorer.boost, SignalScorer.calculateCompositeScore.
    cbn [composite_score scored]. ring.
  - intro H. apply scoreAndPrioritizeSignals_In in H. apply H.
  - intro H. apply scoreAndPrioritizeSignals_In. split; [|exact H].
    apply in_map, Hin.
  - intros e' H. apply scoreAndPrioritizeSignals_In in H.
    destruct H as [H _]. apply in_map_iff in H.
    destruct H as [s' [<- Hs']]. exists s'. split; [assumption|reflexivity].
Qed.

Lemma scorer_entry_boost_and_composite_witness :
  let s := Sample.signal "linkedin_content" "thought_leadership" 0.85 0.5 0.9 in
  let e := SignalScorer.boost default_config s in
  relevance_score (scored e) == 1.0
  /\ composite_score e == 0.4 * 1.0 + 0.3 * 0.5 + 0.3 * 0.9
  /\ In e (SignalScorer.scoreAndPrioritizeSignals default_config (Ok [s])).
Proof.
  intros s e.
  destruct (scorer_entry_boost_and_composite [s] s (or_introl eq_refl))
    as (_ & Hclamp & _ & Hcomp & Hin & _).
  assert (H1 : relevance_score (scored e) == 1.0).
  { apply Hclamp; [right; left; reflexivity | reflexivity]. }
  split; [exact H1|]. split.
  - exact Hcomp.
  - apply Hin. vm_compute. discriminate.
Defined.

(** C8.  The output of scoreAndPrioritizeSignals holds exactly the entries
    whose (possibly boosted) relevance is at least the configured minimum
    (0.5 by default, the bound included: 0.50 is kept and 0.49 is dropped),
    in descending order of composite score, and getTopSignals with count n is
    that list cut to its first n elements. *)
Theorem scorer_output_filtered_sorted_truncated (cfg : Config)
    (signals : list Signal) :
  let out := SignalScorer.scoreAndPrioritizeSignals cfg (Ok signals) in
  Permutation out
    (filter (fun e => Qle_bool (minSignalRelevanceScore cfg)
                        (relevance_score (scored e)))
            (map (SignalScorer.boost cfg) signals))
  /\ (forall e, In e out <->
                In e (map (SignalScorer.boost cfg) signals)
                /\ minSignalRelevanceScore cfg <= relevance_score (scored e))
  /\ StronglySorted (desc composite_score) out
  /\ (forall n : nat,
        SignalScorer.getTopSignals cfg (Ok signals) (Z.of_nat n) = firstn n out)
  /\ minSignalRelevanceScore default_config == 0.5
  /\ (forall s,
        relevance_score (scored (SignalScorer.boost default_config s)) == 0.50 ->
        SignalScorer.scoreAndPrioritizeSignals default_config (Ok [s])
        = [SignalScorer.boost default_config s])
  /\ (forall s,
        relevance_score (scored (SignalScorer.boost default_config s)) == 0.49 ->
        SignalScorer.scoreAndPrioritizeSignals default_config (Ok [s]) = []).
Proof.
  intro out. unfold out.
  split; [|split; [|split; [|split; [|split; [|split]]]]].
  - rewrite scoreAndPrioritizeSignals_unfold. apply sort_perm.
  - intro e. apply scoreAndPrioritizeSignals_In.
  - rewrite scoreAndPrioritizeSignals_unfold.
    apply (sort_sorted composite_score).
  - intro n. apply slice_prefix.
  - reflexivity.
  - intros s H. rewrite scoreAndPrioritizeSignals_unfold.
    cbn [map filter minSignalRelevanceScore default_config].
    set (b := SignalScorer.boost default_config s) in *.
    destruct (Qle_bool 0.5 (relevance_score (scored b))) eqn:E; [reflexivity|].
    exfalso. assert (Hle : 0.5 <= relevance_score (scored b)).
    { rewrite H. discriminate. }
    apply Qle_bool_iff in Hle. congruence.
  - intros s H. rewrite scoreAndPrioritizeSignals_unfold.
    cbn [map filter minSignalRelevanceScore default_config].
    set (b := SignalScorer.boost default_config s) in *.
    destruct (Qle_bool 0.5 (relevance_score (scored b))) eqn:E; [|reflexivity].
    exfalso. apply Qle_bool_iff in E. rewrite H in E. apply E. reflexivity.
Qed.

Lemma scorer_output_filtered_sorted_truncated_witness :
  let kept := Sample.signal "linkedin_content" "buying_signal" 0.20 0.9 0.9 in
  let dropped := Sample.signal "linkedin_activity" "technical" 0.19 0.9 0.9 in
  SignalScorer.scoreAndPrioritizeSignals default_config (Ok [kept])
  = [SignalScorer.boost default_config kept]
  /\ SignalScorer.scoreAndPrioritizeSignals default_config (Ok [dropped]) = [].
Proof.
  intros kept dropped.
  destruct (scorer_output_filtered_sorted_truncated default_config [])
    as (_ & _ & _ & _ & _ & Hkept & Hdropped).
  split.
  - apply Hkept. reflexivity.
  - apply Hdropped. reflexivity.
Defined.

(** ** Facts about lists and strings *)

Lemma filter_perm {A} (f : A -> bool) (l l' : list A) :
  Permutation l l' -> Permutation (filter f l) (filter f l').
Proof.
  induction 1 as [|x l l' _ IH|x y l|l1 l2 l3 _ IH1 _ IH2]; simpl.
  - apply perm_nil.
  - destruct (f x); [apply perm_skip|]; exact IH.
  - destruct (f x), (f y); try apply Permutation_refl. apply perm_swap.
  - eapply perm_trans; eassumption.
Qed.

Lemma filter_none {A} (f : A -> bool) (l : list A) :
  (forall x, In x l -> f x = false) -> filter f l = [].
Proof.
  induction l as [|x l IH]; simpl; intro H; [reflexivity|].
  rewrite (H x (or_introl eq_refl)). apply IH. intros y Hy. apply H. now right.
Qed.

Lemma filter_every {A} (f : A -> bool) (l : list A) :
  (forall x, In x l -> f x = true) -> filter f l = l.
Proof.
  induction l as [|x l IH]; simpl; intro H; [reflexivity|].
  rewrite (H x (or_introl eq_refl)). f_equal. apply IH.
  intros y Hy. apply H. now right.
Qed.

Lemma Forall2_map {A B} (P : A -> B -> Prop) (f : A -> B) (l : list A) :
  (forall x, In x l -> P x (f x)) -> Forall2 P l (map f l).
Proof.
  induction l as [|x l IH]; simpl; intro H; constructor.
  - apply H. now left.
  - apply IH. intros y Hy. apply H. now right.
Qed.

Lemma prefix_spec (p s : string) :
  String.prefix p s = true <-> exists t, s = p ++ t.
Proof.
  revert s. induction p as [|c p IH]; intro s.
  - split; [intros _; exists s; reflexivity | destruct s; reflexivity].
  - destruct s as [|d s]; simpl.
    + split; [discriminate | intros [t Ht]; discriminate].
    + destruct (Ascii.ascii_dec c d) as [->|Hcd].
      * rewrite IH. split; intros [t Ht]; exists t; congruence.
      * split; [discriminate | intros [t Ht]; congruence].
Qed.

Lemma includes_spec (s p : string) : includes s p = true <-> Contains s p.
Proof.
  unfold Contains. induction s as [|c s IH].
  - cbn [includes]. rewrite orb_false_r, prefix_spec. split.
    + intros [t Ht]. exists "", t. exact Ht.
    + intros [a [b H]]. destruct a; [|discriminate]. exists b. exact H.
  - cbn [includes]. rewrite orb_true_iff, prefix_spec, IH. split.
    + intros [[t Ht]|[a [b H]]].
      * exists "", t. exact Ht.
      * exists (String c a), b. simpl. now rewrite H.
    + intros [a [b H]]. destruct a as [|d a].
      * left. exists b. exact H.
      * right. exists a, b. simpl in H. congruence.
Qed.

Lemma includes_false (s p : string) : includes s p = false <-> ~ Contains s p.
Proof.
  rewrite <- includes_spec. destruct (includes s p); intuition congruence.
Qed.

(** ** Facts about blocks that can throw *)

Lemma for_each_Forall2 {A B} (f : A -> result B) (l : list A) (ys : list B) :
  Js.for_each f l = Ok ys <-> Forall2 (fun x y => f x = Ok y) l ys.
Proof.
  revert ys. induction l as [|x l IH]; intro ys; cbn [Js.for_each].
  - split.
    + intro H. injection H as <-. constructor.
    + intro H. inversion H. reflexivity.
  - unfold Js.bind at 1. destruct (f x) as [y|m] eqn:Ex.
    + unfold Js.bind. destruct (Js.for_each f l) as [ys'|m] eqn:El.
      * split.
        -- intro H. injection H as <-. constructor; [exact Ex|].
           now apply IH.
        -- intro H. inversion H as [|? y' ? ys'' Hy Hrest]; subst.
           rewrite Ex in Hy. injection Hy as <-.
           apply IH in Hrest. injection Hrest as <-. reflexivity.
      * split; [discriminate|].
        intro H. inversion H as [|? y' ? ys'' Hy Hrest]; subst.
        apply IH in Hrest. discriminate Hrest.
    + split; [discriminate|].
      intro H. inversion H as [|? y' ? ys'' Hy Hrest]; subst.
      rewrite Ex in Hy. discriminate Hy.
Qed.

Lemma for_each_total {A B} (f : A -> result B) (l : list A) :
  (forall x, In x l -> exists y, f x = Ok y) ->
  exists ys, Js.for_each f l = Ok ys.
Proof.
  induction l as [|x l IH]; intro H; cbn [Js.for_each].
  - eexists. reflexivity.
  - destruct (H x (or_introl eq_refl)) as [y Hy].
    destruct IH as [ys Hys]; [intros z Hz; apply H; now right|].
    rewrite Hy, Hys. eexists. reflexivity.
Qed.

Lemma for_each_throws {A B} (f : A -> result B) (l : list A) (m : string) :
  (forall x m', In x l -> f x = Err m' -> m' = m) ->
  (exists x, In x l /\ f x = Err m) ->
  Js.for_each f l = Err m.
Proof.
  induction l as [|x l IH]; intros Honly (z & Hz & Hfz); [destruct Hz|].
  cbn [Js.for_each]. destruct (f x) as [y|m'] eqn:Ex.
  - destruct Hz as [->|Hz]; [congruence|].
    cbn [Js.bind]. rewrite IH; [reflexivity| |eauto].
    intros x' m' Hx'. apply Honly. now right.
  - cbn [Js.bind]. f_equal. apply (Honly x); [now left | exact Ex].
Qed.

Lemma Forall2_In_l {A B} (P : A -> B -> Prop) (l : list A) (l' : list B)
    (x : A) :
  Forall2 P l l' -> In x l -> exists y, In y l' /\ P x y.
Proof.
  induction 1 as [|a b l l' Hab _ IH]; intros Hin; [destruct Hin|].
  destruct Hin as [<-|Hin].
  - exists b. split; [now left | exact Hab].
  - destruct (IH Hin) as (y & Hy & Hxy). exists y. split; [now right|exact Hxy].
Qed.

Lemma Forall2_In_r {A B} (P : A -> B -> Prop) (l : list A) (l' : list B)
    (y : B) :
  Forall2 P l l' -> In y l' -> exists x, In x l /\ P x y.
Proof.
  induction 1 as [|a b l l' Hab _ IH]; intros Hin; [destruct Hin|].
  destruct Hin as [<-|Hin].
  - exists a. split; [now left | exact Hab].
  - destruct (IH Hin) as (x & Hx & Hxy). exists x. split; [now right|exact Hxy].
Qed.

Lemma Forall2_weaken {A B} (P Q : A -> B -> Prop) (l : list A) (l' : list B) :
  (forall x y, In x l -> P x y -> Q x y) -> Forall2 P l l' -> Forall2 Q l l'.
Proof.
  intros H F. induction F as [|a b l l' Hab _ IH]; constructor.
  - apply H; [now left | exact Hab].
  - apply IH. intros x y Hx. apply H. now right.
Qed.

(** ** Binary64 arithmetic *)

(** A decimal literal of a binary64 sum below stands for the binary64
    value nearest to it, as in JavaScript. *)
Set Warnings "-inexact-float".

(** The three sums of the pain-point rule are the sums the kernel's own
    binary64 addition gives on the same literals. *)
Lemma add_is_binary64_addition :
  Js.add 0.95 0.15 == Js.rational_of (0.95 + 0.15)%float
  /\ Js.add 0.95 0.10 == Js.rational_of (0.95 + 0.10)%float
  /\ Js.add 0.95 0.05 == Js.rational_of (0.95 + 0.05)%float
  /\ Js.double 1.10 == Js.rational_of 1.10%float
  /\ Js.double 1.05 == Js.rational_of 1.05%float.
Proof. repeat split; vm_compute; reflexivity. Qed.

(** What the three sums are: the first falls one unit in the last place
    short of the number 1.10. *)
Lemma pain_point_sums :
  (Js.same_number (Js.add 0.95 0.15) 1.0999999999999999
   /\ ~ Js.same_number (Js.add 0.95 0.15) 1.10
   /\ Js.add 0.95 0.15 < 1.10 /\ 1.05 < Js.add 0.95 0.15)
  /\ (Js.same_number (Js.add 0.95 0.10) 1.05
      /\ 1.0 < Js.add 0.95 0.10 /\ Js.add 0.95 0.10 < Js.add 0.95 0.15)
  /\ Js.add 0.95 0.05 == 1.00.
Proof.
  unfold Js.same_number.
  repeat split; try (vm_compute; reflexivity).
  vm_compute. discriminate.
Qed.

(** Each sum against each number of the specification. *)
Lemma pain_point_sum_table :
  (Js.same_number (Js.add 0.95 0.15) 1.0999999999999999
   /\ ~ Js.same_number (Js.add 0.95 0.15) 1.05
   /\ ~ Js.add 0.95 0.15 == 1.00
   /\ ~ Js.same_number (Js.add 0.95 0.15) 1.10)
  /\ (~ Js.same_number (Js.add 0.95 0.10) 1.0999999999999999
      /\ Js.same_number (Js.add 0.95 0.10) 1.05
      /\ ~ Js.add 0.95 0.10 == 1.00
      /\ ~ Js.same_number (Js.add 0.95 0.10) 1.10)
  /\ (~ Js.same_number (Js.add 0.95 0.05) 1.0999999999999999
      /\ ~ Js.same_number (Js.add 0.95 0.05) 1.05
      /\ Js.add 0.95 0.05 == 1.00
      /\ ~ Js.same_number (Js.add 0.95 0.05) 1.10).
Proof.
  unfold Js.same_number.
  split; [|split]; (split; [|split; [|split]]);
    first [vm_compute; reflexivity | vm_compute; discriminate].
Qed.

(** ** Wedge detector *)

Section WedgeRules.

Variables (now : Z) (profile : option Profile) (posts : list Post)
  (signals : list Signal) (github : option GithubActivity).

Lemma getDaysSince_age (p : Post) :
  WedgeDetector.getDaysSince now (post_date p) = ageInDays now p.
Proof. reflexivity. Qed.

(** The wedges of the pain-point rule, when it returns: one per flagged
    post, in the order of the posts. *)
Lemma painPoint_emitted (ws : list Wedge.t) :
  WedgeDetector.detectPainPointWedges now posts = Ok ws <->
  Forall2 (fun p w => exists content,
             post_content p = Some content
             /\ w = WedgeDetector.painPointWedge now p content)
          (filter mentions_pain_points posts) ws.
Proof.
  unfold WedgeDetector.detectPainPointWedges. rewrite for_each_Forall2.
  split; apply Forall2_weaken; intros p w _.
  - destruct (post_content p) as [c|]; cbn; [|discriminate].
    intro H. injection H as <-. eauto.
  - intros (c & -> & ->). reflexivity.
Qed.

Lemma buyingSignal_emitted (ws : list Wedge.t) :
  WedgeDetector.detectBuyingSignalWedges now posts = Ok ws <->
  Forall2 (fun p w => exists content,
             post_content p = Some content
             /\ w = WedgeDetector.buyingSignalWedge now p content)
          (filter mentions_buying_signals posts) ws.
Proof.
  unfold WedgeDetector.detectBuyingSignalWedges. rewrite for_each_Forall2.
  split; apply Forall2_weaken; intros p w _.
  - destruct (post_content p) as [c|]; cbn; [|discriminate].
    intro H. injection H as <-. eauto.
  - intros (c & -> & ->). reflexivity.
Qed.

Lemma painPoint_cases (ws : list Wedge.t) (w : Wedge.t) :
  WedgeDetector.detectPainPointWedges now posts = Ok ws ->
  (In w ws <->
   exists p content,
     In p posts /\ mentions_pain_points p = true
     /\ post_content p = Some content
     /\ w = WedgeDetector.painPointWedge now p content).
Proof.
  intro H. apply painPoint_emitted in H. split.
  - intro Hw. destruct (Forall2_In_r _ _ _ _ H Hw) as (p & Hp & c & Hc & ->).
    apply filter_In in Hp. exists p, c. tauto.
  - intros (p & c & Hp & Hflag & Hc & ->).
    assert (Hin : In p (filter mentions_pain_points posts))
      by (apply filter_In; now split).
    destruct (Forall2_In_l _ _ _ _ H Hin) as (y & Hy & c' & Hc' & ->).
    rewrite Hc in Hc'. injection Hc' as <-. exact Hy.
Qed.

Lemma buyingSignal_cases (ws : list Wedge.t) (w : Wedge.t) :
  WedgeDetector.detectBuyingSignalWedges now posts = Ok ws ->
  (In w ws <->
   exists p content,
     In p posts /\ mentions_buying_signals p = true
     /\ post_content p = Some content
     /\ w = WedgeDetector.buyingSignalWedge now p content).
Proof.
  intro H. apply buyingSignal_emitted in H. split.
  - intro Hw. destruct (Forall2_In_r _ _ _ _ H Hw) as (p & Hp & c & Hc & ->).
    apply filter_In in Hp. exists p, c. tauto.
  - intros (p & c & Hp & Hflag & Hc & ->).
    assert (Hin : In p (filter mentions_buying_signals posts))
      by (apply filter_In; now split).
    destruct (Forall2_In_l _ _ _ _ H Hin) as (y & Hy & c' & Hc' & ->).
    rewrite Hc in Hc'. injection Hc' as <-. exact Hy.
Qed.

(** The pain-point rule returns exactly when every flagged post has a
    content; otherwise it throws the TypeError of [substring]. *)
Lemma painPoint_returns :
  (painPostsHaveContent posts ->
   exists ws, WedgeDetector.detectPainPointWedges now posts = Ok ws)
  /\ (~ painPostsHaveContent posts ->
      WedgeDetector.detectPainPointWedges now posts
      = Err (Js.null_property "substring")).
Proof.
  unfold WedgeDetector.detectPainPointWedges, painPostsHaveContent. split.
  - intro H. apply for_each_total. intros p Hp. apply filter_In in Hp.
    destruct (post_content p) as [c|] eqn:Ec.
    + eexists. reflexivity.
    + exfalso. now apply (H p).
  - intro H. apply for_each_throws.
    + intros p m' _. destruct (post_content p); cbn; congruence.
    + assert (Hex : exists p, In p (filter mentions_pain_points posts)
                              /\ post_content p = None).
      { clear now profile signals github.
        induction posts as [|q l IH].
        - exfalso. apply H. intros p [].
        - destruct (mentions_pain_points q) eqn:Eq;
            [destruct (post_content q) as [c|] eqn:Ec|].
          + destruct IH as (p & Hp & Hn).
            { intro Hl. apply H. intros p [<-|Hp] Hf;
                [congruence | now apply Hl]. }
            exists p. split; [|exact Hn]. simpl. rewrite Eq. now right.
          + exists q. split; [|exact Ec]. simpl. rewrite Eq. now left.
          + destruct IH as (p & Hp & Hn).
            { intro Hl. apply H. intros p [<-|Hp] Hf;
                [congruence | now apply Hl]. }
            exists p. split; [|exact Hn]. simpl. now rewrite Eq. }
      destruct Hex as (p & Hp & Hn). exists p. split; [exact Hp|].
      now rewrite Hn.
Qed.

Lemma buyingSignal_returns :
  (buyingPostsHaveContent posts ->
   exists ws, WedgeDetector.detectBuyingSignalWedges now posts = Ok ws)
  /\ (~ buyingPostsHaveContent posts ->
      WedgeDetector.detectBuyingSignalWedges now posts
      = Err (Js.null_property "substring")).
Proof.
  unfold WedgeDetector.detectBuyingSignalWedges, buyingPostsHaveContent. split.
  - intro H. apply for_each_total. intros p Hp. apply filter_In in Hp.
    destruct (post_content p) as [c|] eqn:Ec.
    + eexists. reflexivity.
    + exfalso. now apply (H p).
  - intro H. apply for_each_throws.
    + intros p m' _. destruct (post_content p); cbn; congruence.
    + assert (Hex : exists p, In p (filter mentions_buying_signals posts)
                              /\ post_content p = None).
      { clear now profile signals github.
        induction posts as [|q l IH].
        - exfalso. apply H. intros p [].
        - destruct (mentions_buying_signals q) eqn:Eq;
            [destruct (post_content q) as [c|] eqn:Ec|].
          + destruct IH as (p & Hp & Hn).
            { intro Hl. apply H. intros p [<-|Hp] Hf;
                [congruence | now apply Hl]. }
            exists p. split; [|exact Hn]. simpl. rewrite Eq. now right.
          + exists q. split; [|exact Ec]. simpl. rewrite Eq. now left.
          + destruct IH as (p & Hp & Hn).
            { intro Hl. apply H. intros p [<-|Hp] Hf;
                [congruence | now apply Hl]. }
            exists p. split; [|exact Hn]. simpl. now rewrite Eq. }
      destruct Hex as (p & Hp & Hn). exists p. split; [exact Hp|].
      now rewrite Hn.
Qed.

Lemma jobChange_cases (w : Wedge.t) :
  In w (WedgeDetector.detectJobChangeWedges profile signals) ->
  exists t, (w = WedgeDetector.recentJobChangeWedge t /\ (t < 6)%Z)
            \/ (w = WedgeDetector.optimalJobChangeWedge t /\ (6 <= t <= 12)%Z).
Proof.
  unfold WedgeDetector.detectJobChangeWedges.
  destruct profile as [p|]; [|intros []].
  destruct (current_position_tenure_months p) as [t|]; [|intros []].
  destruct (negb (truthy_int (Some t))); [intros []|].
  destruct (t <? 6)%Z eqn:E6.
  - intros [<-|[]]. exists t. left. split; [reflexivity|]. now apply Z.ltb_lt.
  - destruct ((6 <=? t) && (t <=? 12))%Z eqn:E12; [|intros []].
    intros [<-|[]]. exists t. right. split; [reflexivity|].
    apply andb_true_iff in E12. destruct E12 as [H1 H2].
    apply Z.leb_le in H1, H2. lia.
Qed.

Lemma thoughtLeadership_cases (w : Wedge.t) :
  In w (WedgeDetector.detectThoughtLeadershipWedges now posts) ->
  (exists p, In p posts
             /\ w = WedgeDetector.thoughtLeadershipWedge now
                      (WedgeDetector.avgEngagement posts) p)
  \/ w = WedgeDetector.activePosterWedge posts.
Proof.
  unfold WedgeDetector.detectThoughtLeadershipWedges.
  destruct (List.length posts =? 0)%nat; [intros []|].
  rewrite in_app_iff. intros [H|H].
  - left.
    destruct (filter _ posts) as [|top rest] eqn:E; [destruct H|].
    destruct H as [<-|[]]. exists top. split; [|reflexivity].
    assert (Hin : In top (top :: rest)) by now left.
    rewrite <- E in Hin. apply filter_In in Hin. apply Hin.
  - right. destruct (10 <=? List.length posts)%nat; [|destruct H].
    destruct H as [<-|[]]. reflexivity.
Qed.

Lemma technical_cases (w : Wedge.t) :
  In w (WedgeDetector.detectTechnicalWedges posts github) ->
  exists tp g, w = WedgeDetector.technicalWedge tp g.
Proof.
  unfold WedgeDetector.detectTechnicalWedges.
  destruct github as [g|]; [|intros []].
  destruct (_ && _); [|intros []].
  intros [<-|[]]. eauto.
Qed.

Lemma initiative_cases (w : Wedge.t) :
  In w (WedgeDetector.detectInitiativeWedges signals) ->
  exists s, In s signals /\ w = WedgeDetector.initiativeWedge s.
Proof.
  unfold WedgeDetector.detectInitiativeWedges.
  destruct (filter _ signals) as [|s rest] eqn:E; [intros []|].
  intros [<-|[]]. exists s. split; [|reflexivity].
  assert (Hin : In s (s :: rest)) by now left.
  rewrite <- E in Hin. apply filter_In in Hin. apply Hin.
Qed.

(** What the six rules return together, when none throws. *)
Lemma allWedges_ok (all : list Wedge.t) :
  WedgeDetector.allWedges now profile posts signals github = Ok all <->
  exists pain buying,
    WedgeDetector.detectPainPointWedges now posts = Ok pain
    /\ WedgeDetector.detectBuyingSignalWedges now posts = Ok buying
    /\ all = (pain ++ buying
              ++ WedgeDetector.detectJobChangeWedges profile signals
              ++ WedgeDetector.detectThoughtLeadershipWedges now posts
              ++ WedgeDetector.detectTechnicalWedges posts github
              ++ WedgeDetector.detectInitiativeWedges signals)%list.
Proof.
  unfold WedgeDetector.allWedges, Js.bind.
  destruct (WedgeDetector.detectPainPointWedges now posts) as [pain|m].
  - destruct (WedgeDetector.detectBuyingSignalWedges now posts) as [buying|m].
    + split.
      * intro H. injection H as <-. eauto.
      * intros (pa & bu & Hp & Hb & ->).
        injection Hp as <-. injection Hb as <-. reflexivity.
    + split; [discriminate | intros (pa & bu & _ & Hb & _); discriminate].
  - split; [discriminate | intros (pa & bu & Hp & _); discriminate].
Qed.

(** The rules return exactly when every flagged post has a content. *)
Lemma allWedges_returns :
  (flaggedPostsHaveContent posts ->
   exists all,
     WedgeDetector.allWedges now profile posts signals github = Ok all)
  /\ (~ flaggedPostsHaveContent posts ->
      WedgeDetector.allWedges now profile posts signals github
      = Err (Js.null_property "substring")).
Proof.
  destruct painPoint_returns as [Hp Hpn], buyingSignal_returns as [Hb Hbn].
  split.
  - intros [H1 H2]. destruct (Hp H1) as [pain Hpain], (Hb H2) as [buy Hbuy].
    eexists. apply allWedges_ok. eauto.
  - intro H. unfold WedgeDetector.allWedges.
    destruct (WedgeDetector.detectPainPointWedges now posts) as [pain|m] eqn:E1.
    + cbn [Js.bind]. rewrite Hbn; [reflexivity|].
      intro H2. apply H. split; [|exact H2]. intros p Hin Hflag Hnone.
      apply painPoint_emitted in E1.
      assert (Hf : In p (filter mentions_pain_points posts))
        by (apply filter_In; now split).
      destruct (Forall2_In_l _ _ _ _ E1 Hf) as (w & _ & c & Hc & _).
      congruence.
    + cbn [Js.bind].
      assert (Hn : ~ painPostsHaveContent posts).
      { intro H1. destruct (Hp H1) as [ws Hws]. discriminate Hws. }
      exact (Hpn Hn).
Qed.

Lemma allWedges_In (all : list Wedge.t) (w : Wedge.t) :
  WedgeDetector.allWedges now profile posts signals github = Ok all ->
  (In w all <->
   (exists p content,
      In p posts /\ mentions_pain_points p = true
      /\ post_content p = Some content
      /\ w = WedgeDetector.painPointWedge now p content)
   \/ (exists p content,
         In p posts /\ mentions_buying_signals p = true
         /\ post_content p = Some content
         /\ w = WedgeDetector.buyingSignalWedge now p content)
   \/ In w (WedgeDetector.detectJobChangeWedges profile signals)
   \/ In w (WedgeDetector.detectThoughtLeadershipWedges now posts)
   \/ In w (WedgeDetector.detectTechnicalWedges posts github)
   \/ In w (WedgeDetector.detectInitiativeWedges signals)).
Proof.
  intro H. apply allWedges_ok in H. destruct H as (pain & buy & Hp & Hb & ->).
  rewrite !in_app_iff, (painPoint_cases pain w Hp),
    (buyingSignal_cases buy w Hb).
  reflexivity.
Qed.

(** What [detectWedges] returns when its four reads resolve: the sorted
    wedges when the rules return, the empty result when one throws. *)
Lemma detectWedges_ok (all : list Wedge.t) :
  WedgeDetector.allWedges now profile posts signals github = Ok all ->
  WedgeDetector.detectWedges now
    {| WedgeDetector.getProfile := Ok profile;
       WedgeDetector.getRecentPosts := Ok posts;
       WedgeDetector.getSignalsByContact := Ok signals;
       WedgeDetector.getActivity := Ok github |}
  = {| wedges := Js.sort WedgeDetector.by_score_desc all;
       primaryWedge := Js.first (Js.sort WedgeDetector.by_score_desc all);
       wedgeCount := List.length (Js.sort WedgeDetector.by_score_desc all) |}.
Proof.
  intro H. unfold WedgeDetector.detectWedges, WedgeDetector.tryDetect.
  cbn [WedgeDetector.getProfile WedgeDetector.getRecentPosts
       WedgeDetector.getSignalsByContact WedgeDetector.getActivity Js.bind].
  rewrite H. reflexivity.
Qed.

Lemma detectWedges_thrown (m : string) :
  WedgeDetector.allWedges now profile posts signals github = Err m ->
  WedgeDetector.detectWedges now
    {| WedgeDetector.getProfile := Ok profile;
       WedgeDetector.getRecentPosts := Ok posts;
       WedgeDetector.getSignalsByContact := Ok signals;
       WedgeDetector.getActivity := Ok github |}
  = WedgeDetector.noWedges.
Proof.
  intro H. unfold WedgeDetector.detectWedges, WedgeDetector.tryDetect.
  cbn [WedgeDetector.getProfile WedgeDetector.getRecentPosts
       WedgeDetector.getSignalsByContact WedgeDetector.getActivity Js.bind].
  rewrite H. reflexivity.
Qed.

End WedgeRules.

(** A wedge of the rules' result, traced to the rule that emitted it. *)
Ltac wedge_origin H :=
  first
    [ destruct H as (? & ? & _ & _ & _ & ->)
    | apply jobChange_cases in H; destruct H as [? [[-> _]|[-> _]]]
    | apply thoughtLeadership_cases in H; destruct H as [(? & _ & ->)| ->]
    | apply technical_cases in H; destruct H as (? & ? & ->)
    | apply initiative_cases in H; destruct H as (? & _ & ->) ].

(** The wedges of one type among the rules' wedges come from the rule of
    that type. *)
Lemma ofType_painPoint (now : Z) (profile : option Profile) (posts : list Post)
    (signals : list Signal) (github : option GithubActivity)
    (pain all : list Wedge.t) :
  WedgeDetector.detectPainPointWedges now posts = Ok pain ->
  WedgeDetector.allWedges now profile posts signals github = Ok all ->
  ofType "linkedin_pain_point" all = pain.
Proof.
  intros Hp Hall. apply allWedges_ok in Hall.
  destruct Hall as (pain' & buy & Hp' & Hb & ->).
  rewrite Hp in Hp'. injection Hp' as <-.
  unfold ofType. rewrite !filter_app.
  rewrite (filter_every _ pain).
  2:{ intros w H. apply (painPoint_cases now posts pain w Hp) in H.
      wedge_origin H. reflexivity. }
  rewrite (filter_none _ buy).
  2:{ intros w H. apply (buyingSignal_cases now posts buy w Hb) in H.
      wedge_origin H. reflexivity. }
  rewrite (filter_none _ (WedgeDetector.detectJobChangeWedges profile signals))
    by (intros w H; wedge_origin H; reflexivity).
  rewrite (filter_none _ (WedgeDetector.detectThoughtLeadershipWedges now posts))
    by (intros w H; wedge_origin H; reflexivity).
  rewrite (filter_none _ (WedgeDetector.detectTechnicalWedges posts github))
    by (intros w H; wedge_origin H; reflexivity).
  rewrite (filter_none _ (WedgeDetector.detectInitiativeWedges signals))
    by (intros w H; wedge_origin H; reflexivity).
  rewrite !app_nil_r. reflexivity.
Qed.

Lemma ofType_buyingSignal (now : Z) (profile : option Profile)
    (posts : list Post) (signals : list Signal)
    (github : option GithubActivity) (buy all : list Wedge.t) :
  WedgeDetector.detectBuyingSignalWedges now posts = Ok buy ->
  WedgeDetector.allWedges now profile posts signals github = Ok all ->
  ofType "linkedin_buying_signal" all = buy.
Proof.
  intros Hb Hall. apply allWedges_ok in Hall.
  destruct Hall as (pain & buy' & Hp & Hb' & ->).
  rewrite Hb in Hb'. injection Hb' as <-.
  unfold ofType. rewrite !filter_app.
  rewrite (filter_none _ pain).
  2:{ intros w H. apply (painPoint_cases now posts pain w Hp) in H.
      wedge_origin H. reflexivity. }
  rewrite (filter_every _ buy).
  2:{ intros w H. apply (buyingSignal_cases now posts buy w Hb) in H.
      wedge_origin H. reflexivity. }
  rewrite (filter_none _ (WedgeDetector.detectJobChangeWedges profile signals))
    by (intros w H; wedge_origin H; reflexivity).
  rewrite (filter_none _ (WedgeDetector.detectThoughtLeadershipWedges now posts))
    by (intros w H; wedge_origin H; reflexivity).
  rewrite (filter_none _ (WedgeDetector.detectTechnicalWedges posts github))
    by (intros w H; wedge_origin H; reflexivity).
  rewrite (filter_none _ (WedgeDetector.detectInitiativeWedges signals))
    by (intros w H; wedge_origin H; reflexivity).
  rewrite !app_nil_r. reflexivity.
Qed.

(** The high-engagement wedges of the rules come from rule 4 alone. *)
Lemma ofType_thoughtLeadership (now : Z) (profile : option Profile)
    (posts : list Post) (signals : list Signal)
    (github : option GithubActivity) (all : list Wedge.t) :
  WedgeDetector.allWedges now profile posts signals github = Ok all ->
  ofType "linkedin_thought_leadership" all
  = ofType "linkedin_thought_leadership"
      (WedgeDetector.detectThoughtLeadershipWedges now posts).
Proof.
  intro Hall. apply allWedges_ok in Hall.
  destruct Hall as (pain & buy & Hp & Hb & ->).
  unfold ofType. rewrite !filter_app.
  rewrite (filter_none _ pain).
  2:{ intros w H. apply (painPoint_cases now posts pain w Hp) in H.
      wedge_origin H. reflexivity. }
  rewrite (filter_none _ buy).
  2:{ intros w H. apply (buyingSignal_cases now posts buy w Hb) in H.
      wedge_origin H. reflexivity. }
  rewrite (filter_none _ (WedgeDetector.detectJobChangeWedges profile signals))
    by (intros w H; wedge_origin H; reflexivity).
  rewrite (filter_none _ (WedgeDetector.detectTechnicalWedges posts github))
    by (intros w H; wedge_origin H; reflexivity).
  rewrite (filter_none _ (WedgeDetector.detectInitiativeWedges signals))
    by (intros w H; wedge_origin H; reflexivity).
  rewrite !app_nil_r. reflexivity.
Qed.

(** C2, as stated, fails: the pain-point wedge of a post three days old
    carries the binary64 sum of 0.95 and 0.15, which is not the number
    1.10. *)
Lemma pain_point_wedge_score_counterexample :
  exists w,
    WedgeDetector.detectPainPointWedges Sample.now [Sample.fresh] = Ok [w]
    /\ (ageInDays Sample.now Sample.fresh < 7)%Z
    /\ Wedge.score w == Js.add 0.95 0.15
    /\ ~ Wedge.score w == 1.10
    /\ ~ Js.same_number (Wedge.score w) 1.10.
Proof.
  eexists. split; [reflexivity|]. split; [reflexivity|].
  split; [vm_compute; reflexivity|].
  split; unfold Js.same_number; vm_compute; discriminate.
Qed.

(** C2, amended.  When every fetched post flagged mentionsPainPoints has a
    content, each of them gets exactly one pain-point wedge, in their order.
    Its score is the binary64 sum of 0.95 and the recency bonus: 0.15 for a
    post less than 7 days old, which gives 1.0999999999999999 (below 1.10),
    0.10 for one less than 14 days old, which gives 1.05, and 0.05
    otherwise, which gives 1.00.  Its timing rationale states the days since
    the post and the engagement count.  When the buying-signal posts have a
    content too, these are all the pain-point wedges of the detector's
    result. *)
Theorem pain_point_wedge_per_flagged_post (now : Z) (profile : option Profile)
    (posts : list Post) (signals : list Signal)
    (github : option GithubActivity) :
  painPostsHaveContent posts ->
  exists ws,
    WedgeDetector.detectPainPointWedges now posts = Ok ws
    /\ Forall2
         (fun post w =>
            Wedge.type w = "linkedin_pain_point"
            /\ ((ageInDays now post < 7)%Z ->
                Wedge.score w == Js.add 0.95 0.15
                /\ Js.same_number (Wedge.score w) 1.0999999999999999
                /\ Wedge.score w < 1.10)
            /\ ((7 <= ageInDays now post < 14)%Z ->
                Wedge.score w == Js.add 0.95 0.10
                /\ Js.same_number (Wedge.score w) 1.05)
            /\ ((14 <= ageInDays now post)%Z ->
                Wedge.score w == Js.add 0.95 0.05
                /\ Wedge.score w == 1.00)
            /\ Wedge.timingRationale w
               = "Posted " ++ show_int (ageInDays now post)
                   ++ " days ago with "
                   ++ show_int_col (engagement_count post)
                   ++ " engagements - indicates active, shared pain point")
         (filter mentions_pain_points posts) ws
    /\ (buyingPostsHaveContent posts ->
        Permutation
          (ofType "linkedin_pain_point"
             (wedges (WedgeDetector.detectWedges now
                        {| WedgeDetector.getProfile := Ok profile;
                           WedgeDetector.getRecentPosts := Ok posts;
                           WedgeDetector.getSignalsByContact := Ok signals;
                           WedgeDetector.getActivity := Ok github |})))
          ws).
Proof.
  intro Hcontent.
  destruct (proj1 (painPoint_returns now posts) Hcontent) as [ws Hws].
  exists ws. split; [exact Hws|]. split.
  - pose proof (proj1 (painPoint_emitted now posts ws) Hws) as Hem.
    revert Hem. apply Forall2_weaken. intros post w _ (c & _ & ->).
    cbn [WedgeDetector.painPointWedge Wedge.type Wedge.score
         Wedge.timingRationale].
    rewrite getDaysSince_age. set (d := ageInDays now post).
    unfold WedgeDetector.recencyBoost.
    destruct pain_point_sums as ((S1 & _ & S3 & _) & (S4 & _) & S5).
    split; [reflexivity|]. split; [|split; [|split; [|reflexivity]]].
    + intro H. apply Z.ltb_lt in H. rewrite H.
      split; [reflexivity|]. split; assumption.
    + intros [H7 H14]. apply Z.ltb_ge in H7. apply Z.ltb_lt in H14.
      rewrite H7, H14. split; [reflexivity | assumption].
    + intro H. assert (H7 : (d <? 7)%Z = false) by (apply Z.ltb_ge; lia).
      apply Z.ltb_ge in H. rewrite H7, H. split; [reflexivity | assumption].
  - intro Hbuy.
    destruct (proj1 (allWedges_returns now profile posts signals github)
                (conj Hcontent Hbuy)) as [all Hall].
    rewrite (detectWedges_ok now profile posts signals github all Hall).
    cbn [wedges].
    rewrite <- (ofType_painPoint now profile posts signals github ws all
                  Hws Hall).
    apply filter_perm, sort_perm.
Qed.

Lemma pain_point_wedge_per_flagged_post_witness :
  exists w1 w2 w3,
    WedgeDetector.detectPainPointWedges Sample.now
      [Sample.fresh; Sample.older; Sample.stale; Sample.asking]
    = Ok [w1; w2; w3]
    /\ Js.same_number (Wedge.score w1) 1.0999999999999999
    /\ Js.same_number (Wedge.score w2) 1.05
    /\ Wedge.score w3 == 1.00
    /\ Wedge.timingRationale w1
       = "Posted 3 days ago with 45 engagements - indicates active, shared pain point"
    /\ Wedge.timingRationale w3
       = "Posted 30 days ago with 7 engagements - indicates active, shared pain point".
Proof.
  destruct (pain_point_wedge_per_flagged_post Sample.now None
              [Sample.fresh; Sample.older; Sample.stale; Sample.asking] []
              None) as (ws & Hws & Hall & _).
  { intros p [<-|[<-|[<-|[<-|[]]]]] _; discriminate. }
  change (filter mentions_pain_points
            [Sample.fresh; Sample.older; Sample.stale; Sample.asking])
    with [Sample.fresh; Sample.older; Sample.stale] in Hall.
  inversion Hall as [|p1 w1 l1 ws1 H1 Hall1]; subst.
  inversion Hall1 as [|p2 w2 l2 ws2 H2 Hall2]; subst.
  inversion Hall2 as [|p3 w3 l3 ws3 H3 Hall3]; subst.
  inversion Hall3; subst.
  exists w1, w2, w3. split; [exact Hws|].
  destruct H1 as (_ & H1 & _ & _ & R1).
  destruct H2 as (_ & _ & H2 & _ & _).
  destruct H3 as (_ & _ & _ & H3 & R3).
  split; [apply H1; reflexivity|].
  split; [apply H2; split; [discriminate | reflexivity]|].
  split; [apply H3; discriminate|].
  split; [rewrite R1 | rewrite R3]; reflexivity.
Defined.

(** What the buying-signal rule does for every input.  When every fetched
    post flagged mentionsBuyingSignals has a content, each of them gets
    exactly one buying-signal wedge with score 0.98, whose opening hook
    contains the buying-intent phrase of the first keyword found in the
    lower-cased content, in the order recommend, evaluat, looking for,
    anyone use, and the phrase solutions when none is found; with the
    pain-point posts having a content too, these are all the buying-signal
    wedges of the detector's result.  When a flagged post has no content the
    rule throws and the detector returns the empty result. *)
Lemma buying_signal_rule (now : Z) (profile : option Profile)
    (posts : list Post) (signals : list Signal)
    (github : option GithubActivity) :
  (buyingPostsHaveContent posts ->
   exists ws,
     WedgeDetector.detectBuyingSignalWedges now posts = Ok ws
     /\ Forall2
          (fun post w =>
             Wedge.type w = "linkedin_buying_signal"
             /\ Wedge.score w = 0.98
             /\ exists content phrase,
                  post_content post = Some content
                  /\ buying_intent (toLowerCase content) phrase
                  /\ Wedge.openingHook w
                     = "Saw you're looking for " ++ phrase
                         ++ " - happy to share what's worked for similar companies"
                  /\ Contains (Wedge.openingHook w) phrase)
          (filter mentions_buying_signals posts) ws
     /\ (painPostsHaveContent posts ->
         Permutation
           (ofType "linkedin_buying_signal"
              (wedges (WedgeDetector.detectWedges now
                         {| WedgeDetector.getProfile := Ok profile;
                            WedgeDetector.getRecentPosts := Ok posts;
                            WedgeDetector.getSignalsByContact := Ok signals;
                            WedgeDetector.getActivity := Ok github |})))
           ws))
  /\ (~ buyingPostsHaveContent posts ->
      WedgeDetector.detectBuyingSignalWedges now posts
      = Err (Js.null_property "substring")
      /\ WedgeDetector.detectWedges now
           {| WedgeDetector.getProfile := Ok profile;
              WedgeDetector.getRecentPosts := Ok posts;
              WedgeDetector.getSignalsByContact := Ok signals;
              WedgeDetector.getActivity := Ok github |}
         = WedgeDetector.noWedges).
Proof.
  split.
  - intro Hcontent.
    destruct (proj1 (buyingSignal_returns now posts) Hcontent) as [ws Hws].
    exists ws. split; [exact Hws|]. split.
    + pose proof (proj1 (buyingSignal_emitted now posts ws) Hws) as Hem.
      revert Hem. apply Forall2_weaken. intros post w _ (c & Hc & ->).
      cbn [WedgeDetector.buyingSignalWedge Wedge.type Wedge.score
           Wedge.openingHook].
      split; [reflexivity|]. split; [reflexivity|].
      exists c, (WedgeDetector.extractBuyingIntent c).
      split; [exact Hc|]. split; [|split; [reflexivity|]].
      * unfold WedgeDetector.extractBuyingIntent, buying_intent.
        set (lowered := toLowerCase c).
        destruct (includes lowered "recommend") eqn:E1.
        { apply includes_spec in E1. left. now split. }
        apply includes_false in E1.
        destruct (includes lowered "evaluat") eqn:E2.
        { apply includes_spec in E2. right; left. now repeat split. }
        apply includes_false in E2.
        destruct (includes lowered "looking for") eqn:E3.
        { apply includes_spec in E3. right; right; left. now repeat split. }
        apply includes_false in E3.
        destruct (includes lowered "anyone use") eqn:E4.
        { apply includes_spec in E4. right; right; right; left.
          now repeat split. }
        apply includes_false in E4.
        right; right; right; right. now repeat split.
      * exists "Saw you're looking for ",
          " - happy to share what's worked for similar companies".
        reflexivity.
    + intro Hpain.
      destruct (proj1 (allWedges_returns now profile posts signals github)
                  (conj Hpain Hcontent)) as [all Hall].
      rewrite (detectWedges_ok now profile posts signals github all Hall).
      cbn [wedges].
      rewrite <- (ofType_buyingSignal now profile posts signals github ws all
                    Hws Hall).
      apply filter_perm, sort_perm.
  - intro Hnone. split.
    + apply buyingSignal_returns, Hnone.
    + apply (detectWedges_thrown now profile posts signals github
               (Js.null_property "substring")).
      apply allWedges_returns. intros [_ H]. exact (Hnone H).
Qed.

(** The rule on a post that asks for a recommendation in capitals. *)
Lemma buying_signal_rule_example :
  exists w,
    WedgeDetector.detectBuyingSignalWedges Sample.now
      [Sample.fresh; Sample.asking] = Ok [w]
    /\ Wedge.score w = 0.98
    /\ Wedge.openingHook w
       = "Saw you're looking for recommendations - happy to share what's worked for similar companies".
Proof. eexists. repeat split. Qed.

(** C9, at the failing input: a post flagged mentionsBuyingSignals that was
    stored without text.  Reading its content throws, so the rule emits no
    wedge for it, and the detector, which catches the error, returns the
    empty result whatever else is known of the contact. *)
Theorem buying_signal_without_content_emits_nothing (now : Z)
    (profile : option Profile) (signals : list Signal)
    (github : option GithubActivity) :
  mentions_buying_signals (Sample.silent false true) = true
  /\ post_content (Sample.silent false true) = None
  /\ WedgeDetector.detectBuyingSignalWedges now [Sample.silent false true]
     = Err "Cannot read properties of null (reading 'substring')"
  /\ WedgeDetector.detectWedges now
       {| WedgeDetector.getProfile := Ok profile;
          WedgeDetector.getRecentPosts := Ok [Sample.silent false true];
          WedgeDetector.getSignalsByContact := Ok signals;
          WedgeDetector.getActivity := Ok github |}
     = WedgeDetector.noWedges.
Proof. repeat split. Qed.

Tactic Notation "score_in_set" integer(n) :=
  split; [eexists; split; [do n right; left; reflexivity
                          | unfold Js.same_number; reflexivity]|];
  split; [reflexivity|];
  split; [discriminate|];
  let Habove := fresh "Habove" in
  intro Habove; exfalso; revert Habove; vm_compute; discriminate.

(** C10, as stated, fails: the detector's result for a pain-point post three
    days old holds a wedge whose score is none of the nine listed numbers. *)
Lemma wedge_score_in_finite_set_counterexample :
  exists w,
    wedges (WedgeDetector.detectWedges Sample.now
              {| WedgeDetector.getProfile := Ok None;
                 WedgeDetector.getRecentPosts := Ok [Sample.fresh];
                 WedgeDetector.getSignalsByContact := Ok [];
                 WedgeDetector.getActivity := Ok None |}) = [w]
    /\ ~ (exists s, In s wedge_scores /\ Wedge.score w == s)
    /\ ~ (exists s, In s wedge_scores /\ Js.same_number (Wedge.score w) s).
Proof.
  exists (WedgeDetector.painPointWedge Sample.now Sample.fresh
            "forecasting is broken").
  split; [vm_compute; reflexivity|].
  split; intros (s & Hs & E); unfold wedge_scores in Hs;
    repeat (destruct Hs as [<-|Hs];
            [revert E; unfold Js.same_number; vm_compute; discriminate|]);
    destruct Hs.
Qed.

(** The scores of the wedges the six rules emit: one of 0.70, 0.75, 0.80,
    0.85, 0.90, 0.98, 1.00, 1.05 and 1.0999999999999999, and above 1.0 only
    for the pain-point wedge of a post less than 14 days old. *)
Lemma rule_wedge_scores (now : Z) (profile : option Profile)
    (posts : list Post) (signals : list Signal)
    (github : option GithubActivity) (all : list Wedge.t) (w : Wedge.t) :
  WedgeDetector.allWedges now profile posts signals github = Ok all ->
  In w all ->
  (exists s, In s computed_scores /\ Js.same_number (Wedge.score w) s)
  /\ Wedge.score w < 1.10
  /\ 0.70 <= Wedge.score w
  /\ (1.0 < Wedge.score w ->
      exists p content,
        In p posts /\ mentions_pain_points p = true
        /\ post_content p = Some content
        /\ w = WedgeDetector.painPointWedge now p content
        /\ Wedge.type w = "linkedin_pain_point"
        /\ (ageInDays now p < 14)%Z).
Proof.
  intros Hall H.
  apply (allWedges_In now profile posts signals github all w Hall) in H.
  destruct H as [H|[H|[H|[H|[H|H]]]]].
  - destruct H as (p & c & Hp & Hflag & Hc & ->).
    cbn [WedgeDetector.painPointWedge Wedge.score Wedge.type].
    rewrite getDaysSince_age. unfold WedgeDetector.recencyBoost.
    set (d := ageInDays now p).
    destruct pain_point_sums as ((S1 & _ & S3 & S3') & (S4 & S4' & S4'') & S5).
    destruct (d <? 7)%Z eqn:E7; [|destruct (d <? 14)%Z eqn:E14].
    + split; [exists 1.0999999999999999;
              split; [do 8 right; left; reflexivity | exact S1]|].
      split; [exact S3|]. split; [vm_compute; discriminate|].
      intros _. exists p, c. apply Z.ltb_lt in E7.
      repeat split; try assumption. lia.
    + split; [exists 1.05; split; [do 7 right; left; reflexivity | exact S4]|].
      split; [vm_compute; reflexivity|]. split; [vm_compute; discriminate|].
      intros _. exists p, c. apply Z.ltb_lt in E14.
      repeat split; assumption.
    + split; [exists 1.00;
              split; [do 6 right; left; reflexivity
                     | unfold Js.same_number; vm_compute; reflexivity]|].
      split; [vm_compute; reflexivity|]. split; [vm_compute; discriminate|].
      intro Habove. exfalso. revert Habove. vm_compute. discriminate.
  - wedge_origin H.
    cbn [WedgeDetector.buyingSignalWedge Wedge.score]. score_in_set 5.
  - wedge_origin H.
    + cbn [WedgeDetector.recentJobChangeWedge Wedge.score]. score_in_set 4.
    + cbn [WedgeDetector.optimalJobChangeWedge Wedge.score]. score_in_set 3.
  - wedge_origin H.
    + cbn [WedgeDetector.thoughtLeadershipWedge Wedge.score]. score_in_set 3.
    + cbn [WedgeDetector.activePosterWedge Wedge.score]. score_in_set 1.
  - wedge_origin H.
    cbn [WedgeDetector.technicalWedge Wedge.score]. score_in_set 2.
  - wedge_origin H.
    cbn [WedgeDetector.initiativeWedge Wedge.score]. score_in_set 0.
Qed.

(** C10, amended.  Every wedge in the detector's result carries one of the
    scores 0.70, 0.75, 0.80, 0.85, 0.90, 0.98, 1.00, 1.05 and
    1.0999999999999999 (the binary64 sum of 0.95 and 0.15); so every score
    is below 1.10 and at least 0.70, and a score above 1.0 belongs to the
    pain-point wedge of a fetched post less than 14 days old. *)
Theorem wedge_score_in_finite_set (now : Z) (db : WedgeDetector.Reads)
    (w : Wedge.t) :
  In w (wedges (WedgeDetector.detectWedges now db)) ->
  (exists s, In s computed_scores /\ Js.same_number (Wedge.score w) s)
  /\ Wedge.score w < 1.10
  /\ 0.70 <= Wedge.score w
  /\ (1.0 < Wedge.score w ->
      exists posts p content,
        WedgeDetector.getRecentPosts db = Ok posts
        /\ In p posts /\ mentions_pain_points p = true
        /\ post_content p = Some content
        /\ w = WedgeDetector.painPointWedge now p content
        /\ Wedge.type w = "linkedin_pain_point"
        /\ (ageInDays now p < 14)%Z).
Proof.
  unfold WedgeDetector.detectWedges, WedgeDetector.tryDetect, Js.bind.
  destruct (WedgeDetector.getProfile db) as [pr|]; [|intros []].
  destruct (WedgeDetector.getRecentPosts db) as [po|]; [|intros []].
  destruct (WedgeDetector.getSignalsByContact db) as [sg|]; [|intros []].
  destruct (WedgeDetector.getActivity db) as [gh|]; [|intros []].
  destruct (WedgeDetector.allWedges now pr po sg gh) as [all|] eqn:Eall;
    [|intros []].
  cbn [wedges]. intro H.
  apply (sort_In WedgeDetector.by_score_desc all w) in H.
  destruct (rule_wedge_scores now pr po sg gh all w Eall H)
    as (Hset & Hmax & Hmin & Habove).
  split; [exact Hset|]. split; [exact Hmax|]. split; [exact Hmin|].
  intro Hw. destruct (Habove Hw) as (p & c & Hp).
  exists po, p, c. split; [reflexivity | exact Hp].
Qed.

Lemma wedge_score_in_finite_set_witness :
  let w := WedgeDetector.painPointWedge Sample.now Sample.fresh
             "forecasting is broken" in
  wedges (WedgeDetector.detectWedges Sample.now
            {| WedgeDetector.getProfile := Ok None;
               WedgeDetector.getRecentPosts := Ok [Sample.fresh];
               WedgeDetector.getSignalsByContact := Ok [];
               WedgeDetector.getActivity := Ok None |}) = [w]
  /\ Js.same_number (Wedge.score w) 1.0999999999999999
  /\ Wedge.score w < 1.10
  /\ (ageInDays Sample.now Sample.fresh < 14)%Z.
Proof.
  intro w.
  assert (Hout : wedges (WedgeDetector.detectWedges Sample.now
                   {| WedgeDetector.getProfile := Ok None;
                      WedgeDetector.getRecentPosts := Ok [Sample.fresh];
                      WedgeDetector.getSignalsByContact := Ok [];
                      WedgeDetector.getActivity := Ok None |}) = [w])
    by (vm_compute; reflexivity).
  split; [exact Hout|].
  destruct (wedge_score_in_finite_set Sample.now
              {| WedgeDetector.getProfile := Ok None;
                 WedgeDetector.getRecentPosts := Ok [Sample.fresh];
                 WedgeDetector.getSignalsByContact := Ok [];
                 WedgeDetector.getActivity := Ok None |} w)
    as ((s & Hs & E) & Hmax & _ & _).
  { rewrite Hout. left. reflexivity. }
  split; [|split; [exact Hmax | reflexivity]].
  unfold computed_scores in Hs.
  repeat (destruct Hs as [<-|Hs];
          [first [exact E
                 | exfalso; revert E; unfold Js.same_number; vm_compute;
                   discriminate]|]).
  destruct Hs.
Defined.

Lemma avgEngagement_spec (posts : list Post) :
  WedgeDetector.avgEngagement posts = averageEngagement posts.
Proof.
  unfold WedgeDetector.avgEngagement, averageEngagement. f_equal. f_equal.
  assert (H : forall acc,
             fold_left (fun sum p => (sum + or_zero (engagement_count p))%Z)
                       posts acc
             = (acc + totalEngagement posts)%Z).
  { induction posts as [|p l IH]; intro acc; simpl.
    - lia.
    - rewrite IH. lia. }
  rewrite H. lia.
Qed.

Lemma highEngagement_spec (posts : list Post) (p : Post) :
  WedgeDetector.highEngagement (WedgeDetector.avgEngagement posts) p = true
  <-> exceedsTwiceAverage posts p.
Proof.
  unfold WedgeDetector.highEngagement, exceedsTwiceAverage.
  rewrite Qltb_lt, avgEngagement_spec.
  rewrite (Qmult_comm (averageEngagement posts) 2). reflexivity.
Qed.

Lemma filter_first {A} (f : A -> bool) (before after : list A) (x : A) :
  (forall y, In y before -> f y = false) -> f x = true ->
  filter f (before ++ x :: after) = x :: filter f after.
Proof.
  intros Hb Hx. rewrite filter_app, (filter_none _ _ Hb). simpl.
  now rewrite Hx.
Qed.

(** C3, as stated, fails: with two qualifying posts the rule emits one wedge,
    for the first of them, and none citing the engagement of the second. *)
Lemma high_engagement_wedge_per_post_counterexample :
  ~ (forall p, In p Sample.viral -> exceedsTwiceAverage Sample.viral p ->
       exists w,
         In w (WedgeDetector.detectThoughtLeadershipWedges Sample.now Sample.viral)
         /\ highEngagementWedgeFor Sample.viral p w).
Proof.
  intro H.
  destruct (H Sample.louder) as (w & Hin & _ & _ & Hcite).
  - right; left; reflexivity.
  - reflexivity.
  - vm_compute in Hin. destruct Hin as [<-|[]].
    vm_compute in Hcite. discriminate.
Qed.

(** C3, amended.  When some fetched post has an engagement strictly above
    twice the average, the rule emits exactly one high-engagement wedge, with
    score 0.85, for the first such post in the fetched order; its rationale
    cites that post's engagement against the rounded average.  When no post
    qualifies it emits none.  The same wedges are the high-engagement wedges
    of the detector's result, when no rule throws (every post flagged for
    pain points or buying signals has a content). *)
Theorem high_engagement_wedge_for_first_post (now : Z)
    (profile : option Profile) (posts : list Post) (signals : list Signal)
    (github : option GithubActivity) :
  (forall before top after,
      posts = (before ++ top :: after)%list ->
      (forall q, In q before -> ~ exceedsTwiceAverage posts q) ->
      exceedsTwiceAverage posts top ->
      exists w,
        ofType "linkedin_thought_leadership"
          (WedgeDetector.detectThoughtLeadershipWedges now posts) = [w]
        /\ highEngagementWedgeFor posts top w)
  /\ ((forall q, In q posts -> ~ exceedsTwiceAverage posts q) ->
      ofType "linkedin_thought_leadership"
        (WedgeDetector.detectThoughtLeadershipWedges now posts) = [])
  /\ (flaggedPostsHaveContent posts ->
      Permutation
        (ofType "linkedin_thought_leadership"
           (wedges (WedgeDetector.detectWedges now
                      {| WedgeDetector.getProfile := Ok profile;
                         WedgeDetector.getRecentPosts := Ok posts;
                         WedgeDetector.getSignalsByContact := Ok signals;
                         WedgeDetector.getActivity := Ok github |})))
        (ofType "linkedin_thought_leadership"
           (WedgeDetector.detectThoughtLeadershipWedges now posts))).
Proof.
  assert (Hactive :
    ofType "linkedin_thought_leadership"
      (if (10 <=? List.length posts)%nat
       then [WedgeDetector.activePosterWedge posts] else []) = []).
  { destruct (10 <=? List.length posts)%nat; reflexivity. }
  split; [|split].
  - intros before top after Hposts Hbefore Htop.
    exists (WedgeDetector.thoughtLeadershipWedge now
              (WedgeDetector.avgEngagement posts) top).
    split.
    + unfold WedgeDetector.detectThoughtLeadershipWedges.
      destruct (List.length posts =? 0)%nat eqn:E.
      { apply Nat.eqb_eq in E. rewrite Hposts, length_app in E.
        simpl in E. lia. }
      assert (Hf : filter (WedgeDetector.highEngagement
                             (WedgeDetector.avgEngagement posts)) posts
                   = top :: filter (WedgeDetector.highEngagement
                                      (WedgeDetector.avgEngagement posts)) after).
      { rewrite Hposts at 2. apply filter_first.
        - intros y Hy.
          destruct (WedgeDetector.highEngagement _ y) eqn:Ey; [|reflexivity].
          apply highEngagement_spec in Ey. exfalso. exact (Hbefore y Hy Ey).
        - apply highEngagement_spec, Htop. }
      rewrite Hf. unfold ofType in *. rewrite filter_app, Hactive.
      reflexivity.
    + unfold highEngagementWedgeFor.
      cbn [WedgeDetector.thoughtLeadershipWedge Wedge.type Wedge.score
           Wedge.timingRationale].
      rewrite avgEngagement_spec. repeat split.
  - intro Hnone. unfold WedgeDetector.detectThoughtLeadershipWedges.
    destruct (List.length posts =? 0)%nat; [reflexivity|].
    rewrite filter_none.
    + unfold ofType in *. rewrite filter_app, Hactive. reflexivity.
    + intros y Hy.
      destruct (WedgeDetector.highEngagement _ y) eqn:Ey; [|reflexivity].
      apply highEngagement_spec in Ey. exfalso. exact (Hnone y Hy Ey).
  - intro Hcontent.
    destruct (proj1 (allWedges_returns now profile posts signals github)
                Hcontent) as [all Hall].
    rewrite (detectWedges_ok now profile posts signals github all Hall).
    cbn [wedges].
    rewrite <- (ofType_thoughtLeadership now profile posts signals github all
                  Hall).
    apply filter_perm, sort_perm.
Qed.

Lemma high_engagement_wedge_for_first_post_witness :
  exists w,
    ofType "linkedin_thought_leadership"
      (WedgeDetector.detectThoughtLeadershipWedges Sample.now Sample.viral)
    = [w]
    /\ highEngagementWedgeFor Sample.viral Sample.loud w.
Proof.
  apply (proj1 (high_engagement_wedge_for_first_post
                  Sample.now None Sample.viral [] None)
           [] Sample.loud (tl Sample.viral)).
  - reflexivity.
  - intros q [].
  - reflexivity.
Defined.

(** C4, at the failing input: a profile whose tenure is 0 months, which is
    below 6, gets no wedge from the job-change rule. *)
Theorem job_change_zero_tenure_emits_nothing (signals : list Signal) :
  WedgeDetector.detectJobChangeWedges (Some (Sample.profile (Some 0%Z))) signals
  = [].
Proof. reflexivity. Qed.

(** What the job-change rule does for every input: nothing without a
    profile or without a tenure, nothing for a tenure of 0, the recent wedge
    (0.90) for any other tenure below 6, the optimal wedge (0.85) from 6 to
    12, nothing above; never more than one wedge. *)
Lemma job_change_rule (profile : option Profile) (signals : list Signal) :
  let out := WedgeDetector.detectJobChangeWedges profile signals in
  (List.length out <= 1)%nat
  /\ (profile = None -> out = [])
  /\ (forall p, profile = Some p ->
        match current_position_tenure_months p with
        | None => out = []
        | Some t =>
            (t = 0%Z -> out = [])
            /\ (t <> 0%Z -> (t < 6)%Z ->
                exists w, out = [w]
                          /\ Wedge.type w = "linkedin_job_change_recent"
                          /\ Wedge.score w = 0.90)
            /\ ((6 <= t <= 12)%Z ->
                exists w, out = [w]
                          /\ Wedge.type w = "linkedin_job_change_optimal"
                          /\ Wedge.score w = 0.85)
            /\ ((12 < t)%Z -> out = [])
        end).
Proof.
  unfold WedgeDetector.detectJobChangeWedges.
  destruct profile as [p|]; cbv zeta.
  2:{ split; [simpl; lia|]. split; [reflexivity|]. intros p H. discriminate. }
  destruct (current_position_tenure_months p) as [t|] eqn:Et.
  2:{ split; [simpl; lia|]. split; [discriminate|].
      intros q H. injection H as <-. rewrite Et. reflexivity. }
  assert (Hcase :
    (t = 0%Z /\ negb (truthy_int (Some t)) = true)
    \/ (t <> 0%Z /\ negb (truthy_int (Some t)) = false)).
  { unfold truthy_int. destruct (Z.eqb_spec t 0); [left|right]; now split. }
  destruct Hcase as [[H0 ->]|[H0 ->]].
  - split; [simpl; lia|]. split; [discriminate|].
    intros q H. injection H as <-. rewrite Et.
    repeat split; try reflexivity; intros; lia.
  - destruct (Z.ltb_spec t 6) as [H6|H6].
    + split; [simpl; lia|]. split; [discriminate|].
      intros q H. injection H as <-. rewrite Et.
      split; [intros; lia|]. split; [|split; intros; lia].
      intros _ _. eexists. repeat split.
    + destruct (Z.leb_spec 6 t) as [_|]; [|lia].
      destruct (Z.leb_spec t 12) as [H12|H12]; cbn [andb].
      * split; [simpl; lia|]. split; [discriminate|].
        intros q H. injection H as <-. rewrite Et.
        split; [intros; lia|]. split; [intros; lia|].
        split; [|intros; lia]. intros _. eexists. repeat split.
      * split; [simpl; lia|]. split; [discriminate|].
        intros q H. injection H as <-. rewrite Et.
        repeat split; try reflexivity; intros; lia.
Qed.

(** ** Playbook generator *)

Lemma github_active_spec (github : option GithubActivity) :
  match github with Some g => github_active g | None => false end = true
  <-> activityAbove06 github.
Proof.
  unfold activityAbove06, github_active. destruct github as [g|].
  - destruct (activity_score g) as [a|] eqn:Ea.
    + rewrite Qltb_lt. split.
      * intro H. exists g, a. auto.
      * intros (g' & a' & Hg & Ha & H). injection Hg as <-.
        rewrite Ea in Ha. injection Ha as <-. exact H.
    + split; [discriminate|].
      intros (g' & a' & Hg & Ha & _). injection Hg as <-.
      rewrite Ea in Ha. discriminate.
  - split; [discriminate|]. intros (g & a & H & _). discriminate.
Qed.

(** C5.  The channel recommendation starts from linkedin_dm 0.5, email 0.7,
    phone 0.3; a post count of at least 5 sets linkedin_dm to 0.95 (and email
    to 0.6), email is then set to 0.8 in every case, and a GitHub activity
    score above 0.6 sets phone to 0.2 and email to 0.9.  So the final email
    is 0.9 when GitHub activity is above 0.6 and 0.8 otherwise, whatever the
    post count. *)
Theorem recommended_channels_values (profile : option Profile)
    (posts : option (list Post)) (github : option GithubActivity) :
  let c := PlaybookGenerator.recommendChannels profile posts github in
  (atLeastFivePosts posts -> Playbook.linkedin_dm c = 0.95)
  /\ (~ atLeastFivePosts posts -> Playbook.linkedin_dm c = 0.5)
  /\ (activityAbove06 github ->
      Playbook.email c = 0.9 /\ Playbook.phone c = 0.2)
  /\ (~ activityAbove06 github ->
      Playbook.email c = 0.8 /\ Playbook.phone c = 0.3).
Proof.
  intro c. unfold c, PlaybookGenerator.recommendChannels.
  pose proof (github_active_spec github) as Hg.
  assert (Hp : match posts with
               | Some l => (5 <=? List.length l)%nat
               | None => false
               end = true <-> atLeastFivePosts posts).
  { unfold atLeastFivePosts. destruct posts as [l|].
    - rewrite Nat.leb_le. split.
      + intro H. exists l. auto.
      + intros (l' & Hl & H). injection Hl as <-. exact H.
    - split; [discriminate|]. intros (l & H & _). discriminate. }
  destruct posts as [l|]; destruct github as [g|];
    try destruct (5 <=? List.length l)%nat;
    try destruct (github_active g);
    cbn; (split; [|split; [|split]]); intro H;
    try (split; reflexivity); try reflexivity;
    try (apply Hp in H; discriminate);
    try (apply Hg in H; discriminate);
    try (exfalso; apply H, Hp; reflexivity);
    try (exfalso; apply H, Hg; reflexivity).
Qed.

Lemma recommended_channels_values_witness :
  Playbook.email
    (PlaybookGenerator.recommendChannels (Some (Sample.profile (Some 4%Z)))
       (Some Sample.viral) None) = 0.8
  /\ Playbook.linkedin_dm
       (PlaybookGenerator.recommendChannels (Some (Sample.profile (Some 4%Z)))
          (Some Sample.viral) None) = 0.95.
Proof.
  destruct (recommended_channels_values (Some (Sample.profile (Some 4%Z)))
              (Some Sample.viral) None) as (Hdm & _ & _ & Hemail).
  split.
  - apply Hemail. intros (g & a & H & _). discriminate.
  - apply Hdm. exists Sample.viral. split; [reflexivity|]. simpl. lia.
Defined.

(** The no-intelligence case of the specification: no posts, no tenure, no
    GitHub activity and no timing-trigger signal leave no wedge. *)
Lemma no_intelligence_no_wedge (now : Z) (profile : option Profile)
    (signals : list Signal) :
  (forall p, profile = Some p -> current_position_tenure_months p = None) ->
  (forall s, In s signals -> signal_category s <> "timing_trigger") ->
  WedgeDetector.detectWedges now
    {| WedgeDetector.getProfile := Ok profile;
       WedgeDetector.getRecentPosts := Ok [];
       WedgeDetector.getSignalsByContact := Ok signals;
       WedgeDetector.getActivity := Ok None |}
  = WedgeDetector.noWedges.
Proof.
  intros Hten Hsig.
  assert (Hall : WedgeDetector.allWedges now profile [] signals None = Ok []).
  { unfold WedgeDetector.allWedges. cbn.
    assert (Hjob : WedgeDetector.detectJobChangeWedges profile signals = []).
    { unfold WedgeDetector.detectJobChangeWedges.
      destruct profile as [p|]; [|reflexivity].
      now rewrite (Hten p eq_refl). }
    assert (Hini : WedgeDetector.detectInitiativeWedges signals = []).
    { unfold WedgeDetector.detectInitiativeWedges. rewrite filter_none.
      - reflexivity.
      - intros s Hs. unfold WedgeDetector.isInitiativeSignal.
        destruct (String.eqb_spec (signal_category s) "timing_trigger") as [E|E].
        + exfalso. exact (Hsig s Hs E).
        + reflexivity. }
    now rewrite Hjob, Hini. }
  rewrite (detectWedges_ok now profile [] signals None [] Hall). reflexivity.
Qed.

Lemma detector_failure_no_wedges (now : Z) (d : WedgeDetector.Reads) :
  detectorReadFailed d ->
  WedgeDetector.detectWedges now d = WedgeDetector.noWedges.
Proof.
  unfold detectorReadFailed, WedgeDetector.detectWedges,
    WedgeDetector.tryDetect, Js.bind.
  destruct (WedgeDetector.getProfile d), (WedgeDetector.getRecentPosts d),
    (WedgeDetector.getSignalsByContact d), (WedgeDetector.getActivity d);
    cbn; intros [H|[H|[H|H]]]; try discriminate; reflexivity.
Qed.

(** Without a primary wedge no call persists a playbook or succeeds. *)
Lemma no_wedge_no_playbook (cfg : Config) (now : Z)
    (db : PlaybookGenerator.Reads) (stored : list Playbook.t) :
  primaryWedge (WedgeDetector.detectWedges now (PlaybookGenerator.detectorReads db))
  = None ->
  success (fst (PlaybookGenerator.generatePlaybook cfg now db stored)) = false
  /\ playbook (fst (PlaybookGenerator.generatePlaybook cfg now db stored)) = None
  /\ snd (PlaybookGenerator.generatePlaybook cfg now db stored) = stored
  /\ (forall contact profile posts github speaking,
        PlaybookGenerator.getContactById db = Ok (Some contact) ->
        PlaybookGenerator.getProfile db = Ok profile ->
        PlaybookGenerator.getRecentPosts db = Ok posts ->
        PlaybookGenerator.getActivity db = Ok github ->
        PlaybookGenerator.getEngagements db = Ok speaking ->
        PlaybookGenerator.tryGenerate cfg now db stored
        = Ok (PlaybookGenerator.insufficient, stored)).
Proof.
  intro Hnone.
  unfold PlaybookGenerator.generatePlaybook, PlaybookGenerator.tryGenerate,
    Js.bind.
  rewrite Hnone.
  destruct (PlaybookGenerator.getContactById db) as [[c|]|m1];
    destruct (PlaybookGenerator.getProfile db) as [pr|m2];
    destruct (PlaybookGenerator.getRecentPosts db) as [po|m3];
    destruct (PlaybookGenerator.getActivity db) as [gh|m4];
    destruct (PlaybookGenerator.getEngagements db) as [sp|m5];
    cbn; repeat split; intros; try discriminate; reflexivity.
Qed.

(** C6.  When the wedge detection result has no primary wedge,
    generatePlaybook answers with a failure (success false, no playbook) and
    persists nothing; when moreover the contact exists and the direct reads
    resolve, the try block returns (it does not throw) the failure whose
    error is the insufficient-intelligence message. *)
Theorem no_wedge_is_insufficient_intelligence (cfg : Config) (now : Z)
    (db : PlaybookGenerator.Reads) (stored : list Playbook.t) :
  primaryWedge (WedgeDetector.detectWedges now (PlaybookGenerator.detectorReads db))
  = None ->
  let r := PlaybookGenerator.generatePlaybook cfg now db stored in
  success (fst r) = false
  /\ playbook (fst r) = None
  /\ snd r = stored
  /\ (forall contact profile posts github speaking,
        PlaybookGenerator.getContactById db = Ok (Some contact) ->
        PlaybookGenerator.getProfile db = Ok profile ->
        PlaybookGenerator.getRecentPosts db = Ok posts ->
        PlaybookGenerator.getActivity db = Ok github ->
        PlaybookGenerator.getEngagements db = Ok speaking ->
        PlaybookGenerator.tryGenerate cfg now db stored
        = Ok (PlaybookGenerator.insufficient, stored)
        /\ error (fst r)
           = Some "Insufficient intelligence to generate playbook").
Proof.
  intros Hnone r.
  destruct (no_wedge_no_playbook cfg now db stored Hnone)
    as (Hs & Hp & Hst & Hret).
  repeat split; try assumption.
  - eapply Hret; eassumption.
  - unfold r, PlaybookGenerator.generatePlaybook.
    erewrite Hret by eassumption. reflexivity.
Qed.

Lemma no_wedge_is_insufficient_intelligence_witness :
  PlaybookGenerator.generatePlaybook default_config Sample.now Sample.bare []
  = (PlaybookGenerator.insufficient, [])
  /\ error (fst (PlaybookGenerator.generatePlaybook default_config Sample.now
                   Sample.bare []))
     = Some "Insufficient intelligence to generate playbook".
Proof.
  destruct (no_wedge_is_insufficient_intelligence default_config Sample.now
              Sample.bare [] eq_refl) as (_ & _ & _ & H).
  destruct (H Sample.contact None [] None [] eq_refl eq_refl eq_refl eq_refl
              eq_refl) as [Htry Herr].
  split; [|exact Herr].
  unfold PlaybookGenerator.generatePlaybook. rewrite Htry. reflexivity.
Defined.

(** C7, as stated, fails: when the read inside the scorer is rejected and
    the other reads resolve, the call succeeds and persists a playbook built
    on an empty list of signals. *)
Lemma read_failure_propagates_counterexample :
  someReadFailed Sample.flaky
  /\ success (fst (PlaybookGenerator.generatePlaybook default_config Sample.now
                     Sample.flaky [])) = true
  /\ List.length (snd (PlaybookGenerator.generatePlaybook default_config
                         Sample.now Sample.flaky [])) = 1%nat
  /\ option_map (fun pb => Playbook.topSignals (Playbook.full_strategy_json pb))
       (playbook (fst (PlaybookGenerator.generatePlaybook default_config
                         Sample.now Sample.flaky [])))
     = Some [].
Proof.
  split; [right; left; reflexivity|].
  vm_compute. repeat split.
Qed.

(** C7, amended.  A rejected direct read of generatePlaybook (contact,
    profile, posts, GitHub activity, speaking engagements) gives the failure
    result whose error is the message of a rejected read, and persists
    nothing.  A rejected insert never persists, and where the call would
    have succeeded it gives the failure result whose error is the message of
    the insert.  A rejected read inside the scorer is caught there: the call
    behaves as if the contact had no signals.  A rejected read inside the
    wedge detector is caught there and leaves no wedge: the call fails and
    persists nothing, with the insufficient-intelligence error when the
    contact exists and the direct reads resolve. *)
Theorem read_failures_in_generatePlaybook (cfg : Config) (now : Z)
    (db : PlaybookGenerator.Reads) (stored : list Playbook.t) :
  let r := PlaybookGenerator.generatePlaybook cfg now db stored in
  (directReadFailed db ->
     exists message,
       directReadError db message
       /\ isFailure (fst r) message /\ snd r = stored)
  /\ (forall message, PlaybookGenerator.savePlaybook db = Err message ->
        success (fst r) = false /\ playbook (fst r) = None /\ snd r = stored
        /\ (success (fst (PlaybookGenerator.generatePlaybook cfg now
                            (withSavePlaybook db (Ok tt)) stored)) = true ->
            isFailure (fst r) message))
  /\ (forall message, PlaybookGenerator.scorerReads db = Err message ->
        r = PlaybookGenerator.generatePlaybook cfg now
              (withScorerReads db (Ok [])) stored)
  /\ (detectorReadFailed (PlaybookGenerator.detectorReads db) ->
        WedgeDetector.detectWedges now (PlaybookGenerator.detectorReads db)
        = WedgeDetector.noWedges
        /\ success (fst r) = false /\ playbook (fst r) = None /\ snd r = stored
        /\ (forall contact,
              PlaybookGenerator.getContactById db = Ok (Some contact) ->
              ~ directReadFailed db ->
              r = (PlaybookGenerator.insufficient, stored))).
Proof.
  intro r. split; [|split; [|split]].
  - unfold r, directReadFailed, directReadError, isFailure,
      PlaybookGenerator.generatePlaybook, PlaybookGenerator.tryGenerate,
      Js.bind.
    destruct (PlaybookGenerator.getContactById db) as [c|m1];
      [|intros _; exists m1; repeat split; left; reflexivity].
    destruct (PlaybookGenerator.getProfile db) as [pr|m2];
      [|intros _; exists m2; repeat split; right; left; reflexivity].
    destruct (PlaybookGenerator.getRecentPosts db) as [po|m3];
      [|intros _; exists m3; repeat split; right; right; left; reflexivity].
    destruct (PlaybookGenerator.getActivity db) as [gh|m4];
      [|intros _; exists m4; repeat split; do 3 right; left; reflexivity].
    destruct (PlaybookGenerator.getEngagements db) as [sp|m5];
      [|intros _; exists m5; repeat split; do 4 right; reflexivity].
    cbn. intros [H|[H|[H|[H|H]]]]; discriminate.
  - intros message Hsave.
    unfold r, isFailure, PlaybookGenerator.generatePlaybook,
      PlaybookGenerator.tryGenerate, withSavePlaybook, Js.bind.
    cbn [PlaybookGenerator.getContactById PlaybookGenerator.getProfile
         PlaybookGenerator.getRecentPosts PlaybookGenerator.getActivity
         PlaybookGenerator.getEngagements PlaybookGenerator.scorerReads
         PlaybookGenerator.detectorReads PlaybookGenerator.savePlaybook].
    rewrite Hsave.
    destruct (PlaybookGenerator.getContactById db) as [[c|]|m1];
      destruct (PlaybookGenerator.getProfile db) as [pr|m2];
      destruct (PlaybookGenerator.getRecentPosts db) as [po|m3];
      destruct (PlaybookGenerator.getActivity db) as [gh|m4];
      destruct (PlaybookGenerator.getEngagements db) as [sp|m5];
      try (cbn; repeat split; try reflexivity; discriminate).
    destruct (primaryWedge _) as [w|];
      [|cbn; repeat split; try reflexivity; discriminate].
    destruct (PlaybookGenerator.buildPlaybook _ _ _ _ _ _ _ _) as [pb|m];
      cbn; repeat split; try reflexivity; discriminate.
  - intros message Hscorer.
    unfold r, PlaybookGenerator.generatePlaybook,
      PlaybookGenerator.tryGenerate, withScorerReads.
    cbn [PlaybookGenerator.getContactById PlaybookGenerator.getProfile
         PlaybookGenerator.getRecentPosts PlaybookGenerator.getActivity
         PlaybookGenerator.getEngagements PlaybookGenerator.scorerReads
         PlaybookGenerator.detectorReads PlaybookGenerator.savePlaybook].
    rewrite Hscorer. reflexivity.
  - intro Hdet.
    pose proof (detector_failure_no_wedges now _ Hdet) as Hno.
    assert (Hnone : primaryWedge
              (WedgeDetector.detectWedges now (PlaybookGenerator.detectorReads db))
              = None) by (rewrite Hno; reflexivity).
    destruct (no_wedge_no_playbook cfg now db stored Hnone)
      as (Hs & Hp & Hst & Hret).
    repeat split; try assumption.
    intros contact Hc Hdirect.
    unfold r, PlaybookGenerator.generatePlaybook.
    unfold directReadFailed in Hdirect. rewrite Hc in Hdirect.
    destruct (PlaybookGenerator.getProfile db) as [pr|m2] eqn:E2;
      [|exfalso; apply Hdirect; cbn; tauto].
    destruct (PlaybookGenerator.getRecentPosts db) as [po|m3] eqn:E3;
      [|exfalso; apply Hdirect; cbn; tauto].
    destruct (PlaybookGenerator.getActivity db) as [gh|m4] eqn:E4;
      [|exfalso; apply Hdirect; cbn; tauto].
    destruct (PlaybookGenerator.getEngagements db) as [sp|m5] eqn:E5;
      [|exfalso; apply Hdirect; cbn; tauto].
    rewrite (Hret contact pr po gh sp Hc eq_refl eq_refl eq_refl eq_refl).
    reflexivity.
Qed.

Lemma read_failures_in_generatePlaybook_witness :
  PlaybookGenerator.generatePlaybook default_config Sample.now Sample.down []
  = ({| success := false; playbook := None;
        error := Some "connect ECONNREFUSED" |}, [])
  /\ PlaybookGenerator.generatePlaybook default_config Sample.now
       (withSavePlaybook Sample.flaky (Err "duplicate key value")) []
     = ({| success := false; playbook := None;
           error := Some "duplicate key value" |}, [])
  /\ PlaybookGenerator.generatePlaybook default_config Sample.now Sample.flaky []
     = PlaybookGenerator.generatePlaybook default_config Sample.now
         (withScorerReads Sample.flaky (Ok [])) []
  /\ PlaybookGenerator.generatePlaybook default_config Sample.now Sample.blind []
     = (PlaybookGenerator.insufficient, []).
Proof.
  destruct (read_failures_in_generatePlaybook default_config Sample.now
              Sample.down []) as (Hdirect & _ & _ & _).
  destruct (read_failures_in_generatePlaybook default_config Sample.now
              (withSavePlaybook Sample.flaky (Err "duplicate key value")) [])
    as (_ & Hsave & _ & _).
  destruct (read_failures_in_generatePlaybook default_config Sample.now
              Sample.flaky []) as (_ & _ & Hscorer & _).
  destruct (read_failures_in_generatePlaybook default_config Sample.now
              Sample.blind []) as (_ & _ & _ & Hdetector).
  split; [|split; [|split]].
  - destruct Hdirect as (m & Hm & (Hs & Hp & He) & Hst);
      [left; reflexivity|].
    assert (Em : m = "connect ECONNREFUSED").
    { destruct Hm as [H|[H|[H|[H|H]]]]; injection H as <-; reflexivity. }
    subst m.
    destruct (PlaybookGenerator.generatePlaybook default_config Sample.now
                Sample.down []) as [[s p e] st].
    cbn in Hs, Hp, He, Hst. now subst.
  - destruct (Hsave "duplicate key value" eq_refl) as (Hs & Hp & Hst & He).
    destruct (He eq_refl) as (_ & _ & He').
    destruct (PlaybookGenerator.generatePlaybook default_config Sample.now
                (withSavePlaybook Sample.flaky (Err "duplicate key value")) [])
      as [[s p e] st].
    cbn in Hs, Hp, He', Hst. now subst.
  - apply (Hscorer "Connection terminated unexpectedly"). reflexivity.
  - destruct Hdetector as (_ & _ & _ & _ & H).
    + right; left; reflexivity.
    + apply (H Sample.contact); [reflexivity|].
      intros [F|[F|[F|[F|F]]]]; discriminate.
Defined.

(** * Further properties of the code *)

(** ** Signal scorer *)

Lemma boost_composite (cfg : Config) (s : Signal) :
  composite_score (SignalScorer.boost cfg s)
  = SignalScorer.calculateCompositeScore
      (relevance_score (scored (SignalScorer.boost cfg s)))
      (urgency_score s) (wedge_potential s).
Proof. reflexivity. Qed.

Lemma boost_relevance (cfg : Config) (s : Signal) :
  relevance_score (scored (SignalScorer.boost cfg s))
  = if SignalScorer.isLinkedInSignal (signal_type s)
    then Qmin (relevance_score s + linkedinRelevanceBoost cfg) 1.0
    else relevance_score s.
Proof.
  unfold SignalScorer.boost.
  destruct (SignalScorer.isLinkedInSignal (signal_type s)); reflexivity.
Qed.

(** X1.  When the stored scores of a contact's signals lie in [[0, 1]] and
    the configured boost is not negative, every entry of the scorer's output
    has a relevance in [[0, 1]] that is at least the configured minimum, and
    a composite score in [[0, 1]]. *)
Theorem scorer_output_in_unit_interval (cfg : Config) (signals : list Signal)
    (e : ScoredSignal) :
  0 <= linkedinRelevanceBoost cfg ->
  (forall s, In s signals ->
     unit_score (relevance_score s) /\ unit_score (urgency_score s)
     /\ unit_score (wedge_potential s)) ->
  In e (SignalScorer.scoreAndPrioritizeSignals cfg (Ok signals)) ->
  unit_score (relevance_score (scored e))
  /\ minSignalRelevanceScore cfg <= relevance_score (scored e)
  /\ unit_score (composite_score e).
Proof.
  intros Hboost Hrange Hin.
  apply scoreAndPrioritizeSignals_In in Hin. destruct Hin as [Hmap Hmin].
  apply in_map_iff in Hmap. destruct Hmap as (s & <- & Hs).
  destruct (Hrange s Hs) as ([Hr0 Hr1] & [Hu0 Hu1] & [Hw0 Hw1]).
  assert (Hrel : unit_score
            (relevance_score (scored (SignalScorer.boost cfg s)))).
  { rewrite boost_relevance.
    destruct (SignalScorer.isLinkedInSignal (signal_type s)).
    - split.
      + apply Q.min_glb; lra.
      + apply Qle_trans with 1.0; [apply Q.le_min_r | lra].
    - split; assumption. }
  split; [exact Hrel|]. split; [exact Hmin|].
  rewrite boost_composite. unfold SignalScorer.calculateCompositeScore.
  destruct Hrel as [H0 H1].
  set (r := relevance_score (scored (SignalScorer.boost cfg s))) in *.
  unfold unit_score. split; lra.
Qed.

Lemma scorer_output_in_unit_interval_witness :
  let s := Sample.signal "linkedin_content" "buying_signal" 0.95 0.95 0.95 in
  unit_score (composite_score (SignalScorer.boost default_config s)).
Proof.
  intro s.
  apply (scorer_output_in_unit_interval default_config [s]
           (SignalScorer.boost default_config s)).
  - discriminate.
  - intros s' [<-|[]]. unfold unit_score. cbn. repeat split; discriminate.
  - left. reflexivity.
Defined.

(** X2.  Under the default configuration a LinkedIn-origin signal reaches
    the scorer's output exactly when its stored relevance is at least 0.2,
    and any other signal exactly when it is at least 0.5. *)
Theorem scorer_threshold_by_origin (signals : list Signal) (s : Signal) :
  In s signals ->
  let e := SignalScorer.boost default_config s in
  let out := SignalScorer.scoreAndPrioritizeSignals default_config (Ok signals) in
  (linkedin_origin (signal_type s) ->
     (In e out <-> 0.2 <= relevance_score s))
  /\ (~ linkedin_origin (signal_type s) ->
      (In e out <-> 0.5 <= relevance_score s)).
Proof.
  intros Hs e out.
  assert (Hin : In e out <-> 0.5 <= relevance_score (scored e)).
  { unfold out. rewrite scoreAndPrioritizeSignals_In. split.
    - intros [_ H]. exact H.
    - intro H. split; [apply in_map, Hs | exact H]. }
  unfold e in *. clear e. rewrite boost_relevance in Hin.
  split; intro H.
  - apply isLinkedInSignal_spec in H. rewrite H in Hin. rewrite Hin.
    cbn [linkedinRelevanceBoost default_config].
    rewrite Q.min_glb_iff. split.
    + intros [H1 _]. lra.
    + intro H1. split; lra.
  - destruct (SignalScorer.isLinkedInSignal (signal_type s)) eqn:E.
    + apply isLinkedInSignal_spec in E. contradiction.
    + exact Hin.
Qed.

Lemma scorer_threshold_by_origin_witness :
  let s := Sample.signal "linkedin_activity" "thought_leadership" 0.2 0.5 0.5 in
  In (SignalScorer.boost default_config s)
     (SignalScorer.scoreAndPrioritizeSignals default_config (Ok [s])).
Proof.
  intro s.
  destruct (scorer_threshold_by_origin [s] s (or_introl eq_refl)) as [H _].
  apply H.
  - left. reflexivity.
  - discriminate.
Defined.

Lemma sum_counts_increment (key : string) (counts : list (string * nat)) :
  sum_counts (SignalScorer.increment key counts) = S (sum_counts counts).
Proof.
  induction counts as [|[k n] rest IH]; simpl; [reflexivity|].
  destruct (String.eqb k key); simpl; [reflexivity|].
  rewrite IH. lia.
Qed.

Lemma countSignal_fold (signals : list Signal) (d : SignalScorer.Distribution) :
  let d' := fold_left SignalScorer.countSignal signals d in
  SignalScorer.total d' = SignalScorer.total d
  /\ (SignalScorer.highPriority d' + SignalScorer.mediumPriority d'
      + SignalScorer.lowPriority d'
      = SignalScorer.highPriority d + SignalScorer.mediumPriority d
        + SignalScorer.lowPriority d + List.length signals)%nat
  /\ (SignalScorer.linkedinCount d'
      = SignalScorer.linkedinCount d
        + List.length
            (filter (fun s => SignalScorer.isLinkedInSignal (signal_type s))
                    signals))%nat
  /\ (sum_counts (SignalScorer.byType d')
      = sum_counts (SignalScorer.byType d) + List.length signals)%nat
  /\ (sum_counts (SignalScorer.byCategory d')
      = sum_counts (SignalScorer.byCategory d) + List.length signals)%nat.
Proof.
  revert d. induction signals as [|s l IH]; intro d; cbn [fold_left].
  - cbn. repeat split; lia.
  - destruct (IH (SignalScorer.countSignal d s)) as (Ht & Hp & Hl & Hty & Hc).
    cbv zeta. rewrite Ht, Hp, Hl, Hty, Hc.
    cbn [SignalScorer.countSignal SignalScorer.total SignalScorer.highPriority
         SignalScorer.mediumPriority SignalScorer.lowPriority
         SignalScorer.linkedinCount SignalScorer.byType SignalScorer.byCategory
         filter List.length].
    rewrite !sum_counts_increment.
    split; [reflexivity|].
    split.
    { destruct (Qltb 0.8 _); [lia|]. destruct (Qle_bool 0.6 _); lia. }
    split.
    { destruct (SignalScorer.isLinkedInSignal (signal_type s)); simpl; lia. }
    split; lia.
Qed.

(** X3.  analyzeSignalDistribution counts every fetched signal once in each
    breakdown: the three priority classes add up to the total, and so do the
    counters by type and by category; the LinkedIn count is the number of
    LinkedIn-origin signals.  A rejected read rejects the call. *)
Theorem distribution_counts_every_signal_once (signals : list Signal) :
  (exists d,
      SignalScorer.analyzeSignalDistribution (Ok signals) = Ok d
      /\ SignalScorer.total d = List.length signals
      /\ (SignalScorer.highPriority d + SignalScorer.mediumPriority d
          + SignalScorer.lowPriority d)%nat = SignalScorer.total d
      /\ sum_counts (SignalScorer.byType d) = SignalScorer.total d
      /\ sum_counts (SignalScorer.byCategory d) = SignalScorer.total d
      /\ SignalScorer.linkedinCount d
         = List.length
             (filter (fun s => SignalScorer.isLinkedInSignal (signal_type s))
                     signals)
      /\ (SignalScorer.linkedinCount d <= SignalScorer.total d)%nat)
  /\ (forall message,
        SignalScorer.analyzeSignalDistribution (Err message) = Err message).
Proof.
  split; [|reflexivity].
  eexists. split; [reflexivity|].
  match goal with
  | |- context [fold_left SignalScorer.countSignal signals ?d0] =>
      destruct (countSignal_fold signals d0) as (Ht & Hp & Hl & Hty & Hc)
  end.
  cbv zeta in *. rewrite Ht, Hp, Hl, Hty, Hc. cbn.
  repeat split; try lia.
  apply filter_length_le.
Qed.

Lemma sorted_app_le {A} (R : A -> A -> Prop) (l1 l2 : list A) :
  StronglySorted R (l1 ++ l2) ->
  forall x y, In x l1 -> In y l2 -> R x y.
Proof.
  induction l1 as [|a l1 IH]; simpl; intros Hs x y Hx Hy; [destruct Hx|].
  inversion Hs as [|? ? Hs' Hall]; subst.
  destruct Hx as [<-|Hx].
  - rewrite Forall_forall in Hall. apply Hall. apply in_or_app. now right.
  - now apply IH.
Qed.

(** X4.  getTopSignals with count n returns the n best entries of the
    scorer's output (all of them when there are fewer): the output is the
    returned list followed by the omitted entries, and no omitted entry has a
    higher composite score than a returned one. *)
Theorem top_signals_are_the_best (cfg : Config) (signals : list Signal)
    (n : nat) :
  let out := SignalScorer.scoreAndPrioritizeSignals cfg (Ok signals) in
  let top := SignalScorer.getTopSignals cfg (Ok signals) (Z.of_nat n) in
  List.length top = Nat.min n (List.length out)
  /\ out = (top ++ skipn n out)%list
  /\ (forall e e', In e top -> In e' (skipn n out) ->
        composite_score e' <= composite_score e).
Proof.
  intros out top. unfold top, SignalScorer.getTopSignals.
  rewrite slice_prefix. fold out.
  split; [apply length_firstn|].
  split; [symmetry; apply firstn_skipn|].
  intros e e' He He'.
  assert (Hs : StronglySorted (desc composite_score)
                 (firstn n out ++ skipn n out)).
  { rewrite firstn_skipn. unfold out.
    rewrite scoreAndPrioritizeSignals_unfold.
    apply (sort_sorted composite_score). }
  exact (sorted_app_le _ _ _ Hs e e' He He').
Qed.

Lemma top_signals_are_the_best_witness :
  let strong := Sample.signal "github_activity" "technical" 0.9 0.9 0.9 in
  let weak := Sample.signal "company_hiring" "timing_trigger" 0.6 0.5 0.5 in
  SignalScorer.getTopSignals default_config (Ok [weak; strong]) 1
  = [SignalScorer.boost default_config strong]
  /\ composite_score (SignalScorer.boost default_config weak)
     <= composite_score (SignalScorer.boost default_config strong).
Proof.
  intros strong weak. split; [reflexivity|].
  destruct (top_signals_are_the_best default_config [weak; strong] 1)
    as (_ & _ & H).
  apply H; left; reflexivity.
Defined.

(** ** Wedge detector *)

Lemma sorted_head_max {A} (key : A -> Q) (l : list A) (p x : A) :
  StronglySorted (desc key) l -> hd_error l = Some p -> In x l ->
  key x <= key p.
Proof.
  intros Hs Hp Hx. destruct l as [|a l]; [discriminate|].
  injection Hp as ->. destruct Hx as [<-|Hx]; [apply Qle_refl|].
  inversion Hs as [|? ? _ Hall]; subst.
  rewrite Forall_forall in Hall. apply Hall, Hx.
Qed.

Lemma primary_is_maximal (now : Z) (profile : option Profile)
    (posts : list Post) (signals : list Signal)
    (github : option GithubActivity) (all : list Wedge.t) (p w : Wedge.t) :
  WedgeDetector.allWedges now profile posts signals github = Ok all ->
  primaryWedge (WedgeDetector.detectWedges now
                  {| WedgeDetector.getProfile := Ok profile;
                     WedgeDetector.getRecentPosts := Ok posts;
                     WedgeDetector.getSignalsByContact := Ok signals;
                     WedgeDetector.getActivity := Ok github |}) = Some p ->
  In w all ->
  In p all /\ Wedge.score w <= Wedge.score p.
Proof.
  intro Hall. rewrite (detectWedges_ok now profile posts signals github all Hall).
  cbn [primaryWedge]. unfold Js.first. intros Hp Hw.
  split.
  - apply (sort_In WedgeDetector.by_score_desc all p).
    destruct (Js.sort _ all); [discriminate|].
    injection Hp as ->. now left.
  - apply (sorted_head_max Wedge.score
             (Js.sort WedgeDetector.by_score_desc all)).
    + apply (sort_sorted Wedge.score).
    + exact Hp.
    + apply sort_In, Hw.
Qed.

(** X5.  When its four reads resolve and every fetched post flagged for
    pain points or buying signals has a content, detectWedges returns the
    wedges of the six rules rearranged in descending order of score, their
    number as wedgeCount, and the first of them as primaryWedge: no wedge
    scores higher than the primary one, and the primary wedge is null
    exactly when no rule emitted a wedge.  When a flagged post has no
    content, a rule throws and detectWedges returns the empty result,
    whatever the other rules would emit. *)
Theorem detected_wedges_ranked (now : Z) (profile : option Profile)
    (posts : list Post) (signals : list Signal)
    (github : option GithubActivity) :
  let r := WedgeDetector.detectWedges now
             {| WedgeDetector.getProfile := Ok profile;
                WedgeDetector.getRecentPosts := Ok posts;
                WedgeDetector.getSignalsByContact := Ok signals;
                WedgeDetector.getActivity := Ok github |} in
  (flaggedPostsHaveContent posts ->
   exists pain buying all,
     WedgeDetector.detectPainPointWedges now posts = Ok pain
     /\ WedgeDetector.detectBuyingSignalWedges now posts = Ok buying
     /\ all = (pain ++ buying
               ++ WedgeDetector.detectJobChangeWedges profile signals
               ++ WedgeDetector.detectThoughtLeadershipWedges now posts
               ++ WedgeDetector.detectTechnicalWedges posts github
               ++ WedgeDetector.detectInitiativeWedges signals)%list
     /\ Permutation (wedges r) all
     /\ StronglySorted (desc Wedge.score) (wedges r)
     /\ wedgeCount r = List.length all
     /\ primaryWedge r = hd_error (wedges r)
     /\ (primaryWedge r = None <-> all = [])
     /\ (forall p w, primaryWedge r = Some p -> In w all ->
           Wedge.score w <= Wedge.score p))
  /\ (~ flaggedPostsHaveContent posts -> r = WedgeDetector.noWedges).
Proof.
  intro r. split.
  - intro Hcontent.
    destruct (proj1 (allWedges_returns now profile posts signals github)
                Hcontent) as [all Hall].
    destruct (proj1 (allWedges_ok now profile posts signals github all) Hall)
      as (pain & buying & Hp & Hb & Heq).
    exists pain, buying, all.
    split; [exact Hp|]. split; [exact Hb|]. split; [exact Heq|].
    assert (Hr : r = {| wedges := Js.sort WedgeDetector.by_score_desc all;
                        primaryWedge :=
                          Js.first (Js.sort WedgeDetector.by_score_desc all);
                        wedgeCount :=
                          List.length (Js.sort WedgeDetector.by_score_desc all) |})
      by (apply detectWedges_ok, Hall).
    split; [rewrite Hr; apply sort_perm|].
    split; [rewrite Hr; apply (sort_sorted Wedge.score)|].
    split; [rewrite Hr; apply sort_length|].
    split; [rewrite Hr; reflexivity|].
    split.
    + rewrite Hr. cbn [primaryWedge]. unfold Js.first.
      pose proof (sort_length WedgeDetector.by_score_desc all) as Hlen.
      clear Heq Hall Hr.
      destruct (Js.sort WedgeDetector.by_score_desc all) as [|a l];
        destruct all as [|b l']; simpl in *; split; intro H;
        try reflexivity; try discriminate.
    + intros p w Hprim Hw.
      exact (proj2 (primary_is_maximal now profile posts signals github all
                      p w Hall Hprim Hw)).
  - intro Hnone.
    apply (detectWedges_thrown now profile posts signals github
             (Js.null_property "substring")).
    apply allWedges_returns, Hnone.
Qed.

Lemma detected_wedges_ranked_witness :
  (exists p,
      primaryWedge (WedgeDetector.detectWedges Sample.now Sample.detectorOk)
      = Some p
      /\ Wedge.score (WedgeDetector.recentJobChangeWedge 4) <= Wedge.score p)
  /\ WedgeDetector.detectJobChangeWedges (Some (Sample.profile (Some 4%Z))) []
     = [WedgeDetector.recentJobChangeWedge 4]
  /\ WedgeDetector.detectWedges Sample.now
       {| WedgeDetector.getProfile := Ok (Some (Sample.profile (Some 4%Z)));
          WedgeDetector.getRecentPosts := Ok [Sample.silent true false];
          WedgeDetector.getSignalsByContact := Ok [];
          WedgeDetector.getActivity := Ok None |}
     = WedgeDetector.noWedges.
Proof.
  split; [|split; [reflexivity|]].
  - exists (WedgeDetector.painPointWedge Sample.now Sample.painPost
              "forecasting is broken").
    split; [vm_compute; reflexivity|].
    destruct (proj1 (detected_wedges_ranked Sample.now
                       (Some (Sample.profile (Some 4%Z)))
                       [Sample.painPost] [] None))
      as (pain & buying & all & _ & _ & Hall & _ & _ & _ & _ & _ & H).
    { split; intros q [<-|[]] _; discriminate. }
    apply H; [vm_compute; reflexivity|]. rewrite Hall.
    apply in_or_app. right. apply in_or_app. right. now left.
  - apply (proj2 (detected_wedges_ranked Sample.now
                    (Some (Sample.profile (Some 4%Z)))
                    [Sample.silent true false] [] None)).
    intros [H _]. now apply (H (Sample.silent true false) (or_introl eq_refl)).
Defined.

Lemma painPoint_score_ge (now : Z) (p : Post) (content : string) :
  1.00 <= Wedge.score (WedgeDetector.painPointWedge now p content).
Proof.
  cbn [WedgeDetector.painPointWedge Wedge.score].
  unfold WedgeDetector.recencyBoost.
  destruct (_ <? 7)%Z; [vm_compute; discriminate|].
  destruct (_ <? 14)%Z; vm_compute; discriminate.
Qed.

(** The wedges of the rules other than the pain-point rule score at most
    0.98, and those of the rules other than the two post-flag rules at most
    0.90. *)
Lemma other_rules_score_le (now : Z) (profile : option Profile)
    (posts : list Post) (signals : list Signal)
    (github : option GithubActivity) (all : list Wedge.t) (w : Wedge.t) :
  WedgeDetector.allWedges now profile posts signals github = Ok all ->
  In w all ->
  (Wedge.type w <> "linkedin_pain_point" -> Wedge.score w <= 0.98)
  /\ (Wedge.type w <> "linkedin_pain_point" ->
      Wedge.type w <> "linkedin_buying_signal" -> Wedge.score w <= 0.90).
Proof.
  intros Hall H.
  apply (allWedges_In now profile posts signals github all w Hall) in H.
  destruct H as [H|[H|[H|[H|[H|H]]]]]; wedge_origin H;
    (split; [intro Hp | intros Hp Hb]);
    try (exfalso; apply Hp; reflexivity);
    try (exfalso; apply Hb; reflexivity);
    discriminate.
Qed.

(** X6.  When every fetched post flagged for pain points or buying signals
    has a content, the pain-point rule outranks the others, and the
    buying-signal rule comes next: when a fetched post is flagged for pain
    points the primary wedge is a pain-point wedge, and when none is but a
    post is flagged for buying signals the primary wedge is a buying-signal
    wedge. *)
Theorem primary_wedge_priority (now : Z) (profile : option Profile)
    (posts : list Post) (signals : list Signal)
    (github : option GithubActivity) :
  flaggedPostsHaveContent posts ->
  let r := WedgeDetector.detectWedges now
             {| WedgeDetector.getProfile := Ok profile;
                WedgeDetector.getRecentPosts := Ok posts;
                WedgeDetector.getSignalsByContact := Ok signals;
                WedgeDetector.getActivity := Ok github |} in
  ((exists p, In p posts /\ mentions_pain_points p = true) ->
     exists w, primaryWedge r = Some w
               /\ Wedge.type w = "linkedin_pain_point")
  /\ ((forall p, In p posts -> mentions_pain_points p = false) ->
      (exists p, In p posts /\ mentions_buying_signals p = true) ->
      exists w, primaryWedge r = Some w
                /\ Wedge.type w = "linkedin_buying_signal").
Proof.
  intros Hcontent r.
  destruct (proj1 (allWedges_returns now profile posts signals github)
              Hcontent) as [all Hall].
  pose proof (allWedges_In now profile posts signals github all) as Hin_all.
  assert (Hr : r = {| wedges := Js.sort WedgeDetector.by_score_desc all;
                      primaryWedge :=
                        Js.first (Js.sort WedgeDetector.by_score_desc all);
                      wedgeCount :=
                        List.length (Js.sort WedgeDetector.by_score_desc all) |})
    by (apply detectWedges_ok, Hall).
  assert (Hsome : forall w, In w all -> exists p0, primaryWedge r = Some p0).
  { intros w Hw. destruct (primaryWedge r) as [p0|] eqn:E; [eauto|].
    exfalso.
    assert (Hsorted : In w (Js.sort WedgeDetector.by_score_desc all))
      by (apply sort_In, Hw).
    rewrite Hr in E. cbn [primaryWedge] in E. unfold Js.first in E.
    destruct (Js.sort WedgeDetector.by_score_desc all);
      [destruct Hsorted | discriminate]. }
  destruct Hcontent as [Hpc Hbc].
  split.
  - intros (p & Hp & Hflag).
    destruct (post_content p) as [c|] eqn:Ec; [|now apply (Hpc p) in Ec].
    assert (Hw : In (WedgeDetector.painPointWedge now p c) all).
    { apply (Hin_all _ Hall). left. exists p, c. auto. }
    destruct (Hsome _ Hw) as [p0 Hp0]. exists p0. split; [exact Hp0|].
    destruct (primary_is_maximal now profile posts signals github all p0 _
                Hall Hp0 Hw) as [Hin Hle].
    destruct (String.string_dec (Wedge.type p0) "linkedin_pain_point")
      as [E|E]; [exact E|].
    exfalso.
    pose proof (proj1 (other_rules_score_le _ _ _ _ _ _ _ Hall Hin) E).
    pose proof (painPoint_score_ge now p c). lra.
  - intros Hnone (p & Hp & Hflag).
    destruct (post_content p) as [c|] eqn:Ec; [|now apply (Hbc p) in Ec].
    assert (Hw : In (WedgeDetector.buyingSignalWedge now p c) all).
    { apply (Hin_all _ Hall). right. left. exists p, c. auto. }
    destruct (Hsome _ Hw) as [p0 Hp0]. exists p0. split; [exact Hp0|].
    destruct (primary_is_maximal now profile posts signals github all p0 _
                Hall Hp0 Hw) as [Hin Hle].
    assert (Hnp : Wedge.type p0 <> "linkedin_pain_point").
    { intro E.
      apply (Hin_all _ Hall) in Hin.
      destruct Hin as [H|[H|[H|[H|[H|H]]]]].
      - destruct H as (q & c' & Hq & Hqf & _).
        rewrite (Hnone q Hq) in Hqf. discriminate.
      - wedge_origin H. discriminate E.
      - wedge_origin H; discriminate E.
      - wedge_origin H; discriminate E.
      - wedge_origin H. discriminate E.
      - wedge_origin H. discriminate E. }
    destruct (String.string_dec (Wedge.type p0) "linkedin_buying_signal")
      as [E|E]; [exact E|].
    exfalso.
    pose proof (proj2 (other_rules_score_le _ _ _ _ _ _ _ Hall Hin) Hnp E).
    cbn [WedgeDetector.buyingSignalWedge Wedge.score] in Hle. lra.
Qed.

Lemma primary_wedge_priority_witness :
  exists w,
    primaryWedge (WedgeDetector.detectWedges Sample.now Sample.detectorOk)
    = Some w
    /\ Wedge.type w = "linkedin_pain_point".
Proof.
  assert (Hcontent : flaggedPostsHaveContent [Sample.painPost]).
  { split; intros q [<-|[]] _; discriminate. }
  apply (proj1 (primary_wedge_priority Sample.now
                  (Some (Sample.profile (Some 4%Z))) [Sample.painPost] [] None
                  Hcontent)).
  exists Sample.painPost. split; [left|]; reflexivity.
Defined.

(** X7.  The score of a pain-point wedge by the age of the post in
    milliseconds: 1.0999999999999999 up to (not including) 7 whole days
    (604800000 ms), also for a post dated in the future, 1.05 from 7 days up
    to 14 (1209600000 ms), and 1.00 from 14 days on.  It is never the
    number 1.10. *)
Theorem pain_point_score_by_age (now : Z) (post : Post) (content : string)
    (posted : Z) :
  post_date post = Some posted ->
  let age := (now - posted)%Z in
  let w := WedgeDetector.painPointWedge now post content in
  (Js.same_number (Wedge.score w) 1.0999999999999999
   <-> (age < 604800000)%Z)
  /\ (Js.same_number (Wedge.score w) 1.05
      <-> (604800000 <= age < 1209600000)%Z)
  /\ (Wedge.score w == 1.00 <-> (1209600000 <= age)%Z)
  /\ ~ Js.same_number (Wedge.score w) 1.10.
Proof.
  intros Hdate age w. unfold w.
  cbn [WedgeDetector.painPointWedge Wedge.score].
  unfold WedgeDetector.recencyBoost, WedgeDetector.getDaysSince,
    WedgeDetector.ms_per_day.
  rewrite Hdate. cbn [or_zero]. fold age.
  change (1000 * 60 * 60 * 24)%Z with 86400000%Z.
  assert (Hm : (0 < 86400000)%Z) by reflexivity.
  assert (H7 : (age / 86400000 < 7 <-> age < 604800000)%Z).
  { split; intro H.
    - apply Z.nle_gt. intro Hc. apply (Z.div_le_lower_bound _ _ 7 Hm) in Hc;
        lia.
    - apply Z.div_lt_upper_bound; lia. }
  assert (H14 : (age / 86400000 < 14 <-> age < 1209600000)%Z).
  { split; intro H.
    - apply Z.nle_gt. intro Hc. apply (Z.div_le_lower_bound _ _ 14 Hm) in Hc;
        lia.
    - apply Z.div_lt_upper_bound; lia. }
  destruct pain_point_sum_table
    as ((A1 & A2 & A3 & A4) & (B1 & B2 & B3 & B4) & (C1 & C2 & C3 & C4)).
  destruct (Z.ltb_spec (age / 86400000) 7) as [L7|G7].
  - apply H7 in L7.
    split; [split; [intros _; exact L7 | intros _; exact A1]|].
    split; [split; [intro Hx; exfalso; exact (A2 Hx) | intro Hx; exfalso; lia]|].
    split; [split; [intro Hx; exfalso; exact (A3 Hx) | intro Hx; exfalso; lia]|].
    exact A4.
  - assert (N7 : ~ (age < 604800000)%Z) by (rewrite <- H7; lia).
    destruct (Z.ltb_spec (age / 86400000) 14) as [L14|G14].
    + apply H14 in L14.
      split; [split; [intro Hx; exfalso; exact (B1 Hx)
                     | intro Hx; exfalso; lia]|].
      split; [split; [intros _; lia | intros _; exact B2]|].
      split; [split; [intro Hx; exfalso; exact (B3 Hx)
                     | intro Hx; exfalso; lia]|].
      exact B4.
    + assert (N14 : ~ (age < 1209600000)%Z) by (rewrite <- H14; lia).
      split; [split; [intro Hx; exfalso; exact (C1 Hx)
                     | intro Hx; exfalso; lia]|].
      split; [split; [intro Hx; exfalso; exact (C2 Hx)
                     | intro Hx; exfalso; lia]|].
      split; [split; [intros _; lia | intros _; exact C3]|].
      exact C4.
Qed.

Lemma pain_point_score_by_age_witness :
  Js.same_number
    (Wedge.score
       (WedgeDetector.painPointWedge 1728000005000
          (Sample.post "w" 7 3 true false "broken again") "broken again"))
    1.05
  /\ post_date (Sample.post "w" 7 3 true false "broken again")
     = Some (1728000005000 - 604800000)%Z.
Proof.
  split; [|reflexivity].
  apply (proj1 (proj2 (pain_point_score_by_age 1728000005000
                         (Sample.post "w" 7 3 true false "broken again")
                         "broken again"
                         (1728000005000 - 604800000)%Z eq_refl))).
  split; [discriminate | reflexivity].
Defined.

Lemma first_count_plain (t : string) :
  plainTopic t -> WedgeDetector.first_count t = WedgeDetector.Number 1.
Proof.
  intros [_ H]. unfold WedgeDetector.first_count.
  destruct (existsb (String.eqb t) WedgeDetector.inherited_methods) eqn:E;
    [|reflexivity].
  apply existsb_exists in E. destruct E as (x & Hx & E).
  apply String.eqb_eq in E. subst x. contradiction.
Qed.

Lemma count_topic_plain (t : string)
    (counts : list (string * WedgeDetector.tally)) :
  plainTopic t ->
  WedgeDetector.count_topic t counts = WedgeDetector.assign_count t counts.
Proof.
  intros [H _]. unfold WedgeDetector.count_topic.
  destruct (String.eqb_spec t "__proto__"); [contradiction | reflexivity].
Qed.

Lemma assign_count_keys (t : string)
    (counts : list (string * WedgeDetector.tally)) :
  (In t (map fst counts) ->
     map fst (WedgeDetector.assign_count t counts) = map fst counts)
  /\ (~ In t (map fst counts) ->
      map fst (WedgeDetector.assign_count t counts)
      = (map fst counts ++ [t])%list).
Proof.
  induction counts as [|[k n] rest [IH1 IH2]]; simpl.
  - split; [intros [] | reflexivity].
  - destruct (String.eqb_spec k t) as [->|Hkt]; simpl.
    + split; [reflexivity | intro H; exfalso; apply H; now left].
    + split; intro H.
      * f_equal. apply IH1. destruct H as [H|H]; [contradiction | exact H].
      * f_equal. apply IH2. intro Hc. apply H. now right.
Qed.

Lemma assign_count_entries (t : string)
    (counts : list (string * WedgeDetector.tally)) (k : string)
    (v : WedgeDetector.tally) :
  NoDup (map fst counts) ->
  In (k, v) (WedgeDetector.assign_count t counts) ->
  (k <> t /\ In (k, v) counts)
  \/ (k = t /\ exists u, In (t, u) counts /\ v = WedgeDetector.plus_one u)
  \/ (k = t /\ ~ In t (map fst counts) /\ v = WedgeDetector.first_count t).
Proof.
  induction counts as [|[k' n'] rest IH]; simpl; intro Hnd.
  - intros [H|[]]. injection H as <- <-. right; right. intuition.
  - inversion Hnd as [|? ? Hnotin Hnd']; subst.
    destruct (String.eqb_spec k' t) as [->|Hkt]; simpl.
    + intros [H|H].
      * injection H as <- <-. right; left. split; [reflexivity|].
        exists n'. split; [now left | reflexivity].
      * left. split; [|now right].
        intros ->. apply Hnotin. apply in_map_iff. exists (t, v). now split.
    + intros [H|H].
      * injection H as <- <-. left. split; [congruence | now left].
      * destruct (IH Hnd' H) as [[Hne Hin]|[[-> (m & Hm & ->)]|[-> [Hnot ->]]]].
        -- left. split; [exact Hne | now right].
        -- right; left. split; [reflexivity|]. exists m.
           split; [now right | reflexivity].
        -- right; right. split; [reflexivity|]. split; [|reflexivity].
           intros [Hc|Hc]; [congruence | contradiction].
Qed.

Lemma tallied_step (seen : list string)
    (counts : list (string * WedgeDetector.tally)) (t : string) :
  plainTopic t ->
  tallied seen counts ->
  tallied (seen ++ [t]) (WedgeDetector.count_topic t counts).
Proof.
  intros Hplain (Hnd & Hkeys & Hent).
  rewrite (count_topic_plain t counts Hplain).
  destruct (assign_count_keys t counts) as [Hin Hout].
  destruct (in_dec String.string_dec t (map fst counts)) as [Ht|Ht].
  - split; [|split].
    + rewrite (Hin Ht). exact Hnd.
    + intro k. rewrite (Hin Ht), in_app_iff, Hkeys. split; [tauto|].
      intros [H|[<-|[]]]; [exact H | now apply Hkeys].
    + intros k n Hk. rewrite count_occ_app. cbn [count_occ].
      destruct (assign_count_entries t counts k n Hnd Hk)
        as [[Hne Hc]|[[-> (m & Hm & ->)]|[-> [Hnot _]]]].
      * rewrite (Hent k n Hc).
        destruct (String.string_dec t k); [congruence|].
        f_equal. lia.
      * rewrite (Hent t m Hm). cbn [WedgeDetector.plus_one].
        destruct (String.string_dec t t); [|congruence].
        f_equal. lia.
      * contradiction.
  - split; [|split].
    + rewrite (Hout Ht).
      apply NoDup_app; [exact Hnd | repeat constructor; intros [] |].
      intros x Hx [<-|[]]. contradiction.
    + intro k. rewrite (Hout Ht), !in_app_iff, Hkeys. reflexivity.
    + intros k n Hk. rewrite count_occ_app. cbn [count_occ].
      destruct (assign_count_entries t counts k n Hnd Hk)
        as [[Hne Hc]|[[-> (m & Hm & ->)]|[-> [_ ->]]]].
      * rewrite (Hent k n Hc).
        destruct (String.string_dec t k); [congruence|].
        f_equal. lia.
      * exfalso. apply Ht. apply in_map_iff. exists (t, m). now split.
      * assert (H0 : count_occ String.string_dec seen t = 0%nat).
        { apply count_occ_not_In. intro Hc. apply Ht, Hkeys, Hc. }
        rewrite H0, (first_count_plain t Hplain).
        destruct (String.string_dec t t); [reflexivity | congruence].
Qed.

Lemma tallied_fold (topics seen : list string)
    (counts : list (string * WedgeDetector.tally)) :
  (forall t, In t topics -> plainTopic t) ->
  tallied seen counts ->
  tallied (seen ++ topics)
    (fold_left (fun c topic => WedgeDetector.count_topic topic c) topics counts).
Proof.
  revert seen counts. induction topics as [|t l IH]; intros seen counts Hp H.
  - rewrite app_nil_r. exact H.
  - cbn [fold_left].
    replace (seen ++ t :: l)%list with ((seen ++ [t]) ++ l)%list
      by (rewrite <- app_assoc; reflexivity).
    apply IH; [intros u Hu; apply Hp; now right|].
    apply tallied_step; [apply Hp; now left | exact H].
Qed.

Lemma tallied_posts (posts : list Post) (seen : list string)
    (counts : list (string * WedgeDetector.tally)) :
  (forall t, In t (allTopics posts) -> plainTopic t) ->
  tallied seen counts ->
  tallied (seen ++ allTopics posts)
    (fold_left
       (fun counts post =>
          fold_left (fun c topic => WedgeDetector.count_topic topic c)
                    (topics_detected post) counts)
       posts counts).
Proof.
  revert seen counts. induction posts as [|p l IH]; intros seen counts Hp H.
  - unfold allTopics. simpl. rewrite app_nil_r. exact H.
  - cbn [fold_left]. unfold allTopics in *. cbn [map List.concat] in *.
    rewrite app_assoc. apply IH.
    + intros t Ht. apply Hp. apply in_or_app. now right.
    + apply tallied_fold; [|exact H].
      intros t Ht. apply Hp. apply in_or_app. now left.
Qed.

Lemma NoDup_firstn {A} (n : nat) (l : list A) : NoDup l -> NoDup (firstn n l).
Proof.
  intro H. rewrite <- (firstn_skipn n l) in H.
  exact (NoDup_app_remove_r _ _ H).
Qed.

Lemma filter_partition_perm {A} (f : A -> bool) (l : list A) :
  Permutation (filter f l ++ filter (fun x => negb (f x)) l) l.
Proof.
  induction l as [|x l IH]; simpl; [apply perm_nil|].
  destruct (f x); simpl.
  - apply perm_skip, IH.
  - apply Permutation_sym. apply Permutation_cons_app.
    apply Permutation_sym, IH.
Qed.

(** [Object.entries] lists every own property once. *)
Lemma entries_perm (counts : list (string * WedgeDetector.tally)) :
  Permutation (WedgeDetector.entries counts) counts.
Proof.
  unfold WedgeDetector.entries.
  eapply perm_trans; [|apply (filter_partition_perm WedgeDetector.is_index)].
  apply Permutation_app_tail, sort_perm.
Qed.

(** Two comparators that order the elements of a list alike sort it
    alike. *)
Lemma sort_insert_ext {A} (c1 c2 : A -> A -> Q) (x : A) (l : list A) :
  (forall y, In y l -> Qltb 0 (c1 x y) = Qltb 0 (c2 x y)) ->
  sort_insert c1 x l = sort_insert c2 x l.
Proof.
  induction l as [|y l IH]; intro H; simpl; [reflexivity|].
  rewrite (H y (or_introl eq_refl)).
  destruct (Qltb 0 (c2 x y)); [|reflexivity].
  f_equal. apply IH. intros z Hz. apply H. now right.
Qed.

Lemma sort_ext {A} (c1 c2 : A -> A -> Q) (l : list A) :
  (forall x y, In x l -> In y l -> Qltb 0 (c1 x y) = Qltb 0 (c2 x y)) ->
  Js.sort c1 l = Js.sort c2 l.
Proof.
  induction l as [|x l IH]; intro H; simpl; [reflexivity|].
  fold (Js.sort c1 l). fold (Js.sort c2 l).
  rewrite IH by (intros a b Ha Hb; apply H; now right).
  apply sort_insert_ext. intros y Hy. apply H; [now left|].
  right. exact (proj1 (sort_In c2 l y) Hy).
Qed.

(** X8.  When no detected topic bears a name that Object.prototype defines,
    extractTopTopics returns at most three topics, all different, each
    detected in some post, and they are the most frequent ones: no topic it
    leaves out occurs more often across the posts than a topic it returns. *)
Theorem top_topics_most_frequent (posts : list Post) :
  (forall t, In t (allTopics posts) -> plainTopic t) ->
  let top := WedgeDetector.extractTopTopics posts in
  (List.length top <= 3)%nat
  /\ NoDup top
  /\ (forall t, In t top -> In t (allTopics posts))
  /\ (forall t u, In t top -> In u (allTopics posts) -> ~ In u top ->
        (occurrences u posts <= occurrences t posts)%nat).
Proof.
  intros Hplain top. unfold top, WedgeDetector.extractTopTopics.
  set (table := fold_left _ posts []).
  assert (Ht : tallied (allTopics posts) table).
  { apply (tallied_posts posts [] [] Hplain). split; [constructor|].
    split; [intro k; reflexivity | intros k n []]. }
  destruct Ht as (Hnd & Hkeys & Hent).
  assert (Hsame : Js.sort WedgeDetector.by_count_desc
                    (WedgeDetector.entries table)
                  = Js.sort (fun a b => count_of b - count_of a)
                      (WedgeDetector.entries table)).
  { apply sort_ext. intros [k v] [k' v'] Hx Hy.
    apply (Permutation_in _ (entries_perm table)) in Hx, Hy.
    rewrite (Hent k v Hx), (Hent k' v' Hy). reflexivity. }
  rewrite Hsame.
  set (sorted := Js.sort (fun a b => count_of b - count_of a)
                   (WedgeDetector.entries table)).
  assert (Hperm : Permutation sorted table).
  { eapply perm_trans; [apply sort_perm | apply entries_perm]. }
  assert (Hsorted : StronglySorted (desc count_of) sorted)
    by apply (sort_sorted count_of).
  change 3%Z with (Z.of_nat 3). rewrite slice_prefix.
  assert (Hndk : NoDup (map fst sorted)).
  { apply (Permutation_NoDup (l := map fst table)); [|exact Hnd].
    apply Permutation_map, Permutation_sym, Hperm. }
  assert (Hocc : forall k v, In (k, v) sorted ->
                   count_of (k, v) = inject_Z (Z.of_nat (occurrences k posts))).
  { intros k v H. unfold count_of. cbn [snd].
    rewrite (Hent k v (Permutation_in _ Hperm H)). reflexivity. }
  split; [rewrite length_firstn; lia|].
  split; [apply NoDup_firstn, Hndk|].
  split.
  - intros t Hin. apply Hkeys.
    apply (Permutation_in (l := map fst sorted)).
    + apply Permutation_map, Hperm.
    + rewrite <- (firstn_skipn 3 (map fst sorted)). apply in_or_app. now left.
  - intros t u Hin Hu Hnot.
    assert (Hus : In u (skipn 3 (map fst sorted))).
    { assert (H : In u (map fst sorted)).
      { apply (Permutation_in (l := map fst table)).
        - apply Permutation_map, Permutation_sym, Hperm.
        - apply Hkeys, Hu. }
      rewrite <- (firstn_skipn 3 (map fst sorted)) in H.
      apply in_app_or in H. destruct H as [H|H]; [contradiction | exact H]. }
    rewrite firstn_map in Hin. rewrite skipn_map in Hus.
    apply in_map_iff in Hin. destruct Hin as ([t' n] & Htn & Hin).
    apply in_map_iff in Hus. destruct Hus as ([u' m] & Hum & Hus).
    simpl in Htn, Hum. subst t' u'.
    assert (Hle : desc count_of (t, n) (u, m)).
    { apply (sorted_app_le (desc count_of) (firstn 3 sorted) (skipn 3 sorted)).
      - rewrite firstn_skipn. exact Hsorted.
      - exact Hin.
      - exact Hus. }
    unfold desc in Hle.
    rewrite (Hocc t n), (Hocc u m) in Hle.
    + rewrite <- Zle_Qle in Hle. lia.
    + rewrite <- (firstn_skipn 3 sorted). apply in_or_app. now right.
    + rewrite <- (firstn_skipn 3 sorted). apply in_or_app. now left.
Qed.

Lemma top_topics_most_frequent_witness :
  WedgeDetector.extractTopTopics Sample.fourTopics = ["pipeline"; "quota"; "ABM"]
  /\ (occurrences "hiring" Sample.fourTopics
      <= occurrences "ABM" Sample.fourTopics)%nat.
Proof.
  split; [reflexivity|].
  destruct (top_topics_most_frequent Sample.fourTopics) as (_ & _ & _ & H).
  - intros t Ht. unfold allTopics in Ht. cbn in Ht.
    repeat (destruct Ht as [<-|Ht];
            [split; [discriminate|];
             intro Hc; cbn in Hc;
             repeat (destruct Hc as [Hc|Hc]; [discriminate Hc|]);
             exact Hc|]).
    destruct Ht.
  - apply H.
    + right; right; left. reflexivity.
    + right; right; right; left. reflexivity.
    + intros [H0|[H0|[H0|[]]]]; discriminate.
Defined.

(** The object semantics of the counters on topic names that are not plain
    words: array indices are listed first, in ascending order; a topic named
    __proto__ is never counted; a topic named after an inherited method is
    counted as a text. *)
Lemma top_topics_object_semantics :
  WedgeDetector.extractTopTopics
    [Sample.tagged "t1" ["quota"; "10"; "9"]] = ["9"; "10"; "quota"]
  /\ WedgeDetector.extractTopTopics
       [Sample.tagged "t1" ["__proto__"; "__proto__"; "quota"]] = ["quota"]
  /\ WedgeDetector.count_topic "constructor" []
     = [("constructor", WedgeDetector.Text)]
  /\ WedgeDetector.array_index "07" = None
  /\ WedgeDetector.array_index "4294967295" = None
  /\ WedgeDetector.array_index "4294967294" = Some 4294967294%Z.
Proof. repeat split. Qed.

Lemma isTechnicalPost_spec (p : Post) :
  WedgeDetector.isTechnicalPost p = true <-> hasTechnicalTopic p.
Proof.
  unfold WedgeDetector.isTechnicalPost, hasTechnicalTopic.
  rewrite existsb_exists. split; intros (t & Ht & H); exists t; split; trivial.
  - apply existsb_exists in H. destruct H as (x & Hx & E).
    apply String.eqb_eq in E. now subst.
  - apply existsb_exists. exists t. split; [exact H | apply String.eqb_refl].
Qed.

Lemma isInitiativeSignal_spec (s : Signal) :
  WedgeDetector.isInitiativeSignal s = true <-> isInitiative s.
Proof.
  unfold WedgeDetector.isInitiativeSignal, isInitiative.
  rewrite andb_true_iff, orb_true_iff, !String.eqb_eq. reflexivity.
Qed.

Lemma Count_filter {A} (P : A -> Prop) (f : A -> bool) (l : list A) :
  (forall x, f x = true <-> P x) ->
  Count P l (List.length (filter f l)).
Proof.
  intro H. induction l as [|x l IH]; simpl; [constructor|].
  destruct (f x) eqn:E.
  - simpl. apply Count_yes; [now apply H | exact IH].
  - apply Count_no; [|exact IH]. intro Hc. apply H in Hc. congruence.
Qed.

Lemma Count_unique {A} (P : A -> Prop) (l : list A) (n m : nat) :
  Count P l n -> Count P l m -> n = m.
Proof.
  intro Hn. revert m.
  induction Hn as [|x l n Hx _ IH|x l n Hx _ IH]; intros m Hm;
    inversion Hm; subst; try contradiction; auto.
Qed.

(** X9.  The technical rule emits one wedge, with score 0.80, exactly when
    the GitHub activity score is above 0.6 and some fetched post has a
    technical topic; the wedge records the GitHub score and languages and
    the number of fetched posts that have a technical topic.  Otherwise it
    emits nothing. *)
Theorem technical_wedge_condition (posts : list Post)
    (github : option GithubActivity) :
  let out := WedgeDetector.detectTechnicalWedges posts github in
  (activityAbove06 github -> (exists p, In p posts /\ hasTechnicalTopic p) ->
     exists g w n,
       github = Some g
       /\ out = [w] /\ Wedge.type w = "technical_buyer"
       /\ Wedge.score w = 0.80
       /\ Wedge.details w
          = Wedge.Technical (activity_score g) (primary_languages g) n
       /\ Count hasTechnicalTopic posts n
       /\ (1 <= n <= List.length posts)%nat)
  /\ (~ (activityAbove06 github
         /\ exists p, In p posts /\ hasTechnicalTopic p) -> out = []).
Proof.
  intro out. unfold out, WedgeDetector.detectTechnicalWedges.
  pose proof (github_active_spec github) as Hg.
  split.
  - intros Hact (p & Hp & Htech).
    apply Hg in Hact. destruct github as [g|]; [|discriminate].
    assert (Hin : In p (filter WedgeDetector.isTechnicalPost posts)).
    { apply filter_In. split; [exact Hp | now apply isTechnicalPost_spec]. }
    assert (Hlen : (1 <= List.length
                           (filter WedgeDetector.isTechnicalPost posts))%nat).
    { destruct (filter _ posts); [destruct Hin | simpl; lia]. }
    rewrite Hact.
    replace (0 <? List.length (filter WedgeDetector.isTechnicalPost posts))%nat
      with true by (symmetry; apply Nat.ltb_lt; lia).
    cbn [andb].
    exists g, (WedgeDetector.technicalWedge
                 (filter WedgeDetector.isTechnicalPost posts) g),
      (List.length (filter WedgeDetector.isTechnicalPost posts)).
    do 5 (split; [reflexivity|]).
    split; [apply Count_filter, isTechnicalPost_spec|].
    split; [exact Hlen | apply filter_length_le].
  - intro Hnot. destruct github as [g|]; [|reflexivity].
    destruct (github_active g) eqn:Ea; [|now rewrite andb_false_r].
    destruct (filter WedgeDetector.isTechnicalPost posts) as [|p l] eqn:Ef;
      [reflexivity|].
    exfalso. apply Hnot. split; [now apply Hg|].
    assert (Hin : In p (filter WedgeDetector.isTechnicalPost posts))
      by (rewrite Ef; now left).
    apply filter_In in Hin. exists p. split; [apply Hin|].
    apply isTechnicalPost_spec, Hin.
Qed.

(** X10.  The initiative rule emits one wedge, with score 0.70, for the
    first stored signal of category timing_trigger and type company_hiring
    or company_initiatives, whose description it records, however many such
    signals there are; it emits nothing when there is none. *)
Theorem initiative_wedge_for_first_signal (signals : list Signal) :
  let out := WedgeDetector.detectInitiativeWedges signals in
  (forall before s after,
      signals = (before ++ s :: after)%list ->
      (forall q, In q before -> ~ isInitiative q) ->
      isInitiative s ->
      exists w raw,
        out = [w] /\ Wedge.type w = "company_initiative"
        /\ Wedge.score w = 0.70
        /\ Wedge.details w = Wedge.Initiative (description s) raw)
  /\ ((forall q, In q signals -> ~ isInitiative q) -> out = []).
Proof.
  intro out. unfold out, WedgeDetector.detectInitiativeWedges. split.
  - intros before s after -> Hbefore Hs.
    rewrite filter_first.
    + do 2 eexists. repeat split.
    + intros y Hy.
      destruct (WedgeDetector.isInitiativeSignal y) eqn:E; [|reflexivity].
      apply isInitiativeSignal_spec in E. exfalso. exact (Hbefore y Hy E).
    + now apply isInitiativeSignal_spec.
  - intro Hnone. rewrite filter_none; [reflexivity|].
    intros y Hy.
    destruct (WedgeDetector.isInitiativeSignal y) eqn:E; [|reflexivity].
    apply isInitiativeSignal_spec in E. exfalso. exact (Hnone y Hy E).
Qed.

(** X11.  The thought-leadership rule emits at most two wedges, and the
    active-poster wedge among them exactly when at least 10 posts were
    fetched.  Without any fetched post only the job-change and the
    initiative rules can emit, so at most two wedges are detected. *)
Theorem thought_leadership_and_empty_posts (now : Z)
    (profile : option Profile) (posts : list Post) (signals : list Signal)
    (github : option GithubActivity) :
  let out := WedgeDetector.detectThoughtLeadershipWedges now posts in
  (List.length out <= 2)%nat
  /\ ((exists w, In w out /\ Wedge.type w = "linkedin_active_poster")
      <-> (10 <= List.length posts)%nat)
  /\ WedgeDetector.allWedges now profile [] signals github
     = Ok (WedgeDetector.detectJobChangeWedges profile signals
           ++ WedgeDetector.detectInitiativeWedges signals)%list
  /\ (forall all,
        WedgeDetector.allWedges now profile [] signals github = Ok all ->
        (List.length all <= 2)%nat).
Proof.
  intro out.
  assert (Hempty : WedgeDetector.allWedges now profile [] signals github
     = Ok (WedgeDetector.detectJobChangeWedges profile signals
           ++ WedgeDetector.detectInitiativeWedges signals)%list).
  { unfold WedgeDetector.allWedges. cbn.
    destruct github as [g|]; cbn; now rewrite ?app_nil_r. }
  split; [|split; [|split; [exact Hempty|]]].
  - unfold out, WedgeDetector.detectThoughtLeadershipWedges.
    destruct (List.length posts =? 0)%nat; [simpl; lia|].
    rewrite length_app.
    destruct (filter _ posts); destruct (10 <=? List.length posts)%nat;
      simpl; lia.
  - unfold out, WedgeDetector.detectThoughtLeadershipWedges. split.
    + intros (w & Hw & Hty).
      destruct (List.length posts =? 0)%nat; [destruct Hw|].
      apply in_app_or in Hw. destruct Hw as [Hw|Hw].
      * destruct (filter _ posts); [destruct Hw|].
        destruct Hw as [<-|[]]. discriminate.
      * destruct (Nat.leb_spec 10 (List.length posts)); [assumption|].
        destruct Hw.
    + intro H.
      replace (List.length posts =? 0)%nat with false
        by (symmetry; apply Nat.eqb_neq; lia).
      replace (10 <=? List.length posts)%nat with true
        by (symmetry; apply Nat.leb_le; lia).
      exists (WedgeDetector.activePosterWedge posts). split; [|reflexivity].
      apply in_or_app. right. now left.
  - intros all Hall. rewrite Hempty in Hall. injection Hall as <-.
    rewrite length_app.
    pose proof (proj1 (job_change_rule profile signals)) as Hj.
    cbv zeta in Hj.
    unfold WedgeDetector.detectInitiativeWedges.
    destruct (filter _ signals); simpl; lia.
Qed.

(** X12.  The phase written in a job-change wedge agrees with the tenure
    phase the playbook generator computes for the same tenure exactly from 3
    up to (not including) 12 months: below 3 months the wedge says
    evaluation where the generator says onboarding, and at 12 months the
    wedge says optimization where the generator says established. *)
Theorem job_change_phase_vs_tenure_phase (profile : option Profile)
    (signals : list Signal) (w : Wedge.t) (t : Z) (phase : string) :
  In w (WedgeDetector.detectJobChangeWedges profile signals) ->
  Wedge.details w = Wedge.JobChange t phase ->
  (phase = PlaybookGenerator.getTenurePhase t <-> (3 <= t < 12)%Z).
Proof.
  intros Hw Hd. apply jobChange_cases in Hw.
  destruct Hw as [t' [[-> Ht]|[-> Ht]]];
    cbn [WedgeDetector.recentJobChangeWedge WedgeDetector.optimalJobChangeWedge
         Wedge.details] in Hd;
    injection Hd as <- <-; unfold PlaybookGenerator.getTenurePhase.
  - destruct (Z.ltb_spec t' 3).
    + split; [discriminate | lia].
    + destruct (Z.ltb_spec t' 6); [|lia]. split; [lia | reflexivity].
  - destruct (Z.ltb_spec t' 3); [lia|].
    destruct (Z.ltb_spec t' 6); [lia|].
    destruct (Z.ltb_spec t' 12).
    + split; [lia | reflexivity].
    + destruct (Z.ltb_spec t' 24); [|lia]. split; [discriminate | lia].
Qed.

Lemma job_change_phase_vs_tenure_phase_witness :
  "optimization" <> PlaybookGenerator.getTenurePhase 12.
Proof.
  intro H.
  assert (Hin : In (WedgeDetector.optimalJobChangeWedge 12)
                   (WedgeDetector.detectJobChangeWedges
                      (Some (Sample.profile (Some 12%Z))) []))
    by (left; reflexivity).
  pose proof (proj1 (job_change_phase_vs_tenure_phase
                       (Some (Sample.profile (Some 12%Z))) []
                       (WedgeDetector.optimalJobChangeWedge 12) 12
                       "optimization" Hin eq_refl) H) as Hrange.
  lia.
Defined.

(** ** Playbook generator *)

Lemma same_str_eq (a b : option string) : same_str a b = true <-> a = b.
Proof.
  destruct a as [x|], b as [y|]; simpl; try (split; congruence).
  rewrite String.eqb_eq. split; congruence.
Qed.

Lemma find_first {A} (f : A -> bool) (l : list A) (q : A) :
  List.find f l = Some q <->
  exists before after,
    l = (before ++ q :: after)%list /\ f q = true
    /\ forall x, In x before -> f x = false.
Proof.
  induction l as [|a l IH]; simpl.
  - split; [discriminate|]. intros (b & c & H & _). destruct b; discriminate.
  - destruct (f a) eqn:Ea.
    + split.
      * intro H. injection H as <-. exists [], l. repeat split; auto.
        intros x [].
      * intros (b & c & H & Hq & Hb). destruct b as [|x b].
        -- simpl in H. injection H as -> _. reflexivity.
        -- simpl in H. injection H as -> _.
           rewrite (Hb x (or_introl eq_refl)) in Ea. discriminate.
    + rewrite IH. split.
      * intros (b & c & -> & Hq & Hb). exists (a :: b), c.
        repeat split; auto. intros x [<-|Hx]; auto.
      * intros (b & c & H & Hq & Hb). destruct b as [|x b].
        -- simpl in H. injection H as -> _. congruence.
        -- simpl in H. injection H as -> ->. exists b, c.
           repeat split; auto. intros y Hy. apply Hb. now right.
Qed.

(** The trigger post the code looks up is the trigger post of the
    vocabulary. *)
Lemma triggerPost_found (posts : list Post) (w : Wedge.t) (q : Post) :
  triggerPostFor posts w q <->
  startsWith (Wedge.type w) "linkedin_"
  && truthy_str (Wedge.postUrl_of (Wedge.details w)) = true
  /\ Js.find (fun x => same_str (post_url x)
                         (Wedge.postUrl_of (Wedge.details w))) posts
     = Some q.
Proof.
  unfold triggerPostFor, Js.find, startsWith.
  rewrite andb_true_iff, prefix_spec, find_first. split.
  - intros (url & b & a & Hty & Hurl & Hne & Hposts & Hq & Hb).
    rewrite Hurl. cbn [truthy_str].
    split; [split; [exact Hty|]|].
    + apply negb_true_iff. now apply String.eqb_neq.
    + exists b, a. split; [exact Hposts|]. split.
      * now apply same_str_eq.
      * intros x Hx. destruct (same_str (post_url x) (Some url)) eqn:E;
          [|reflexivity].
        apply same_str_eq in E. exfalso. exact (Hb x Hx E).
  - intros [[Hty Htruthy] (b & a & Hposts & Hq & Hb)].
    destruct (Wedge.postUrl_of (Wedge.details w)) as [url|];
      [|discriminate Htruthy].
    cbn [truthy_str] in Htruthy. apply negb_true_iff in Htruthy.
    exists url, b, a. split; [exact Hty|]. split; [reflexivity|].
    split; [now apply String.eqb_neq|]. split; [exact Hposts|].
    split; [now apply same_str_eq|].
    intros x Hx E. apply same_str_eq in E. rewrite (Hb x Hx) in E.
    discriminate.
Qed.

(** When building the LinkedIn context returns, and what it throws when it
    does not. *)
Lemma context_builds (profile : option Profile) (posts : list Post)
    (w : Wedge.t) :
  (contextBuilds profile posts w <->
   is_ok (PlaybookGenerator.buildLinkedInContext profile posts w) = true)
  /\ (forall m,
        PlaybookGenerator.buildLinkedInContext profile posts w = Err m ->
        m = "Cannot read properties of null (reading 'substring')").
Proof.
  unfold contextBuilds, PlaybookGenerator.buildLinkedInContext.
  destruct profile as [p|].
  2:{ split; [split; [reflexivity | now left] | discriminate]. }
  pose proof (triggerPost_found posts w) as Hfound.
  destruct (startsWith (Wedge.type w) "linkedin_"
            && truthy_str (Wedge.postUrl_of (Wedge.details w))) eqn:Ecall.
  - destruct (Js.find _ posts) as [q|] eqn:Efind.
    + destruct (post_content q) as [c|] eqn:Ec; cbn.
      * split; [|discriminate]. split; [reflexivity|].
        intros _. right. intros q' Hq'. apply Hfound in Hq'.
        destruct Hq' as [_ Hq']. injection Hq' as <-. congruence.
      * split.
        -- split; [|discriminate]. intros [H|H]; [discriminate|].
           exfalso. apply (H q); [|exact Ec]. apply Hfound. now split.
        -- intros m H. injection H as <-. reflexivity.
    + cbn. split; [|discriminate]. split; [reflexivity|].
      intros _. right. intros q' Hq'. apply Hfound in Hq'.
      destruct Hq' as [_ Hq']. discriminate Hq'.
  - cbn. split; [|discriminate]. split; [reflexivity|].
    intros _. right. intros q' Hq'. apply Hfound in Hq'.
    destruct Hq' as [Hq' _]. discriminate Hq'.
Qed.

(** X13.  generatePlaybook persists a playbook exactly when it answers
    success: a successful call appends the returned playbook, and only it, to
    the stored rows; a failed call leaves them as they were and carries an
    error message.  The call succeeds exactly when the contact exists, the
    five direct reads and the insert resolve, a wedge was detected, and
    building the LinkedIn context does not throw: there is no profile, or
    the trigger post of the primary wedge has a content.  When it throws,
    the answer is the failure with the TypeError's message. *)
Theorem playbook_persisted_iff_success (cfg : Config) (now : Z)
    (db : PlaybookGenerator.Reads) (stored : list Playbook.t) :
  let r := PlaybookGenerator.generatePlaybook cfg now db stored in
  (success (fst r) = true ->
     exists pb, playbook (fst r) = Some pb /\ error (fst r) = None
                /\ snd r = (stored ++ [pb])%list)
  /\ (success (fst r) = false ->
      playbook (fst r) = None /\ snd r = stored
      /\ exists message, error (fst r) = Some message)
  /\ (success (fst r) = true <->
      exists contact profile posts github speaking w,
        PlaybookGenerator.getContactById db = Ok (Some contact)
        /\ PlaybookGenerator.getProfile db = Ok profile
        /\ PlaybookGenerator.getRecentPosts db = Ok posts
        /\ PlaybookGenerator.getActivity db = Ok github
        /\ PlaybookGenerator.getEngagements db = Ok speaking
        /\ primaryWedge (WedgeDetector.detectWedges now
                           (PlaybookGenerator.detectorReads db)) = Some w
        /\ contextBuilds profile posts w
        /\ is_ok (PlaybookGenerator.savePlaybook db) = true)
  /\ (forall contact profile posts github speaking w,
        PlaybookGenerator.getContactById db = Ok (Some contact) ->
        PlaybookGenerator.getProfile db = Ok profile ->
        PlaybookGenerator.getRecentPosts db = Ok posts ->
        PlaybookGenerator.getActivity db = Ok github ->
        PlaybookGenerator.getEngagements db = Ok speaking ->
        primaryWedge (WedgeDetector.detectWedges now
                        (PlaybookGenerator.detectorReads db)) = Some w ->
        ~ contextBuilds profile posts w ->
        r = ({| success := false; playbook := None;
                error := Some "Cannot read properties of null (reading 'substring')" |},
             stored)).
Proof.
  intro r. unfold r, PlaybookGenerator.generatePlaybook,
    PlaybookGenerator.tryGenerate, Js.bind.
  destruct (PlaybookGenerator.getContactById db) as [[c|]|m1];
    destruct (PlaybookGenerator.getProfile db) as [pr|m2];
    destruct (PlaybookGenerator.getRecentPosts db) as [po|m3];
    destruct (PlaybookGenerator.getActivity db) as [gh|m4];
    destruct (PlaybookGenerator.getEngagements db) as [sp|m5];
    try (cbn; split; [discriminate|];
         split; [intros _; repeat split; eexists; reflexivity|];
         split; [split; [discriminate|];
                 intros (c' & pr' & po' & gh' & sp' & w' & H1 & H2 & H3 & H4
                         & H5 & _); discriminate|];
         intros; discriminate).
  destruct (primaryWedge _) as [w|] eqn:Ew.
  2:{ cbn. split; [discriminate|].
      split; [intros _; repeat split; eexists; reflexivity|].
      split; [split; [discriminate|];
              intros (c' & pr' & po' & gh' & sp' & w' & _ & _ & _ & _ & _
                      & H & _); discriminate|].
      intros; discriminate. }
  unfold PlaybookGenerator.buildPlaybook, Js.bind.
  destruct (context_builds pr po w) as [Hbuilds Hmsg].
  destruct (PlaybookGenerator.buildLinkedInContext pr po w) as [ctx|m].
  - destruct (PlaybookGenerator.savePlaybook db) as [u|m6]; cbn.
    + split; [intros _; eexists; repeat split|].
      split; [discriminate|].
      split.
      * split; [|reflexivity]. intros _.
        exists c, pr, po, gh, sp, w. repeat split. now apply Hbuilds.
      * intros c' pr' po' gh' sp' w' _ H2 H3 _ _ Hw Hno.
        injection H2 as <-. injection H3 as <-. injection Hw as <-.
        exfalso. apply Hno. now apply Hbuilds.
    + split; [discriminate|].
      split; [intros _; repeat split; eexists; reflexivity|].
      split.
      * split; [discriminate|].
        intros (c' & pr' & po' & gh' & sp' & w' & _ & _ & _ & _ & _ & _ & _
                & H). discriminate H.
      * intros c' pr' po' gh' sp' w' _ H2 H3 _ _ Hw Hno.
        injection H2 as <-. injection H3 as <-. injection Hw as <-.
        exfalso. apply Hno. now apply Hbuilds.
  - cbn. rewrite (Hmsg m eq_refl).
    split; [discriminate|].
    split; [intros _; repeat split; eexists; reflexivity|].
    split.
    + split; [discriminate|].
      intros (c' & pr' & po' & gh' & sp' & w' & _ & H2 & H3 & _ & _ & Hw & Hb
              & _).
      injection H2 as <-. injection H3 as <-. injection Hw as <-.
      apply Hbuilds in Hb. discriminate Hb.
    + intros. reflexivity.
Qed.

(** X14.  A missing contact is reported before anything else: when the
    five direct reads resolve and there is no row for the contact, the answer
    is the failure "Contact not found" and nothing is persisted, whether or
    not wedges were detected. *)
Theorem missing_contact_reported_first (cfg : Config) (now : Z)
    (db : PlaybookGenerator.Reads) (stored : list Playbook.t) :
  PlaybookGenerator.getContactById db = Ok None ->
  ~ directReadFailed db ->
  PlaybookGenerator.generatePlaybook cfg now db stored
  = (PlaybookGenerator.failure "Contact not found", stored).
Proof.
  intros Hc Hd.
  unfold directReadFailed, PlaybookGenerator.generatePlaybook,
    PlaybookGenerator.tryGenerate, Js.bind in *.
  rewrite Hc in *.
  destruct (PlaybookGenerator.getProfile db) as [pr|m2];
    destruct (PlaybookGenerator.getRecentPosts db) as [po|m3];
    destruct (PlaybookGenerator.getActivity db) as [gh|m4];
    destruct (PlaybookGenerator.getEngagements db) as [sp|m5];
    cbn in *; try reflexivity; exfalso; apply Hd; tauto.
Qed.

Lemma missing_contact_reported_first_witness :
  PlaybookGenerator.generatePlaybook default_config Sample.now Sample.stranger []
  = (PlaybookGenerator.failure "Contact not found", []).
Proof.
  apply missing_contact_reported_first; [reflexivity|].
  intros [F|[F|[F|[F|F]]]]; discriminate.
Defined.

(** A detected primary wedge comes from the rules: the detector's reads
    resolved, no rule threw, and the result is the rules' wedges sorted. *)
Lemma detected_from_rules (now : Z) (d : WedgeDetector.Reads) (p : Wedge.t) :
  primaryWedge (WedgeDetector.detectWedges now d) = Some p ->
  exists profile posts signals github all,
    WedgeDetector.getProfile d = Ok profile
    /\ WedgeDetector.getRecentPosts d = Ok posts
    /\ WedgeDetector.getSignalsByContact d = Ok signals
    /\ WedgeDetector.getActivity d = Ok github
    /\ WedgeDetector.allWedges now profile posts signals github = Ok all
    /\ wedges (WedgeDetector.detectWedges now d)
       = Js.sort WedgeDetector.by_score_desc all
    /\ In p all
    /\ forall w, In w all -> Wedge.score w <= Wedge.score p.
Proof.
  unfold WedgeDetector.detectWedges, WedgeDetector.tryDetect, Js.bind.
  destruct (WedgeDetector.getProfile d) as [pr|]; [|discriminate].
  destruct (WedgeDetector.getRecentPosts d) as [po|]; [|discriminate].
  destruct (WedgeDetector.getSignalsByContact d) as [sg|]; [|discriminate].
  destruct (WedgeDetector.getActivity d) as [gh|]; [|discriminate].
  destruct (WedgeDetector.allWedges now pr po sg gh) as [all|] eqn:Eall;
    [|discriminate].
  cbn [primaryWedge wedges]. unfold Js.first. intro Hp.
  exists pr, po, sg, gh, all.
  do 4 (split; [reflexivity|]).
  split; [exact Eall|]. split; [reflexivity|]. split.
  - apply (sort_In WedgeDetector.by_score_desc all p).
    destruct (Js.sort _ all); [discriminate|]. injection Hp as ->. now left.
  - intros w Hw.
    apply (sorted_head_max Wedge.score
             (Js.sort WedgeDetector.by_score_desc all)).
    + apply (sort_sorted Wedge.score).
    + exact Hp.
    + apply sort_In, Hw.
Qed.

(** X15.  A generated playbook is built on the detector's primary wedge:
    its primary_wedge, wedge_score and conversation_starters are that
    wedge's description, score and starters.  The detector's reads resolved
    and its rules returned; the playbook's snapshot allWedges is a
    rearrangement of the wedges the six rules emitted, the primary wedge is
    one of them, and none of them scores above the playbook's
    wedge_score. *)
Theorem playbook_carries_top_wedge (cfg : Config) (now : Z)
    (db : PlaybookGenerator.Reads) (stored : list Playbook.t)
    (pb : Playbook.t) :
  playbook (fst (PlaybookGenerator.generatePlaybook cfg now db stored))
  = Some pb ->
  let reads := PlaybookGenerator.detectorReads db in
  exists w profile posts signals github all,
    primaryWedge (WedgeDetector.detectWedges now reads) = Some w
    /\ Playbook.primary_wedge pb = Wedge.description w
    /\ Playbook.wedge_score pb = Wedge.score w
    /\ Playbook.conversation_starters pb = Wedge.conversationStarters w
    /\ Playbook.strategy_primaryWedge (Playbook.full_strategy_json pb) = w
    /\ WedgeDetector.getProfile reads = Ok profile
    /\ WedgeDetector.getRecentPosts reads = Ok posts
    /\ WedgeDetector.getSignalsByContact reads = Ok signals
    /\ WedgeDetector.getActivity reads = Ok github
    /\ WedgeDetector.allWedges now profile posts signals github = Ok all
    /\ Permutation (Playbook.allWedges (Playbook.full_strategy_json pb)) all
    /\ In w all
    /\ (forall w', In w' all -> Wedge.score w' <= Playbook.wedge_score pb).
Proof.
  intros Hpb reads.
  unfold PlaybookGenerator.generatePlaybook, PlaybookGenerator.tryGenerate,
    Js.bind in Hpb. fold reads in Hpb.
  destruct (PlaybookGenerator.getContactById db) as [[c|]|m1];
    destruct (PlaybookGenerator.getProfile db) as [pr|m2];
    destruct (PlaybookGenerator.getRecentPosts db) as [po|m3];
    destruct (PlaybookGenerator.getActivity db) as [gh|m4];
    destruct (PlaybookGenerator.getEngagements db) as [sp|m5];
    try discriminate Hpb.
  destruct (primaryWedge (WedgeDetector.detectWedges now reads)) as [w|] eqn:Ew;
    [|discriminate Hpb].
  unfold PlaybookGenerator.buildPlaybook, Js.bind in Hpb.
  destruct (PlaybookGenerator.buildLinkedInContext pr po w) as [ctx|m];
    [|discriminate Hpb].
  destruct (PlaybookGenerator.savePlaybook db); [|discriminate Hpb].
  cbn [fst playbook] in Hpb. injection Hpb as <-.
  destruct (detected_from_rules now reads w Ew)
    as (profile & posts & signals & github & all & H1 & H2 & H3 & H4 & Hall
        & Hsorted & Hin & Hmax).
  exists w, profile, posts, signals, github, all.
  cbn [Playbook.primary_wedge Playbook.wedge_score
       Playbook.conversation_starters Playbook.full_strategy_json
       Playbook.strategy_primaryWedge Playbook.allWedges].
  repeat (split; [first [reflexivity | assumption]|]).
  split; [rewrite Hsorted; apply sort_perm|].
  split; assumption.
Qed.

Lemma playbook_carries_top_wedge_witness :
  exists pb,
    playbook (fst (PlaybookGenerator.generatePlaybook default_config Sample.now
                     (Sample.reads (Ok []) Sample.detectorOk) []))
    = Some pb
    /\ Js.same_number (Playbook.wedge_score pb) 1.0999999999999999
    /\ Wedge.score (WedgeDetector.recentJobChangeWedge 4)
       <= Playbook.wedge_score pb.
Proof.
  destruct (playbook (fst (PlaybookGenerator.generatePlaybook default_config
                             Sample.now
                             (Sample.reads (Ok []) Sample.detectorOk) [])))
    as [pb|] eqn:Epb; [|vm_compute in Epb; discriminate Epb].
  exists pb. split; [reflexivity|].
  destruct (playbook_carries_top_wedge default_config Sample.now
              (Sample.reads (Ok []) Sample.detectorOk) [] pb Epb)
    as (w & profile & posts & signals & github & all & Hw & _ & Hscore & _ & _
        & H1 & H2 & H3 & H4 & Hall & _ & _ & Hmax).
  cbn in H1, H2, H3, H4.
  injection H1 as <-. injection H2 as <-. injection H3 as <-.
  injection H4 as <-.
  split.
  - rewrite Hscore.
    assert (Hp : primaryWedge
                   (WedgeDetector.detectWedges Sample.now
                      (PlaybookGenerator.detectorReads
                         (Sample.reads (Ok []) Sample.detectorOk)))
                 = Some (WedgeDetector.painPointWedge Sample.now
                           Sample.painPost "forecasting is broken"))
      by (vm_compute; reflexivity).
    rewrite Hp in Hw. injection Hw as <-.
    unfold Js.same_number. vm_compute. reflexivity.
  - apply Hmax.
    assert (Ha : WedgeDetector.allWedges Sample.now
                   (Some (Sample.profile (Some 4%Z))) [Sample.painPost] []
                   None
                 = Ok [WedgeDetector.painPointWedge Sample.now Sample.painPost
                         "forecasting is broken";
                       WedgeDetector.recentJobChangeWedge 4])
      by reflexivity.
    rewrite Ha in Hall. injection Hall as <-. right. now left.
Defined.

Lemma slice_from_1_to_4 {A} (l : list A) : Js.slice l 1 4 = firstn 3 (tl l).
Proof.
  unfold Js.slice, rel_index.
  change (1 <? 0)%Z with false. change (4 <? 0)%Z with false. cbv iota.
  destruct l as [|a l]; [reflexivity|].
  replace (Z.to_nat (Z.min 1 (Z.of_nat (List.length (a :: l))))) with 1%nat
    by (simpl List.length; lia).
  cbn [skipn tl].
  destruct l as [|b [|c [|d l]]]; try reflexivity.
  replace (Z.to_nat (Z.min 4 (Z.of_nat (List.length (a :: b :: c :: d :: l)))
                     - Z.min 1 (Z.of_nat (List.length (a :: b :: c :: d :: l)))))
    with 3%nat by (simpl List.length; lia).
  reflexivity.
Qed.

(** X16.  supporting_evidence lists the first five top signals, rendered
    with their relevance, followed by the wedges ranked second to fourth,
    rendered with their type: the primary wedge is not among them, and there
    are at most eight entries. *)
Theorem supporting_evidence_layout (signals : list ScoredSignal)
    (detected : WedgeResult) :
  let evidence := PlaybookGenerator.buildSupportingEvidence signals detected in
  evidence
  = (map PlaybookGenerator.formatSignalAsEvidence (firstn 5 signals)
     ++ map (fun w => (Wedge.description w ++ " (" ++ Wedge.type w ++ ")")%string)
            (firstn 3 (tl (wedges detected))))%list
  /\ List.length evidence
     = (Nat.min 5 (List.length signals)
        + Nat.min 3 (List.length (wedges detected) - 1))%nat
  /\ (List.length evidence <= 8)%nat.
Proof.
  intro evidence.
  assert (H : evidence
    = (map PlaybookGenerator.formatSignalAsEvidence (firstn 5 signals)
       ++ map (fun w => (Wedge.description w ++ " (" ++ Wedge.type w ++ ")")%string)
              (firstn 3 (tl (wedges detected))))%list).
  { unfold evidence, PlaybookGenerator.buildSupportingEvidence.
    change 5%Z with (Z.of_nat 5). rewrite slice_prefix, slice_from_1_to_4.
    reflexivity. }
  split; [exact H|].
  assert (Hlen : List.length evidence
     = (Nat.min 5 (List.length signals)
        + Nat.min 3 (List.length (wedges detected) - 1))%nat).
  { rewrite H, length_app, !length_map, !length_firstn.
    f_equal. f_equal. destruct (wedges detected); simpl; lia. }
  split; [exact Hlen | lia].
Qed.

Lemma top_entry (es : list (string * Q)) (m : string * Q) :
  In m es ->
  (forall x, In x es -> x = m \/ snd x < snd m) ->
  exists rest, Js.sort ClayFormatter.by_value_desc es = (m :: rest)%list.
Proof.
  intros Hm Hlt.
  assert (Hs : StronglySorted (desc (fun a : string * Q => snd a))
                 (Js.sort ClayFormatter.by_value_desc es))
    by apply (sort_sorted (fun a : string * Q => snd a)).
  assert (Hin : In m (Js.sort ClayFormatter.by_value_desc es))
    by (apply sort_In, Hm).
  destruct (Js.sort ClayFormatter.by_value_desc es) as [|h rest] eqn:E in Hin;
    [destruct Hin|].
  assert (Hh : In h es).
  { apply (sort_In ClayFormatter.by_value_desc). rewrite E. now left. }
  assert (Hle : snd m <= snd h).
  { rewrite E in Hs.
    apply (sorted_head_max (fun a : string * Q => snd a) (h :: rest) h m Hs);
      [reflexivity | exact Hin]. }
  rewrite E.
  destruct (Hlt h Hh) as [->|Hc]; [eauto|].
  exfalso. exact (Qlt_not_le _ _ Hc Hle).
Qed.

(** X17.  The channel the Clay formatter displays for a generated
    recommendation, in whatever order the stored object lists its entries:
    "linkedin dm" with score 95 when at least 5 posts were fetched, and
    otherwise "email", with score 90 when the GitHub activity score is above
    0.6 and 80 when it is not.  The phone is never displayed. *)
Theorem displayed_channel_of_recommendation (profile : option Profile)
    (posts : option (list Post)) (github : option GithubActivity)
    (es : list (string * Q)) :
  Permutation es
    (ClayFormatter.entries
       (PlaybookGenerator.recommendChannels profile posts github)) ->
  (atLeastFivePosts posts ->
     ClayFormatter.getTopChannel (Some es) = Some "linkedin dm"
     /\ ClayFormatter.getTopChannelScore (Some es) = Some 95%Z)
  /\ (~ atLeastFivePosts posts -> activityAbove06 github ->
      ClayFormatter.getTopChannel (Some es) = Some "email"
      /\ ClayFormatter.getTopChannelScore (Some es) = Some 90%Z)
  /\ (~ atLeastFivePosts posts -> ~ activityAbove06 github ->
      ClayFormatter.getTopChannel (Some es) = Some "email"
      /\ ClayFormatter.getTopChannelScore (Some es) = Some 80%Z).
Proof.
  intro Hperm.
  pose proof (github_active_spec github) as Hg.
  assert (Hp : match posts with
               | Some l => (5 <=? List.length l)%nat
               | None => false
               end = true <-> atLeastFivePosts posts).
  { unfold atLeastFivePosts. destruct posts as [l|].
    - rewrite Nat.leb_le. split.
      + intro H. exists l. auto.
      + intros (l' & Hl & H). injection Hl as <-. exact H.
    - split; [discriminate|]. intros (l & H & _). discriminate. }
  assert (Htop : forall m,
            In m (ClayFormatter.entries
                    (PlaybookGenerator.recommendChannels profile posts github)) ->
            (forall x, In x (ClayFormatter.entries
                    (PlaybookGenerator.recommendChannels profile posts github)) ->
                       x = m \/ snd x < snd m) ->
            ClayFormatter.getTopChannel (Some es)
            = Some (ClayFormatter.replace_underscore (fst m))
            /\ ClayFormatter.getTopChannelScore (Some es)
               = Some (Js.round (snd m * 100))).
  { intros m Hm Hlt.
    destruct (top_entry es m) as [rest Hrest].
    - exact (Permutation_in _ (Permutation_sym Hperm) Hm).
    - intros x Hx. apply Hlt. exact (Permutation_in _ Hperm Hx).
    - unfold ClayFormatter.getTopChannel, ClayFormatter.getTopChannelScore.
      rewrite Hrest. split; reflexivity. }
  revert Htop. unfold PlaybookGenerator.recommendChannels.
  destruct (match posts with
            | Some l => (5 <=? List.length l)%nat
            | None => false
            end) eqn:Ep;
    destruct (match github with
              | Some g => github_active g
              | None => false
              end) eqn:Eg;
    destruct posts as [l|]; destruct github as [g|];
    try discriminate Ep; try discriminate Eg;
    try rewrite Ep; try rewrite Eg; cbn; intro Htop;
    (split; [|split]); intros;
    try (exfalso; apply (proj1 Hp) in Ep; tauto);
    try (exfalso; apply (proj1 Hg) in Eg; tauto);
    try (match goal with H : atLeastFivePosts _ |- _ =>
           apply Hp in H; discriminate H end);
    try (match goal with H : activityAbove06 _ |- _ =>
           apply Hg in H; discriminate H end);
    try (match goal with H : ~ atLeastFivePosts _ |- _ =>
           exfalso; apply H, Hp; reflexivity end);
    try (match goal with H : ~ activityAbove06 _ |- _ =>
           exfalso; apply H, Hg; reflexivity end).
  all: first
    [ apply (Htop ("linkedin_dm", 0.95));
      [ now left
      | intros x [<-|[<-|[<-|[]]]]; [now left | right; reflexivity ..] ]
    | apply (Htop ("email", 0.9));
      [ right; now left
      | intros x [<-|[<-|[<-|[]]]];
        [right; reflexivity | now left | right; reflexivity] ]
    | apply (Htop ("email", 0.8));
      [ right; now left
      | intros x [<-|[<-|[<-|[]]]];
        [right; reflexivity | now left | right; reflexivity] ] ].
Qed.

Lemma displayed_channel_of_recommendation_witness :
  ClayFormatter.getTopChannel
    (Some [("email", 0.8); ("phone", 0.3); ("linkedin_dm", 0.95)])
  = Some "linkedin dm".
Proof.
  refine (proj1 (proj1 (displayed_channel_of_recommendation None
                          (Some Sample.viral) None
                          [("email", 0.8); ("phone", 0.3); ("linkedin_dm", 0.95)]
                          _) _)).
  - apply Permutation_sym.
    apply (Permutation_cons_app [("email", 0.8); ("phone", 0.3)] []
             ("linkedin_dm", 0.95)).
    apply Permutation_refl.
  - exists Sample.viral. split; [reflexivity|]. simpl. lia.
Defined.

Lemma append_assoc (a b c : string) : ((a ++ b) ++ c = a ++ (b ++ c))%string.
Proof. induction a as [|x a IH]; simpl; [reflexivity | now rewrite IH]. Qed.

Lemma ends_refl (x : string) : exists body, x = (body ++ x)%string.
Proof. exists "". reflexivity. Qed.

Lemma ends_app (a s x : string) :
  (exists body, s = (body ++ x)%string) ->
  exists body, (a ++ s)%string = (body ++ x)%string.
Proof.
  intros [b ->]. exists (a ++ b)%string. symmetry. apply append_assoc.
Qed.

Ltac ends_with_signature :=
  repeat first [ apply ends_refl | apply ends_app ].

(** X18.  Whatever the wedge, the sample outreach opens with the greeting
    to the contact's first name and closes with the sign-off: it is
    "Hi <first word of the full name>," and two line breaks, a body, and the
    signature. *)
Theorem outreach_has_greeting_and_signature (contact : Contact)
    (primaryWedge : Wedge.t) (profile : option Profile) (posts : list Post) :
  exists body,
    PlaybookGenerator.generateOutreach contact primaryWedge profile posts
    = ("Hi " ++ first_word (full_name contact) ++ "," ++ nl ++ nl
         ++ body ++ nl ++ nl ++ "Best," ++ nl ++ "[Your name]")%string.
Proof.
  assert (H : exists body,
    PlaybookGenerator.generateOutreach contact primaryWedge profile posts
    = (PlaybookGenerator.greeting contact
         ++ (body ++ PlaybookGenerator.signature))%string).
  { unfold PlaybookGenerator.generateOutreach.
    assert (Hshape : forall tail,
      (exists body, tail = (body ++ PlaybookGenerator.signature)%string) ->
      exists body,
        (PlaybookGenerator.greeting contact ++ tail)%string
        = (PlaybookGenerator.greeting contact
             ++ (body ++ PlaybookGenerator.signature))%string).
    { intros tail [b ->]. exists b. reflexivity. }
    destruct (String.eqb (Wedge.type primaryWedge) "linkedin_pain_point");
      [apply Hshape; ends_with_signature|].
    destruct (String.eqb (Wedge.type primaryWedge) "linkedin_buying_signal");
      [apply Hshape; ends_with_signature|].
    destruct (includes (Wedge.type primaryWedge) "job_change");
      [apply Hshape; ends_with_signature|].
    destruct (String.eqb (Wedge.type primaryWedge) "linkedin_thought_leadership");
      [apply Hshape; ends_with_signature|].
    destruct (String.eqb (Wedge.type primaryWedge) "technical_buyer");
      apply Hshape; ends_with_signature. }
  destruct H as [body H]. exists body. rewrite H.
  unfold PlaybookGenerator.greeting, PlaybookGenerator.signature.
  rewrite !append_assoc. reflexivity.
Qed.

(** X19.  The outreach template each detected wedge selects: the pain-point,
    buying-signal, thought-leadership and technical wedges their own
    template, both job-change wedges the job-change template, and the
    active-poster and company-initiative wedges the general template. *)
Theorem outreach_template_by_rule (now : Z) (profile : option Profile)
    (posts : list Post) (signals : list Signal)
    (github : option GithubActivity) (contact : Contact)
    (all : list Wedge.t) (w : Wedge.t) :
  WedgeDetector.allWedges now profile posts signals github = Ok all ->
  In w all ->
  let out := PlaybookGenerator.generateOutreach contact w profile posts in
  (Wedge.type w = "linkedin_pain_point"
   /\ out = PlaybookGenerator.generatePainPointOutreach contact w profile posts)
  \/ (Wedge.type w = "linkedin_buying_signal"
      /\ out = PlaybookGenerator.generateBuyingSignalOutreach contact w profile
                 posts)
  \/ ((Wedge.type w = "linkedin_job_change_recent"
       \/ Wedge.type w = "linkedin_job_change_optimal")
      /\ out = PlaybookGenerator.generateJobChangeOutreach contact w profile
                 posts)
  \/ (Wedge.type w = "linkedin_thought_leadership"
      /\ out = PlaybookGenerator.generateThoughtLeadershipOutreach contact w
                 profile posts)
  \/ (Wedge.type w = "technical_buyer"
      /\ out = PlaybookGenerator.generateTechnicalOutreach contact w profile
                 posts)
  \/ ((Wedge.type w = "linkedin_active_poster"
       \/ Wedge.type w = "company_initiative")
      /\ out = PlaybookGenerator.generateGeneralOutreach contact w profile
                 posts).
Proof.
  intros Hall H out.
  apply (allWedges_In now profile posts signals github all w Hall) in H.
  destruct H as [H|[H|[H|[H|[H|H]]]]]; wedge_origin H.
  - left. split; reflexivity.
  - right; left. split; reflexivity.
  - right; right; left. split; [left|]; reflexivity.
  - right; right; left. split; [right|]; reflexivity.
  - right; right; right; left. split; reflexivity.
  - right; right; right; right; right. split; [left|]; reflexivity.
  - right; right; right; right; left. split; reflexivity.
  - right; right; right; right; right. split; [right|]; reflexivity.
Qed.

Lemma outreach_template_by_rule_witness :
  PlaybookGenerator.generateOutreach Sample.contact
    (WedgeDetector.recentJobChangeWedge 4) (Some (Sample.profile (Some 4%Z)))
    [Sample.painPost]
  = PlaybookGenerator.generateJobChangeOutreach Sample.contact
      (WedgeDetector.recentJobChangeWedge 4) (Some (Sample.profile (Some 4%Z)))
      [Sample.painPost].
Proof.
  destruct (outreach_template_by_rule Sample.now
              (Some (Sample.profile (Some 4%Z))) [Sample.painPost] [] None
              Sample.contact
              [WedgeDetector.painPointWedge Sample.now Sample.painPost
                 "forecasting is broken";
               WedgeDetector.recentJobChangeWedge 4]
              (WedgeDetector.recentJobChangeWedge 4))
    as [[H _]|[[H _]|[[_ H]|[[H _]|[[H _]|[[H|H] _]]]]]];
    try discriminate H.
  - reflexivity.
  - right. left. reflexivity.
  - exact H.
Defined.

Lemma recent_wedge_tenure (p : Profile) (signals : list Signal) :
  (exists t, WedgeDetector.detectJobChangeWedges (Some p) signals
             = [WedgeDetector.recentJobChangeWedge t])
  <-> exists t, current_position_tenure_months p = Some t
                /\ t <> 0%Z /\ (t < 6)%Z.
Proof.
  unfold WedgeDetector.detectJobChangeWedges.
  destruct (current_position_tenure_months p) as [t|].
  2:{ split; [intros [t H]; discriminate H | intros (t & H & _); discriminate H]. }
  unfold truthy_int.
  destruct (Z.eqb_spec t 0) as [->|Hz]; cbn [negb].
  { split; [intros [t H]; discriminate H|].
    intros (t & H & Hne & _). injection H as <-. congruence. }
  destruct (Z.ltb_spec t 6) as [H6|H6].
  - split; intros _; exists t; [repeat split; assumption | reflexivity].
  - split.
    + intros [t' H]. destruct ((6 <=? t) && (t <=? 12))%Z; discriminate H.
    + intros (t' & H & _ & Hlt). injection H as <-. lia.
Qed.

Lemma clay_recent_tenure (p : Profile) :
  ClayFormatter.recentJobChange (Some p) = true
  <-> exists t, current_position_tenure_months p = Some t
                /\ t <> 0%Z /\ (t < 6)%Z.
Proof.
  unfold ClayFormatter.recentJobChange, truthy_int.
  destruct (current_position_tenure_months p) as [t|].
  2:{ split; [discriminate | intros (t & H & _); discriminate H]. }
  destruct (Z.eqb_spec t 0) as [->|Hz]; cbn [negb or_zero].
  { split; [discriminate|].
    intros (t & H & Hne & _). injection H as <-. congruence. }
  rewrite Z.ltb_lt. split.
  - intro H. exists t. repeat split; assumption.
  - intros (t' & H & _ & Hlt). injection H as <-. exact Hlt.
Qed.

Lemma context_recent_tenure (p : Profile) (posts : list Post)
    (primaryWedge : Wedge.t) (ctx : Playbook.LinkedInContext) :
  PlaybookGenerator.buildLinkedInContext (Some p) posts primaryWedge
  = Ok (Some ctx) ->
  ((exists ps, Playbook.profile_signals ctx = Some ps
               /\ Playbook.recent_change ps = true)
   <-> exists t, current_position_tenure_months p = Some t
                 /\ t <> 0%Z /\ (t < 6)%Z).
Proof.
  unfold PlaybookGenerator.buildLinkedInContext, Js.bind.
  match goal with
  | |- match ?trigger with _ => _ end = _ -> _ =>
      destruct trigger as [tp|m]; [|discriminate]
  end.
  intro H. injection H as <-. cbn [Playbook.profile_signals].
  unfold truthy_int.
  destruct (current_position_tenure_months p) as [t|].
  2:{ split; [intros (ps & H & _); discriminate H
             | intros (t & H & _); discriminate H]. }
  destruct (Z.eqb_spec t 0) as [->|Hz]; cbn [negb].
  { split.
    - intros (ps & Hps & _). discriminate Hps.
    - intros (t & H & Hne & _). injection H as <-. congruence. }
  split.
  - intros (ps & Hps & Hr). injection Hps as <-.
    cbn [Playbook.recent_change] in Hr. apply Z.ltb_lt in Hr.
    exists t. repeat split; assumption.
  - intros (t' & H & _ & Hlt). injection H as <-.
    eexists. split; [reflexivity|].
    cbn [Playbook.recent_change]. now apply Z.ltb_lt.
Qed.

Lemma context_built (p : Profile) (posts : list Post) (w : Wedge.t) :
  contextBuilds (Some p) posts w ->
  exists ctx,
    PlaybookGenerator.buildLinkedInContext (Some p) posts w = Ok (Some ctx).
Proof.
  intro H. apply context_builds in H. revert H.
  unfold PlaybookGenerator.buildLinkedInContext, Js.bind.
  match goal with
  | |- is_ok (match ?trigger with _ => _ end) = _ -> _ =>
      destruct trigger as [tp|m]; [|discriminate]
  end.
  intros _. eexists. reflexivity.
Qed.

(** X20.  The three places that judge a job change recent agree: for a
    profile row, the Clay flag linkedin_recent_job_change, the recent_change
    field of the playbook's LinkedIn context (whenever the context is built,
    which it is unless the trigger post has no content), and the detector's
    recent job-change wedge all hold for the same tenures, those below 6
    months other than 0. *)
Theorem recent_job_change_readings_agree (p : Profile) (signals : list Signal)
    (posts : list Post) (primaryWedge : Wedge.t) :
  let recentWedge :=
    exists t, WedgeDetector.detectJobChangeWedges (Some p) signals
              = [WedgeDetector.recentJobChangeWedge t] in
  (ClayFormatter.recentJobChange (Some p) = true <-> recentWedge)
  /\ (forall ctx,
        PlaybookGenerator.buildLinkedInContext (Some p) posts primaryWedge
        = Ok (Some ctx) ->
        ((exists ps, Playbook.profile_signals ctx = Some ps
                     /\ Playbook.recent_change ps = true) <-> recentWedge))
  /\ (contextBuilds (Some p) posts primaryWedge ->
      exists ctx,
        PlaybookGenerator.buildLinkedInContext (Some p) posts primaryWedge
        = Ok (Some ctx))
  /\ (recentWedge <->
      exists t, current_position_tenure_months p = Some t
                /\ t <> 0%Z /\ (t < 6)%Z).
Proof.
  intro recentWedge. unfold recentWedge.
  split; [rewrite clay_recent_tenure, recent_wedge_tenure; reflexivity|].
  split.
  - intros ctx Hctx.
    rewrite (context_recent_tenure p posts primaryWedge ctx Hctx),
      recent_wedge_tenure.
    reflexivity.
  - split; [apply context_built | apply recent_wedge_tenure].
Qed.

Lemma totalEngagement_nonneg (posts : list Post) :
  (forall q, In q posts -> (0 <= or_zero (engagement_count q))%Z) ->
  (0 <= totalEngagement posts)%Z.
Proof.
  induction posts as [|p l IH]; simpl; intro H; [lia|].
  pose proof (H p (or_introl eq_refl)).
  assert (0 <= totalEngagement l)%Z by (apply IH; intros q Hq; apply H; now right).
  unfold totalEngagement in *. lia.
Qed.

(** X21.  A post that triggers the high-engagement wedge is rated
    "very high" by the playbook's engagement assessment against the same
    average, provided no fetched post has a negative engagement count. *)
Theorem high_engagement_post_rated_very_high (posts : list Post) (p : Post) :
  (forall q, In q posts -> (0 <= or_zero (engagement_count q))%Z) ->
  In p posts ->
  WedgeDetector.highEngagement (WedgeDetector.avgEngagement posts) p = true ->
  PlaybookGenerator.assessEngagementLevel (engagement_count p)
    (WedgeDetector.avgEngagement posts) = "very high".
Proof.
  intros Hpos Hp Hhigh.
  apply highEngagement_spec in Hhigh. unfold exceedsTwiceAverage in Hhigh.
  rewrite avgEngagement_spec.
  assert (Hlen : 0 < inject_Z (Z.of_nat (List.length posts))).
  { destruct posts; [destruct Hp|].
    change 0 with (inject_Z 0). rewrite <- Zlt_Qlt. simpl List.length. lia. }
  assert (Havg : 0 <= averageEngagement posts).
  { unfold averageEngagement. apply Qle_shift_div_l; [exact Hlen|].
    rewrite Qmult_0_l. change 0 with (inject_Z 0). rewrite <- Zle_Qle.
    now apply totalEngagement_nonneg. }
  unfold PlaybookGenerator.assessEngagementLevel.
  set (avg := averageEngagement posts) in *.
  set (e := inject_Z (or_zero (engagement_count p))) in *.
  destruct (Qeq_bool avg 0) eqn:E0.
  - apply Qeq_bool_iff in E0.
    assert (He : Qltb 0 e = true) by (apply Qltb_lt; lra).
    now rewrite He.
  - assert (Hne : ~ avg == 0).
    { intro Hc. apply Qeq_bool_iff in Hc. congruence. }
    assert (Hgt : 0 < avg) by (apply Qle_lteq in Havg; destruct Havg as [H|H];
                               [exact H | exfalso; apply Hne; now symmetry]).
    assert (H2 : Qle_bool 2 (e / avg) = true).
    { apply Qle_bool_iff. apply Qle_shift_div_l; [exact Hgt | lra]. }
    now rewrite H2.
Qed.

Lemma high_engagement_post_rated_very_high_witness :
  PlaybookGenerator.assessEngagementLevel (engagement_count Sample.loud)
    (WedgeDetector.avgEngagement Sample.viral) = "very high".
Proof.
  apply high_engagement_post_rated_very_high.
  - intros q [<-|[<-|[<-|[<-|[<-|[<-|[]]]]]]]; vm_compute; discriminate.
  - left. reflexivity.
  - reflexivity.
Defined.

(** X22.  A signal whose relevance is k hundredths is rendered as evidence
    with the percentage k: "<description> (relevance: k%)". *)
Theorem evidence_shows_relevance_percent (signal : ScoredSignal) (k : Z) :
  relevance_score (scored signal) == inject_Z k / 100 ->
  PlaybookGenerator.formatSignalAsEvidence signal
  = (description (scored signal) ++ " (relevance: " ++ show_int k ++ "%)")%string.
Proof.
  intro H. unfold PlaybookGenerator.formatSignalAsEvidence, Js.round.
  assert (Hk : relevance_score (scored signal) * 100 + (1 # 2)
               == inject_Z k + (1 # 2)).
  { rewrite H. field. }
  rewrite Hk.
  assert (Hf : Qfloor (inject_Z k + (1 # 2)) = k).
  { assert (Hlo : (k <= Qfloor (inject_Z k + (1 # 2)))%Z).
    { rewrite <- (Qfloor_Z k) at 1. apply Qfloor_resp_le. lra. }
    assert (Hhi : (Qfloor (inject_Z k + (1 # 2)) < k + 1)%Z).
    { rewrite Zlt_Qlt. eapply Qle_lt_trans; [apply Qfloor_le|].
      rewrite inject_Z_plus. change (inject_Z 1) with 1. lra. }
    lia. }
  now rewrite Hf.
Qed.

Lemma evidence_shows_relevance_percent_witness :
  PlaybookGenerator.formatSignalAsEvidence
    (SignalScorer.boost default_config
       (Sample.signal "github_activity" "technical" 0.85 0.5 0.5))
  = "sample signal (relevance: 85%)".
Proof.
  apply (evidence_shows_relevance_percent
           (SignalScorer.boost default_config
              (Sample.signal "github_activity" "technical" 0.85 0.5 0.5))
           85).
  reflexivity.
Defined.

Lemma append_nil_r (s : string) : (s ++ "")%string = s.
Proof. induction s as [|c s IH]; simpl; [reflexivity | now rewrite IH]. Qed.

Lemma join_cons (sep x : string) (l : list string) :
  Js.join sep (x :: l)
  = (x ++ match l with
          | [] => ""
          | _ :: _ => sep ++ Js.join sep l
          end)%string.
Proof. destruct l; simpl; [now rewrite append_nil_r | reflexivity]. Qed.

(** X23.  The timing rationale always opens with the primary wedge's own
    rationale, and it is exactly that rationale when the job-change rule
    emits nothing for the profile and no top signal has an urgency above
    0.8. *)
Theorem timing_rationale_opens_with_wedge (primaryWedge : Wedge.t)
    (profile : option Profile) (signals : list ScoredSignal)
    (stored : list Signal) :
  (exists rest,
      PlaybookGenerator.buildTimingRationale primaryWedge profile signals
      = (Wedge.timingRationale primaryWedge ++ rest)%string)
  /\ (WedgeDetector.detectJobChangeWedges profile stored = [] ->
      (forall s, In s signals -> urgency_score (scored s) <= 0.8) ->
      PlaybookGenerator.buildTimingRationale primaryWedge profile signals
      = Wedge.timingRationale primaryWedge).
Proof.
  unfold PlaybookGenerator.buildTimingRationale. split.
  - cbn [app]. rewrite join_cons. eexists. reflexivity.
  - intros Hjob Hurgent.
    rewrite (filter_none _ signals).
    2:{ intros s Hs. apply Qltb_ge. apply Hurgent, Hs. }
    cbn [List.length Nat.ltb Nat.leb].
    assert (Htenure :
      match profile with
      | Some p =>
          match current_position_tenure_months p with
          | Some tenure =>
              if negb (truthy_int (Some tenure)) then []
              else if (tenure <? 6)%Z
              then ["In first 6 months of new role - actively evaluating tools and processes"]
              else if ((6 <=? tenure) && (tenure <=? 12))%Z
              then ["Past honeymoon phase - has context to identify gaps and push for changes"]
              else []
          | None => []
          end
      | None => []
      end = []).
    { unfold WedgeDetector.detectJobChangeWedges in Hjob.
      destruct profile as [p|]; [|reflexivity].
      destruct (current_position_tenure_months p) as [t|]; [|reflexivity].
      destruct (negb (truthy_int (Some t))); [reflexivity|].
      destruct (t <? 6)%Z; [discriminate Hjob|].
      destruct ((6 <=? t) && (t <=? 12))%Z; [discriminate Hjob | reflexivity]. }
    rewrite Htenure. reflexivity.
Qed.

Lemma timing_rationale_opens_with_wedge_witness :
  PlaybookGenerator.buildTimingRationale
    (WedgeDetector.painPointWedge Sample.now Sample.painPost
       "forecasting is broken")
    (Some (Sample.profile (Some 30%Z))) []
  = Wedge.timingRationale
      (WedgeDetector.painPointWedge Sample.now Sample.painPost
         "forecasting is broken").
Proof.
  apply (proj2 (timing_rationale_opens_with_wedge
                  (WedgeDetector.painPointWedge Sample.now Sample.painPost
                     "forecasting is broken")
                  (Some (Sample.profile (Some 30%Z))) [] [])).
  - reflexivity.
  - intros s [].
Defined.

Lemma find_exists {A} (f : A -> bool) (l : list A) (x : A) :
  In x l -> f x = true -> exists y, List.find f l = Some y /\ f y = true.
Proof.
  induction l as [|a l IH]; intros Hin Hx; [destruct Hin|]. simpl.
  destruct (f a) eqn:Ea; [eauto|].
  destruct Hin as [->|Hin]; [congruence | now apply IH].
Qed.

(** X24.  With a profile row, when the primary wedge is the pain-point
    wedge of a fetched post that has a URL, the trigger post is the first
    fetched post with that URL: when it has a content, the playbook's
    LinkedIn context carries a trigger post with that URL whose summary is
    the first 150 characters of the content followed by three dots; when it
    has none, building the context throws.  A job-change wedge refers to no
    post, so the context has no trigger post.  Without a profile row the
    context is null. *)
Theorem trigger_post_of_primary_wedge (now : Z) (p : Profile)
    (posts : list Post) (post : Post) (content : string) :
  In post posts -> truthy_str (post_url post) = true ->
  let w := WedgeDetector.painPointWedge now post content in
  (exists q, triggerPostFor posts w q /\ post_url q = post_url post)
  /\ (forall q c,
        triggerPostFor posts w q -> post_content q = Some c ->
        exists ctx trigger,
          PlaybookGenerator.buildLinkedInContext (Some p) posts w
          = Ok (Some ctx)
          /\ Playbook.trigger_post ctx = Some trigger
          /\ Playbook.url trigger = post_url post
          /\ Playbook.content_summary trigger
             = (substring0 150 c ++ "...")%string)
  /\ (forall q,
        triggerPostFor posts w q -> post_content q = None ->
        PlaybookGenerator.buildLinkedInContext (Some p) posts w
        = Err "Cannot read properties of null (reading 'substring')")
  /\ (forall t ctx,
        PlaybookGenerator.buildLinkedInContext (Some p) posts
          (WedgeDetector.recentJobChangeWedge t) = Ok (Some ctx)
        \/ PlaybookGenerator.buildLinkedInContext (Some p) posts
             (WedgeDetector.optimalJobChangeWedge t) = Ok (Some ctx) ->
        Playbook.trigger_post ctx = None)
  /\ PlaybookGenerator.buildLinkedInContext None posts w = Ok None.
Proof.
  intros Hin Hurl w.
  assert (Hcall : startsWith (Wedge.type w) "linkedin_"
                  && truthy_str (Wedge.postUrl_of (Wedge.details w)) = true).
  { unfold w. cbn [WedgeDetector.painPointWedge Wedge.type Wedge.details
                   Wedge.postUrl_of]. now rewrite Hurl. }
  assert (Hw : Wedge.postUrl_of (Wedge.details w) = post_url post)
    by reflexivity.
  split; [|split; [|split; [|split]]].
  - destruct (find_exists (fun q => same_str (post_url q) (post_url post))
                posts post Hin) as (y & Hy & Hsame).
    { now apply same_str_eq. }
    exists y. split; [|now apply same_str_eq].
    apply triggerPost_found. split; [exact Hcall|]. rewrite Hw. exact Hy.
  - intros q c Hq Hc. apply triggerPost_found in Hq. destruct Hq as [_ Hq].
    unfold PlaybookGenerator.buildLinkedInContext.
    rewrite Hcall, Hq, Hc. cbn [Js.prop Js.bind].
    do 2 eexists. split; [reflexivity|].
    cbn [Playbook.trigger_post]. split; [reflexivity|].
    cbn [PlaybookGenerator.triggerPostOf Playbook.url
         Playbook.content_summary].
    split; [|reflexivity].
    rewrite Hw in Hq. unfold Js.find in Hq. apply find_some in Hq.
    now apply same_str_eq.
  - intros q Hq Hc. apply triggerPost_found in Hq. destruct Hq as [_ Hq].
    unfold PlaybookGenerator.buildLinkedInContext.
    rewrite Hcall, Hq, Hc. reflexivity.
  - intros t ctx [H|H]; injection H as <-; reflexivity.
  - reflexivity.
Qed.

Lemma trigger_post_of_primary_wedge_witness :
  (exists ctx trigger,
      PlaybookGenerator.buildLinkedInContext (Some (Sample.profile (Some 4%Z)))
        [Sample.painPost]
        (WedgeDetector.painPointWedge Sample.now Sample.painPost
           "forecasting is broken") = Ok (Some ctx)
      /\ Playbook.trigger_post ctx = Some trigger
      /\ Playbook.url trigger = Some "p"
      /\ Playbook.content_summary trigger = "forecasting is broken...")
  /\ PlaybookGenerator.buildLinkedInContext (Some (Sample.profile (Some 4%Z)))
       [Sample.silent false false]
       (WedgeDetector.thoughtLeadershipWedge Sample.now 0
          (Sample.silent false false))
     = Err "Cannot read properties of null (reading 'substring')".
Proof.
  split; [|reflexivity].
  destruct (trigger_post_of_primary_wedge Sample.now
              (Sample.profile (Some 4%Z)) [Sample.painPost]
              Sample.painPost "forecasting is broken"
              (or_introl eq_refl) eq_refl) as ((q & Hq & _) & H & _).
  apply (H q "forecasting is broken" Hq).
  destruct Hq as (url & before & after & _ & _ & _ & Hposts & _).
  destruct before as [|x [|y before]]; try discriminate Hposts.
  injection Hposts as <- _. reflexivity.
Defined.

(** ** Clay formatter *)

(** X25.  The contact readiness score is a multiple of 10 between 0 and
    100, and at most 60 when the contact has no LinkedIn profile row. *)
Theorem contact_readiness_bounds (profile : option Profile)
    (posts : option (list Post)) (signals : option (list ScoredSignal))
    (playbook : option Playbook.t) :
  let score :=
    ClayFormatter.calculateContactReadiness profile posts signals playbook in
  (0 <= score <= 100)%Z
  /\ (score mod 10 = 0)%Z
  /\ (profile = None -> (score <= 60)%Z).
Proof.
  intro score. unfold score, ClayFormatter.calculateContactReadiness.
  destruct profile as [p|]; destruct posts as [l|];
    destruct signals as [sg|]; destruct playbook as [pb|];
    repeat match goal with
           | |- context [if ?b then _ else _] => destruct b
           end;
    cbn; repeat split; try lia; try reflexivity; try discriminate;
    intros; try discriminate; try lia.
Qed.

(** X26.  The display score the Clay formatter computes for an entry of the
    scorer's output is the entry's composite score as a rounded percentage,
    boost included. *)
Theorem display_score_is_composite_percent (cfg : Config)
    (signals : list Signal) (e : ScoredSignal) :
  In e (SignalScorer.scoreAndPrioritizeSignals cfg (Ok signals)) ->
  ClayFormatter.calculateDisplayScore e = Js.round (composite_score e * 100).
Proof.
  intro H. apply scoreAndPrioritizeSignals_In in H. destruct H as [H _].
  apply in_map_iff in H. destruct H as (s & <- & _).
  unfold ClayFormatter.calculateDisplayScore.
  rewrite boost_composite. unfold SignalScorer.calculateCompositeScore.
  assert (Hu : urgency_score (scored (SignalScorer.boost cfg s))
               = urgency_score s).
  { unfold SignalScorer.boost.
    destruct (SignalScorer.isLinkedInSignal (signal_type s)); reflexivity. }
  assert (Hw : wedge_potential (scored (SignalScorer.boost cfg s))
               = wedge_potential s).
  { unfold SignalScorer.boost.
    destruct (SignalScorer.isLinkedInSignal (signal_type s)); reflexivity. }
  rewrite Hu, Hw. reflexivity.
Qed.

Lemma display_score_is_composite_percent_witness :
  let s := Sample.signal "linkedin_content" "buying_signal" 0.95 0.95 0.95 in
  ClayFormatter.calculateDisplayScore (SignalScorer.boost default_config s)
  = 97%Z.
Proof.
  intro s.
  rewrite (display_score_is_composite_percent default_config [s]
             (SignalScorer.boost default_config s) (or_introl eq_refl)).
  reflexivity.
Defined.

(** X27.  The Clay formatter flags a contact high priority whenever the
    detector, on the same posts and clock, emits a pain-point wedge scoring
    above 1.0, and whenever it emits the recent job-change wedge for the
    same profile. *)
Theorem strong_wedge_means_high_priority (now : Z) (profile : option Profile)
    (posts : list Post) (stored : list Signal)
    (signals : option (list ScoredSignal)) :
  ((exists ws w, WedgeDetector.detectPainPointWedges now posts = Ok ws
                 /\ In w ws /\ 1.0 < Wedge.score w) ->
     ClayFormatter.isHighPriority now profile (Some posts) signals = true)
  /\ ((exists t, WedgeDetector.detectJobChangeWedges profile stored
                 = [WedgeDetector.recentJobChangeWedge t]) ->
      ClayFormatter.isHighPriority now profile (Some posts) signals = true).
Proof.
  unfold ClayFormatter.isHighPriority. split.
  - intros (ws & w & Hws & Hw & Hscore).
    apply (painPoint_cases now posts ws w Hws) in Hw.
    destruct Hw as (p & c & Hp & Hflag & _ & ->).
    assert (Hd : (WedgeDetector.getDaysSince now (post_date p) <? 14)%Z = true).
    { revert Hscore.
      cbn [WedgeDetector.painPointWedge Wedge.score].
      unfold WedgeDetector.recencyBoost.
      destruct (WedgeDetector.getDaysSince now (post_date p) <? 7)%Z eqn:E7.
      - intros _. apply Z.ltb_lt in E7. apply Z.ltb_lt. lia.
      - destruct (WedgeDetector.getDaysSince now (post_date p) <? 14)%Z;
          [reflexivity|].
        intro Hc. exfalso. revert Hc. vm_compute. discriminate. }
    assert (Hex : existsb
              (fun q => mentions_pain_points q
                        && (ClayFormatter.getDaysSince now (post_date q) <? 14)%Z)
              posts = true).
    { apply existsb_exists. exists p. split; [exact Hp|].
      rewrite Hflag. exact Hd. }
    rewrite Hex. now rewrite orb_true_r.
  - intros [t Ht].
    destruct profile as [p|]; [|discriminate Ht].
    assert (Hr : ClayFormatter.recentJobChange (Some p) = true).
    { apply clay_recent_tenure. apply (recent_wedge_tenure p stored). eauto. }
    now rewrite Hr.
Qed.

Lemma strong_wedge_means_high_priority_witness :
  ClayFormatter.isHighPriority Sample.now None (Some [Sample.painPost]) None
  = true.
Proof.
  apply (proj1 (strong_wedge_means_high_priority Sample.now None
                  [Sample.painPost] [] None)).
  exists [WedgeDetector.painPointWedge Sample.now Sample.painPost
            "forecasting is broken"],
    (WedgeDetector.painPointWedge Sample.now Sample.painPost
       "forecasting is broken").
  split; [reflexivity|]. split; [left; reflexivity|].
  vm_compute. reflexivity.
Defined.

(** ** Concrete instances of the remaining properties *)

Lemma technical_wedge_condition_witness :
  (exists w,
      WedgeDetector.detectTechnicalWedges
        [Sample.tagged "t" ["API"; "quota"]; Sample.tagged "u" ["quota"];
         Sample.tagged "v" ["developer"]]
        (Some (Sample.github 0.75)) = [w]
      /\ Wedge.details w
         = Wedge.Technical (Some 0.75) (Some [Some "OCaml"]) 2)
  /\ WedgeDetector.detectTechnicalWedges
       [Sample.tagged "t" ["api"]] (Some (Sample.github 0.75)) = [].
Proof.
  split.
  - destruct (proj1 (technical_wedge_condition
                       [Sample.tagged "t" ["API"; "quota"];
                        Sample.tagged "u" ["quota"];
                        Sample.tagged "v" ["developer"]]
                       (Some (Sample.github 0.75))))
      as (g & w & n & Hg & Hout & _ & _ & Hd & Hn & _).
    + exists (Sample.github 0.75), 0.75. repeat split.
    + exists (Sample.tagged "t" ["API"; "quota"]). split; [now left|].
      exists "API". split; now left.
    + exists w. split; [exact Hout|]. injection Hg as <-. rewrite Hd.
      f_equal. apply (Count_unique hasTechnicalTopic _ _ _ Hn).
      apply (Count_filter hasTechnicalTopic WedgeDetector.isTechnicalPost),
        isTechnicalPost_spec.
  - apply (proj2 (technical_wedge_condition [Sample.tagged "t" ["api"]]
                    (Some (Sample.github 0.75)))).
    intros (_ & p & [<-|[]] & t & [<-|[]] & Ht).
    repeat destruct Ht as [Ht|Ht]; try discriminate Ht. destruct Ht.
Defined.

Lemma initiative_wedge_for_first_signal_witness :
  let hiring := Sample.signal "company_hiring" "timing_trigger" 0.7 0.6 0.6 in
  let other := Sample.signal "linkedin_profile_change" "timing_trigger" 0.9 0.9 0.9 in
  exists w raw,
    WedgeDetector.detectInitiativeWedges [other; hiring; hiring] = [w]
    /\ Wedge.type w = "company_initiative" /\ Wedge.score w = 0.70
    /\ Wedge.details w = Wedge.Initiative (description hiring) raw.
Proof.
  intros hiring other.
  apply (proj1 (initiative_wedge_for_first_signal [other; hiring; hiring])
           [other] hiring [hiring]).
  - reflexivity.
  - intros q [<-|[]] [_ [H|H]]; discriminate H.
  - split; [reflexivity | left; reflexivity].
Defined.

Lemma playbook_persisted_iff_success_witness :
  exists pb,
    playbook (fst (PlaybookGenerator.generatePlaybook default_config Sample.now
                     (Sample.reads (Ok []) Sample.detectorOk) []))
    = Some pb
    /\ error (fst (PlaybookGenerator.generatePlaybook default_config Sample.now
                     (Sample.reads (Ok []) Sample.detectorOk) [])) = None
    /\ snd (PlaybookGenerator.generatePlaybook default_config Sample.now
              (Sample.reads (Ok []) Sample.detectorOk) []) = [pb].
Proof.
  apply (proj1 (playbook_persisted_iff_success default_config Sample.now
                  (Sample.reads (Ok []) Sample.detectorOk) [])).
  reflexivity.
Defined.
